(** * NSX-T fabric provisioning script: a shallow embedding and its properties

    The development follows [zpod_component_add_nsx.py].  The Python values
    that travel through the script (decoded JSON bodies) are embedded as the
    inductive type [json]; the operations the script applies to them
    ([.get], [in], [==], indexing, iteration, [str()], truthiness) are
    embedded with the behaviour of the interpreter, including the exceptions
    raised on values of the wrong shape.  The NSX client, the TLS socket, the
    clock and the database are collaborators of the script: they are the
    fields of a record [World], and every function of the script is a
    computation in a state-and-exception monad over a world, which also keeps
    the trace of the exchanges with the collaborators. *)

From Stdlib Require Import List String Ascii ZArith QArith Lia Lqa Bool.
From Stdlib Require Import DecimalString.
From Stdlib.Strings Require Byte.
Import ListNotations.
Local Open Scope string_scope.
Local Open Scope Z_scope.
Set Warnings "-register-all,-notation-for-abbreviation".


(* ===================================================================== *)
(** ** Strings *)
(* ===================================================================== *)

Module PyStr.

(** [needle in hay] on [str]. *)
Fixpoint contains (needle hay : string) : bool :=
  match hay with
  | EmptyString => String.prefix needle hay
  | String _ rest => String.prefix needle hay || contains needle rest
  end.

Definition is_upper (c : ascii) : bool :=
  ((65 <=? N_of_ascii c) && (N_of_ascii c <=? 90))%N.

Definition is_lower (c : ascii) : bool :=
  ((97 <=? N_of_ascii c) && (N_of_ascii c <=? 122))%N.

Definition lower_char (c : ascii) : ascii :=
  if is_upper c then ascii_of_N (N_of_ascii c + 32) else c.

Definition upper_char (c : ascii) : ascii :=
  if is_lower c then ascii_of_N (N_of_ascii c - 32) else c.

Fixpoint map_chars (f : ascii -> ascii) (s : string) : string :=
  match s with
  | EmptyString => EmptyString
  | String c rest => String (f c) (map_chars f rest)
  end.

(** [s.lower()] and [s.upper()]; strings are byte strings and only the
    ASCII letters have a case. *)
Definition lower (s : string) : string := map_chars lower_char s.
Definition upper (s : string) : string := map_chars upper_char s.

(** [s.replace(a, b)] for one-character [a] and [b]. *)
Definition replace_char (a b : ascii) (s : string) : string :=
  map_chars (fun c => if Ascii.eqb c a then b else c) s.

(** [s.split(sep)] for a one-character separator. *)
Fixpoint split_on (sep : ascii) (s : string) : list string :=
  match s with
  | EmptyString => [EmptyString]
  | String c rest =>
      let r := split_on sep rest in
      if Ascii.eqb c sep then EmptyString :: r
      else match r with
           | [] => [String c EmptyString]
           | h :: t => String c h :: t
           end
  end.

(** [s.split("/")[-1]] *)
Definition last_segment (s : string) : string :=
  List.last (split_on "/"%char s) EmptyString.

(** [sep.join(parts)] *)
Definition join (sep : string) (parts : list string) : string :=
  String.concat sep parts.

(** [[s[i:i+2] for i in range(0, len(s), 2)]] *)
Fixpoint pairs (s : string) : list string :=
  match s with
  | EmptyString => []
  | String a EmptyString => [String a EmptyString]
  | String a (String b rest) => String a (String b EmptyString) :: pairs rest
  end.

Definition of_Z (n : Z) : string := NilZero.string_of_int (Z.to_int n).

End PyStr.

(* ===================================================================== *)
(** ** Python values and exceptions *)
(* ===================================================================== *)

Module Py.

(** A decoded JSON value.  Numbers are integers; an object keeps its
    members in insertion order, as a Python [dict] does, under distinct keys
    (a lookup takes the first member under the key). *)
Inductive json : Type :=
| JNull
| JBool (b : bool)
| JNum (n : Z)
| JStr (s : string)
| JArr (items : list json)
| JObj (members : list (string * json)).

(** [Dict[str, Any]] *)
Definition dict : Type := list (string * json).

Inductive exn_class : Type :=
| ValueError | KeyError | IndexError | TypeError | AttributeError | UnboundLocalError
| TimeoutError | PlainException
| ClientError.  (* whatever a collaborator raises: transport, HTTP status, TLS *)

(** An exception object: its class and [str(e)].  Every class above derives
    from [Exception]. *)
Record exn : Type := mkExn { exn_kind : exn_class; exn_str : string }.

Inductive result (A : Type) : Type :=
| Ok (a : A)
| Err (e : exn).
Arguments Ok {A} a.
Arguments Err {A} e.

Definition rbind {A B} (r : result A) (k : A -> result B) : result B :=
  match r with
  | Ok a => k a
  | Err e => Err e
  end.

Definition type_name (j : json) : string :=
  match j with
  | JNull => "NoneType"
  | JBool _ => "bool"
  | JNum _ => "int"
  | JStr _ => "str"
  | JArr _ => "list"
  | JObj _ => "dict"
  end.

(** *** Dictionaries *)

Fixpoint dict_get (k : string) (d : dict) : option json :=
  match d with
  | [] => None
  | (k', v) :: rest => if String.eqb k k' then Some v else dict_get k rest
  end.

(** [k in d] *)
Definition dict_has (k : string) (d : dict) : bool :=
  match dict_get k d with Some _ => true | None => false end.

(** [d.get(k)] and [d.get(k, default)] *)
Definition dict_get_or (k : string) (default : json) (d : dict) : json :=
  match dict_get k d with Some v => v | None => default end.

(** [d[k] = v] *)
Fixpoint dict_set (k : string) (v : json) (d : dict) : dict :=
  match d with
  | [] => [(k, v)]
  | (k', v') :: rest =>
      if String.eqb k k' then (k', v) :: rest else (k', v') :: dict_set k v rest
  end.

(** *** Truthiness, equality *)

Definition truthy (j : json) : bool :=
  match j with
  | JNull => false
  | JBool b => b
  | JNum n => negb (n =? 0)
  | JStr s => negb (String.eqb s EmptyString)
  | JArr l => match l with [] => false | _ => true end
  | JObj m => match m with [] => false | _ => true end
  end.

Definition dict_truthy (d : dict) : bool :=
  match d with [] => false | _ => true end.

(** [a == b]; [True == 1] and [False == 0] hold, two [dict]s are equal when
    they have the same keys with equal values, in any order. *)
Fixpoint py_eq (a b : json) {struct a} : bool :=
  match a, b with
  | JNull, JNull => true
  | JBool x, JBool y => Bool.eqb x y
  | JBool x, JNum n => n =? (if x then 1 else 0)
  | JNum n, JBool x => n =? (if x then 1 else 0)
  | JNum x, JNum y => x =? y
  | JStr x, JStr y => String.eqb x y
  | JArr xs, JArr ys =>
      (fix go (xs ys : list json) {struct xs} : bool :=
         match xs, ys with
         | [], [] => true
         | x :: xs', y :: ys' => py_eq x y && go xs' ys'
         | _, _ => false
         end) xs ys
  | JObj m, JObj m' =>
      (List.length m =? List.length m')%nat &&
      (fix go (m : list (string * json)) {struct m} : bool :=
         match m with
         | [] => true
         | (k, v) :: rest =>
             match dict_get k m' with
             | Some v' => py_eq v v'
             | None => false
             end && go rest
         end) m
  | _, _ => false
  end.

(** *** [repr] and [str] *)

Definition hex_digit (n : N) : ascii :=
  if (n <? 10)%N then ascii_of_N (48 + n) else ascii_of_N (87 + n).

Definition repr_char (quote : ascii) (c : ascii) : string :=
  let n := N_of_ascii c in
  if Ascii.eqb c quote then String "\"%char (String c EmptyString)
  else if Ascii.eqb c "\"%char then "\\"
  else if (n =? 10)%N then "\n"
  else if (n =? 13)%N then "\r"
  else if (n =? 9)%N then "\t"
  else if ((n <? 32) || (n =? 127))%N then
    String "\"%char (String "x"%char
      (String (hex_digit (n / 16)) (String (hex_digit (n mod 16)) EmptyString)))
  else String c EmptyString.

Fixpoint repr_chars (quote : ascii) (s : string) : string :=
  match s with
  | EmptyString => EmptyString
  | String c rest => repr_char quote c ++ repr_chars quote rest
  end.

Definition apostrophe : ascii := ascii_of_N 39.
Definition dquote : ascii := ascii_of_N 34.

(** [repr(s)] of a [str]: single quotes, unless the text has a single quote
    and no double quote. *)
Definition repr_str (s : string) : string :=
  let q :=
    if PyStr.contains (String apostrophe EmptyString) s
       && negb (PyStr.contains (String dquote EmptyString) s)
    then dquote else apostrophe in
  String q (repr_chars q s ++ String q EmptyString).

Fixpoint repr (j : json) : string :=
  match j with
  | JNull => "None"
  | JBool true => "True"
  | JBool false => "False"
  | JNum n => PyStr.of_Z n
  | JStr s => repr_str s
  | JArr l =>
      "[" ++ PyStr.join ", "
               ((fix go (l : list json) : list string :=
                   match l with
                   | [] => []
                   | x :: r => repr x :: go r
                   end) l) ++ "]"
  | JObj m =>
      "{" ++ PyStr.join ", "
               ((fix go (m : list (string * json)) : list string :=
                   match m with
                   | [] => []
                   | (k, v) :: r => (repr_str k ++ ": " ++ repr v) :: go r
                   end) m) ++ "}"
  end.

(** [str(j)], which is what an f-string inserts. *)
Definition str (j : json) : string :=
  match j with
  | JStr s => s
  | _ => repr j
  end.

(** *** Operations on a value of unknown shape *)

Definition attribute_error (j : json) (attr : string) : exn :=
  mkExn AttributeError
    ("'" ++ type_name j ++ "' object has no attribute '" ++ attr ++ "'").

Definition key_error (k : string) : exn := mkExn KeyError (repr_str k).

(** [j.get(k)] and [j.get(k, default)] *)
Definition get_or (j : json) (k : string) (default : json) : result json :=
  match j with
  | JObj m => Ok (dict_get_or k default m)
  | _ => Err (attribute_error j "get")
  end.

Definition get (j : json) (k : string) : result json := get_or j k JNull.

(** [d[k]] on a [dict] *)
Definition dict_item (d : dict) (k : string) : result json :=
  match dict_get k d with
  | Some v => Ok v
  | None => Err (key_error k)
  end.

(** [j[k]] for a [str] key *)
Definition item (j : json) (k : string) : result json :=
  match j with
  | JObj m => dict_item m k
  | JStr _ => Err (mkExn TypeError "string indices must be integers, not 'str'")
  | JArr _ => Err (mkExn TypeError "list indices must be integers or slices, not str")
  | _ => Err (mkExn TypeError ("'" ++ type_name j ++ "' object is not subscriptable"))
  end.

(** [j[0]] *)
Definition item0 (j : json) : result json :=
  match j with
  | JArr (x :: _) => Ok x
  | JArr [] => Err (mkExn IndexError "list index out of range")
  | JStr (String c _) => Ok (JStr (String c EmptyString))
  | JStr EmptyString => Err (mkExn IndexError "string index out of range")
  | JObj _ => Err (mkExn KeyError "0")
  | _ => Err (mkExn TypeError ("'" ++ type_name j ++ "' object is not subscriptable"))
  end.

Fixpoint chars_of (s : string) : list json :=
  match s with
  | EmptyString => []
  | String c rest => JStr (String c EmptyString) :: chars_of rest
  end.

(** The elements [for x in j] runs over. *)
Definition iter (j : json) : result (list json) :=
  match j with
  | JArr l => Ok l
  | JObj m => Ok (map (fun kv => JStr (fst kv)) m)
  | JStr s => Ok (chars_of s)
  | _ => Err (mkExn TypeError ("'" ++ type_name j ++ "' object is not iterable"))
  end.

(** [needle in j] for a [str] needle *)
Definition contains (needle : string) (j : json) : result bool :=
  match j with
  | JStr s => Ok (PyStr.contains needle s)
  | JArr l => Ok (existsb (fun x => py_eq (JStr needle) x) l)
  | JObj m => Ok (dict_has needle m)
  | _ => Err (mkExn TypeError
                ("argument of type '" ++ type_name j ++ "' is not iterable"))
  end.

(** [len(j)] *)
Definition len (j : json) : result Z :=
  match j with
  | JStr s => Ok (Z.of_nat (String.length s))
  | JArr l => Ok (Z.of_nat (List.length l))
  | JObj m => Ok (Z.of_nat (List.length m))
  | _ => Err (mkExn TypeError ("object of type '" ++ type_name j ++ "' has no len()"))
  end.

(** [j.split("/")[-1]] *)
Definition split_last (j : json) : result string :=
  match j with
  | JStr s => Ok (PyStr.last_segment s)
  | _ => Err (attribute_error j "split")
  end.

(** [sep.join(items)] *)
Fixpoint join_from (i : nat) (items : list json) : result (list string) :=
  match items with
  | [] => Ok []
  | JStr s :: rest => rbind (join_from (S i) rest) (fun r => Ok (s :: r))
  | x :: _ =>
      Err (mkExn TypeError
             ("sequence item " ++ PyStr.of_Z (Z.of_nat i)
                ++ ": expected str instance, " ++ type_name x ++ " found"))
  end.

Definition join (sep : string) (items : list json) : result string :=
  rbind (join_from 0 items) (fun parts => Ok (PyStr.join sep parts)).

End Py.

(* ===================================================================== *)
(** ** [hashlib.sha256] *)
(* ===================================================================== *)

(** The digest of FIPS 180-4, on 32-bit words carried as [Z] with the
    wrap-around written out. *)
Module Sha256.

Definition word (x : Z) : Z := x mod 2 ^ 32.

Definition add (x y : Z) : Z := word (x + y).

Definition rotr (n x : Z) : Z :=
  Z.lor (Z.shiftr x n) (word (Z.shiftl x (32 - n))).

Definition shr (n x : Z) : Z := Z.shiftr x n.

Definition lnot (x : Z) : Z := Z.lxor x 0xffffffff.

Definition Ch (x y z : Z) : Z := Z.lxor (Z.land x y) (Z.land (lnot x) z).

Definition Maj (x y z : Z) : Z :=
  Z.lxor (Z.lxor (Z.land x y) (Z.land x z)) (Z.land y z).

Definition Sigma0 (x : Z) : Z := Z.lxor (Z.lxor (rotr 2 x) (rotr 13 x)) (rotr 22 x).
Definition Sigma1 (x : Z) : Z := Z.lxor (Z.lxor (rotr 6 x) (rotr 11 x)) (rotr 25 x).
Definition sigma0 (x : Z) : Z := Z.lxor (Z.lxor (rotr 7 x) (rotr 18 x)) (shr 3 x).
Definition sigma1 (x : Z) : Z := Z.lxor (Z.lxor (rotr 17 x) (rotr 19 x)) (shr 10 x).

(** The round constants are the first 32 bits of the fractional parts of the
    cube roots of the first 64 primes, the initial hash value those of the
    square roots of the first 8. *)
Definition is_prime (n : nat) : bool :=
  forallb (fun d => negb (Nat.eqb (Nat.modulo n d) 0)) (seq 2 (n - 2)).

Definition primes : list Z := map Z.of_nat (filter is_prime (seq 2 310)).

(** The integer cube root of [n], one bit at a time from bit 35 down. *)
Definition cube_root (n : Z) : Z :=
  fold_left
    (fun r i => let r' := r + 2 ^ Z.of_nat i in if r' * r' * r' <=? n then r' else r)
    (rev (seq 0 36)) 0.

Definition K : list Z :=
  Eval vm_compute in map (fun p => word (cube_root (p * 2 ^ 96))) primes.

(** The eight working words. *)
Record hash : Type := mkHash {
  ha : Z; hb : Z; hc : Z; hd : Z; he : Z; hf : Z; hg : Z; hh : Z
}.

Definition root_bits (p : Z) : Z := word (Z.sqrt (p * 2 ^ 64)).

Definition H0 : hash :=
  Eval vm_compute in
    mkHash (root_bits 2) (root_bits 3) (root_bits 5) (root_bits 7)
           (root_bits 11) (root_bits 13) (root_bits 17) (root_bits 19).

(** Padding: the bit 1, zeros up to 56 modulo 64 bytes, and the length in
    bits on 8 bytes, big end first. *)
Definition be_bytes (n : nat) (x : Z) : list Z :=
  map (fun i => (x / 2 ^ (8 * Z.of_nat i)) mod 256) (rev (seq 0 n)).

Definition pad (msg : list Z) : list Z :=
  let l := Z.of_nat (List.length msg) in
  msg ++ [0x80] ++ repeat 0 (Z.to_nat ((55 - l) mod 64)) ++ be_bytes 8 (8 * l).

Fixpoint be_words (bs : list Z) : list Z :=
  match bs with
  | b3 :: b2 :: b1 :: b0 :: rest =>
      (b3 * 2 ^ 24 + b2 * 2 ^ 16 + b1 * 2 ^ 8 + b0) :: be_words rest
  | _ => []
  end.

Fixpoint blocks (fuel : nat) (bs : list Z) : list (list Z) :=
  match fuel, bs with
  | S fuel', _ :: _ => be_words (firstn 64 bs) :: blocks fuel' (skipn 64 bs)
  | _, _ => []
  end.

(** The message schedule, kept newest word first while it is built. *)
Fixpoint extend (n : nat) (rw : list Z) : list Z :=
  match n with
  | O => rw
  | S n' =>
      let wt := add (add (add (sigma1 (nth 1 rw 0)) (nth 6 rw 0))
                         (sigma0 (nth 14 rw 0))) (nth 15 rw 0) in
      extend n' (wt :: rw)
  end.

Definition schedule (block : list Z) : list Z := rev (extend 48 (rev block)).

Definition round (s : hash) (kw : Z * Z) : hash :=
  let '(k, w) := kw in
  let t1 := add (add (add (add (hh s) (Sigma1 (he s))) (Ch (he s) (hf s) (hg s))) k) w in
  let t2 := add (Sigma0 (ha s)) (Maj (ha s) (hb s) (hc s)) in
  mkHash (add t1 t2) (ha s) (hb s) (hc s) (add (hd s) t1) (he s) (hf s) (hg s).

Definition compress (h : hash) (block : list Z) : hash :=
  let s := fold_left round (combine K (schedule block)) h in
  mkHash (add (ha h) (ha s)) (add (hb h) (hb s)) (add (hc h) (hc s))
         (add (hd h) (hd s)) (add (he h) (he s)) (add (hf h) (hf s))
         (add (hg h) (hg s)) (add (hh h) (hh s)).

Definition to_byte (x : Z) : Byte.byte :=
  byte_of_ascii (ascii_of_N (Z.to_N (x mod 256))).

Definition word_bytes (x : Z) : list Byte.byte :=
  [ to_byte (x / 2 ^ 24); to_byte (x / 2 ^ 16); to_byte (x / 2 ^ 8); to_byte x ].

Definition hash_bytes (h : hash) : list Byte.byte :=
  word_bytes (ha h) ++ word_bytes (hb h) ++ word_bytes (hc h) ++ word_bytes (hd h)
  ++ word_bytes (he h) ++ word_bytes (hf h) ++ word_bytes (hg h) ++ word_bytes (hh h).

(** [hashlib.sha256(data).digest()] *)
Definition digest (data : list Byte.byte) : list Byte.byte :=
  let bs := pad (map (fun b => Z.of_N (Byte.to_N b)) data) in
  hash_bytes (fold_left compress (blocks (List.length bs) bs) H0).

Definition hex_byte (b : Byte.byte) : string :=
  let n := Byte.to_N b in
  String (Py.hex_digit (n / 16)) (String (Py.hex_digit (n mod 16)) EmptyString).

(** [hashlib.sha256(data).hexdigest()]: two lower-case digits per byte. *)
Definition hexdigest (data : list Byte.byte) : string :=
  String.concat EmptyString (map hex_byte (digest data)).

End Sha256.

(* ===================================================================== *)
(** ** The collaborators and the monad of the script *)
(* ===================================================================== *)

Import Py.

Inductive http_method : Type := GET | POST | PUT.

(** [nsx.get(url=...)], [nsx.post(url=..., json=...)], [nsx.put(...)] *)
Record request : Type := mkRequest {
  req_method : http_method;
  req_url : string;
  req_json : option dict
}.

(** What the script reads of a response object: [status_code], and what
    [safejson()] does, which is to return the decoded body, a
    [Dict[str, Any]], or to raise. *)
Record response : Type := mkResponse {
  status_code : Z;
  safejson : result dict
}.

(** The fields of [zpod] the script reads. *)
Record Zpod : Type := mkZpod {
  domain : string;
  password : string
}.

(** The collaborators.  [backend] is their state, which each exchange may
    change.  The database session resolves the component to its zpod. *)
Record World : Type := mkWorld {
  backend : Type;
  nsx_send : request -> backend -> result response * backend;
  getpeercert : string -> Z -> backend -> result (option (list Byte.byte)) * backend;
  auth_by_zpod : Zpod -> backend -> result unit * backend;
  time_time : backend -> Q;
  time_sleep : Z -> backend -> backend;
  session_get_zpod : Z -> backend -> Zpod;
  get_setting_value : string -> backend -> json
}.

(** One entry of the trace per exchange with a collaborator. *)
Inductive event : Type :=
| Exchange (req : request) (reply : result response)
| PeerCert (host : string) (port : Z) (reply : result (option (list Byte.byte)))
| Auth (zpod : Zpod) (reply : result unit)
| Sleep (seconds : Z).

Inductive outcome (A : Type) : Type :=
| Return (a : A)
| Raise (e : exn)
| OutOfFuel.
Arguments Return {A} a.
Arguments Raise {A} e.
Arguments OutOfFuel {A}.

Section Script.

Variable Wd : World.

(** The state a run threads: the collaborators, the trace, and the local
    variable [status_data] of [verify_nsx_configuration_status], which
    outlives the exceptions caught inside that function ([None] while it
    is unbound). *)
Record state : Type := mkState {
  world : backend Wd;
  trace : list event;
  status_data : option dict
}.

Definition M (A : Type) : Type := state -> outcome A * state.

Definition ret {A} (a : A) : M A := fun s => (Return a, s).

Definition bind {A B} (m : M A) (k : A -> M B) : M B :=
  fun s =>
    match m s with
    | (Return a, s') => k a s'
    | (Raise e, s') => (Raise e, s')
    | (OutOfFuel, s') => (OutOfFuel, s')
    end.

Definition raise {A} (e : exn) : M A := fun s => (Raise e, s).

Definition out_of_fuel {A} : M A := fun s => (OutOfFuel, s).

(** [try: m  except Exception as e: handler e] *)
Definition try_except {A} (m : M A) (handler : exn -> M A) : M A :=
  fun s =>
    match m s with
    | (Raise e, s') => handler e s'
    | r => r
    end.

Definition lift {A} (r : result A) : M A :=
  match r with
  | Ok a => ret a
  | Err e => raise e
  end.

Definition emit (w : backend Wd) (ev : event) (s : state) : state :=
  mkState w (trace s ++ [ev]) (status_data s).

Definition nsx_call (m : http_method) (url : string) (json : option dict) : M response :=
  fun s =>
    let req := mkRequest m url json in
    let (reply, w) := nsx_send Wd req (world s) in
    (match reply with Ok r => Return r | Err e => Raise e end,
     emit w (Exchange req reply) s).

Definition nsx_get (url : string) : M response := nsx_call GET url None.
Definition nsx_post (url : string) (json : option dict) : M response := nsx_call POST url json.
Definition nsx_put (url : string) (json : dict) : M response := nsx_call PUT url (Some json).

(** [time.time()] *)
Definition time : M Q := fun s => (Return (time_time Wd (world s)), s).

(** [time.sleep(seconds)] *)
Definition sleep (seconds : Z) : M unit :=
  fun s => (Return tt, emit (time_sleep Wd seconds (world s)) (Sleep seconds) s).

End Script.

Arguments ret {Wd A} a.
Arguments bind {Wd A B} m k.
Arguments raise {Wd A} e.
Arguments out_of_fuel {Wd A}.
Arguments try_except {Wd A} m handler.
Arguments lift {Wd A} r.
Arguments world {Wd} s.
Arguments trace {Wd} s.
Arguments status_data {Wd} s.
Arguments mkState {Wd} world trace status_data.
Arguments emit {Wd} w ev s.
Arguments nsx_call {Wd} m url json.
Arguments nsx_get {Wd} url.
Arguments nsx_post {Wd} url json.
Arguments nsx_put {Wd} url json.
Arguments time {Wd}.
Arguments sleep {Wd} seconds.

Declare Scope script_scope.
Delimit Scope script_scope with script.
Notation "x <- m ;; k" := (bind m (fun x => k))
  (at level 61, m at next level, right associativity) : script_scope.
Notation "m ;; k" := (bind m (fun _ => k))
  (at level 61, right associativity) : script_scope.
Notation "'let?' x := r 'in' k" := (rbind r (fun x => k))
  (at level 10, x name, r at level 100, k at level 200).
Local Open Scope script_scope.

(* ===================================================================== *)
(** ** The script *)
(* ===================================================================== *)

Section Functions.

Variable Wd : World.
Local Notation M := (M Wd).

(** [for x in items: if x.get(field) == value: return x], then
    [return None]. *)
Fixpoint first_match (field value : string) (items : list json)
  : result (option dict) :=
  match items with
  | [] => Ok None
  | JObj x :: rest =>
      if py_eq (dict_get_or field JNull x) (JStr value) then Ok (Some x)
      else first_match field value rest
  | x :: _ => Err (attribute_error x "get")
  end.

(** [if existing: return existing], else the rest of the function. *)
Definition return_if_found {A} (existing : option dict)
  (found : dict -> M A) (otherwise : M A) : M A :=
  match existing with
  | Some d => if dict_truthy d then found d else otherwise
  | None => otherwise
  end.

(** [if "path" not in d and "id" in d: d["path"] = f"{prefix}{d['id']}"] *)
Definition ensure_path (prefix : string) (d : dict) : dict :=
  match dict_get "path" d, dict_get "id" d with
  | None, Some id => dict_set "path" (JStr (prefix ++ Py.str id)) d
  | _, _ => d
  end.

(** [if "already exists" in str(e).lower() or "duplicate" in str(e).lower()] *)
Definition says_duplicate (e : exn) : bool :=
  PyStr.contains "already exists" (PyStr.lower (exn_str e))
  || PyStr.contains "duplicate" (PyStr.lower (exn_str e)).

(** *** get_ssl_thumbprint *)

(** Lines 922-929: the TLS connection and [getpeercert(binary_form=True)]. *)
Definition peer_certificate (hostname : string) (port : Z)
  : M (option (list Byte.byte)) :=
  fun s =>
    let (reply, w) := getpeercert Wd hostname port (world s) in
    (match reply with Ok c => Return c | Err e => Raise e end,
     emit w (PeerCert hostname port reply) s).

(** [hashlib.sha256(cert).hexdigest()]; [cert] is [None] when the peer
    sent no certificate. *)
Definition sha256_hexdigest (cert : option (list Byte.byte)) : result string :=
  match cert with
  | Some data => Ok (Sha256.hexdigest data)
  | None => Err (mkExn TypeError "object supporting the buffer API required")
  end.

Definition get_ssl_thumbprint (hostname : string) (port : Z) : M string :=
  cert <- peer_certificate hostname port ;;
  thumbprint <- lift (sha256_hexdigest cert) ;;
  let formatted_thumbprint :=
    PyStr.join ":" (map PyStr.upper (PyStr.pairs thumbprint)) in
  ret formatted_thumbprint.

(** *** Compute manager *)

Definition get_existing_compute_manager (server_name : string) : M (option dict) :=
  try_except
    (response <- nsx_get "/api/v1/fabric/compute-managers" ;;
     compute_managers <- lift (safejson response) ;;
     results <- lift (Py.iter (dict_get_or "results" (JArr []) compute_managers)) ;;
     lift (first_match "server" server_name results))
    (fun e => ret None).

Definition compute_manager_payload (zpod : Zpod) (thumbprint : string) : dict :=
  let vsphere_hostname := "vcsa." ++ domain zpod in
  [ ("description", JStr "Compute Manager");
    ("display_name", JStr vsphere_hostname);
    ("server", JStr vsphere_hostname);
    ("create_service_account", JBool true);
    ("set_as_oidc_provider", JBool true);
    ("access_level_for_oidc", JStr "FULL");
    ("credential",
      JObj [ ("credential_type", JStr "UsernamePasswordLoginCredential");
             ("username", JStr ("administrator@" ++ domain zpod));
             ("password", JStr (password zpod));
             ("thumbprint", JStr thumbprint) ]);
    ("origin_type", JStr "vCenter") ].

(** The [try] block of [create_compute_manager]. *)
Definition post_compute_manager (payload : dict) : M dict :=
  response <- nsx_post "/api/v1/fabric/compute-managers" (Some payload) ;;
  result <- lift (safejson response) ;;
  ret result.

(** [if "already registered with NSX" in str(e) or "error_code" in str(e)] *)
Definition says_registered (e : exn) : bool :=
  PyStr.contains "already registered with NSX" (exn_str e)
  || PyStr.contains "error_code" (exn_str e).

Definition create_compute_manager (zpod : Zpod) : M dict :=
  let vsphere_hostname := "vcsa." ++ domain zpod in
  vsphere_thumbprint <- get_ssl_thumbprint vsphere_hostname 443 ;;
  existing_cm <- get_existing_compute_manager vsphere_hostname ;;
  return_if_found existing_cm (fun cm => ret cm)
    (try_except
       (post_compute_manager (compute_manager_payload zpod vsphere_thumbprint))
       (fun e =>
          if says_registered e then
            existing_cm <- get_existing_compute_manager vsphere_hostname ;;
            return_if_found existing_cm (fun cm => ret cm) (raise e)
          else raise e)).

Definition compute_manager_status_url (compute_manager_id : json) : string :=
  "/api/v1/fabric/compute-managers/" ++ Py.str compute_manager_id ++ "/status".

(** The [try] statement inside the loop of [check_compute_manager_status]:
    [true] when it returns from the function (the manager is UP). *)
Definition check_connection (compute_manager_id : json) : M bool :=
  try_except
    (response <- nsx_get (compute_manager_status_url compute_manager_id) ;;
     status_info <- lift (safejson response) ;;
     let connection_status := dict_get_or "connection_status" JNull status_info in
     if py_eq connection_status (JStr "UP") then ret true else ret false)
    (fun e => ret false).

(** [while time.time() - start_time < timeout]: [true] when the function
    returned from inside the loop, [false] when the loop ran out of time. *)
Fixpoint check_connection_loop (fuel : nat) (compute_manager_id : json)
  (timeout : Z) (start_time : Q) : M bool :=
  match fuel with
  | O => out_of_fuel
  | S fuel' =>
      now <- time ;;
      if Qle_bool (inject_Z timeout) (now - start_time) then ret false
      else
        up <- check_connection compute_manager_id ;;
        if up then ret true
        else sleep 10 ;;
             check_connection_loop fuel' compute_manager_id timeout start_time
  end.

(** The final check: both branches of the [try] and the handler return. *)
Definition final_connection_check (compute_manager_id : json) : M unit :=
  try_except
    (response <- nsx_get (compute_manager_status_url compute_manager_id) ;;
     status_info <- lift (safejson response) ;;
     let connection_status := dict_get_or "connection_status" JNull status_info in
     if py_eq connection_status (JStr "UP") then ret tt else ret tt)
    (fun final_e => ret tt).

Definition check_compute_manager_status (fuel : nat) (compute_manager_id : json)
  (timeout : Z) : M unit :=
  start_time <- time ;;
  returned <- check_connection_loop fuel compute_manager_id timeout start_time ;;
  if returned then ret tt else final_connection_check compute_manager_id.

(** *** IP block *)

Definition ip_block_prefix : string := "/api/v1/pools/ip-blocks/".

Definition get_existing_ip_block (display_name : string) : M (option dict) :=
  try_except
    (response <- nsx_get "/api/v1/pools/ip-blocks" ;;
     ip_blocks <- lift (safejson response) ;;
     results <- lift (Py.iter (dict_get_or "results" (JArr []) ip_blocks)) ;;
     block <- lift (first_match "display_name" display_name results) ;;
     ret (option_map (ensure_path ip_block_prefix) block))
    (fun e => ret None).

Definition ip_block_payload : dict :=
  [ ("resource_type", JStr "IpBlock");
    ("display_name", JStr "ip-block-vtep");
    ("cidr", JStr "172.16.20.0/24") ].

(** The [try] block of [create_ip_block]. *)
Definition post_ip_block : M dict :=
  response <- nsx_post "/api/v1/pools/ip-blocks" (Some ip_block_payload) ;;
  ip_block <- lift (safejson response) ;;
  ret (ensure_path ip_block_prefix ip_block).

Definition create_ip_block : M dict :=
  let display_name := "ip-block-vtep" in
  existing_block <- get_existing_ip_block display_name ;;
  return_if_found existing_block
    (fun block => ret (ensure_path ip_block_prefix block))
    (try_except post_ip_block
       (fun e =>
          if says_duplicate e then
            existing_block <- get_existing_ip_block display_name ;;
            return_if_found existing_block
              (fun block => ret (ensure_path ip_block_prefix block))
              (raise e)
          else raise e)).

(** *** IP pool *)

Definition ip_pool_prefix : string := "/policy/api/v1/infra/ip-pools/".

Definition get_existing_ip_pool (display_name : string) : M (option dict) :=
  try_except
    (response <- nsx_get "/policy/api/v1/infra/ip-pools" ;;
     ip_pools <- lift (safejson response) ;;
     results <- lift (Py.iter (dict_get_or "results" (JArr []) ip_pools)) ;;
     pool <- lift (first_match "display_name" display_name results) ;;
     ret (option_map (ensure_path ip_pool_prefix) pool))
    (fun e => ret None).

Definition ip_pool_payload (display_name : string) : dict :=
  [ ("resource_type", JStr "IpPool"); ("display_name", JStr display_name) ].

(** The [try] block of [create_ip_pool]. *)
Definition put_ip_pool (display_name : string) : M dict :=
  let pool_id :=
    PyStr.replace_char "_" "-" (PyStr.replace_char " " "-" (PyStr.lower display_name)) in
  response <- nsx_put (ip_pool_prefix ++ pool_id) (ip_pool_payload display_name) ;;
  ip_pool <- lift (safejson response) ;;
  ret (ensure_path ip_pool_prefix ip_pool).

Definition create_ip_pool : M dict :=
  let display_name := "ip-pool-vtep" in
  existing_pool <- get_existing_ip_pool display_name ;;
  return_if_found existing_pool (fun pool => ret pool)
    (try_except (put_ip_pool display_name)
       (fun e =>
          if says_duplicate e then
            existing_pool <- get_existing_ip_pool display_name ;;
            return_if_found existing_pool (fun pool => ret pool) (raise e)
          else raise e)).

(** *** Subnet *)

Definition subnet_config (pool_id : string) : dict :=
  [ ("resource_type", JStr "IpAddressPoolStaticSubnet");
    ("display_name", JStr ("subnet-" ++ pool_id));
    ("cidr", JStr "172.16.20.0/24");
    ("dns_nameservers", JArr []);
    ("allocation_ranges",
      JArr [ JObj [ ("start", JStr "172.16.20.1"); ("end", JStr "172.16.20.128") ] ]) ].

Definition subnet_url (pool_id subnet_id : string) : string :=
  "/api/v1/infra/ip-pools/" ++ pool_id ++ "/ip-subnets/" ++ subnet_id.

Definition create_block_subnet (pool_path block_path : json) : M dict :=
  pool_id <- lift (Py.split_last pool_path) ;;
  response <- nsx_get ("/api/v1/infra/ip-pools/" ++ pool_id ++ "/ip-subnets") ;;
  _ <- lift (safejson response) ;;
  let subnet_id := "subnet-" ++ pool_id in
  check <- try_except
             (check_response <- nsx_get (subnet_url pool_id subnet_id) ;;
              ret (Some check_response))
             (fun _ => ret None) ;;
  let add_subnet : M dict :=
    response <- nsx_put (subnet_url pool_id subnet_id) (subnet_config pool_id) ;;
    lift (safejson response) in
  match check with
  | Some check_response =>
      if status_code check_response =? 200
      then lift (safejson check_response)
      else add_subnet
  | None => add_subnet
  end.

(** *** Uplink host switch profile *)

Definition uplink_profile_payload : dict :=
  [ ("resource_type", JStr "PolicyUplinkHostSwitchProfile");
    ("description", JStr "Uplink host switch profile");
    ("display_name", JStr "Uplink host switch profile");
    ("transport_vlan", JNum 20);
    ("overlay_encap", JStr "GENEVE");
    ("teaming",
      JObj [ ("active_list",
               JArr [ JObj [ ("uplink_name", JStr "uplink1"); ("uplink_type", JStr "PNIC") ] ]);
             ("standby_list",
               JArr [ JObj [ ("uplink_name", JStr "uplink2"); ("uplink_type", JStr "PNIC") ] ]);
             ("policy", JStr "FAILOVER_ORDER") ]) ].

Definition create_uplink_host_switch_profile : M dict :=
  let display_name := "hsp" in
  response <- nsx_get ("/policy/api/v1/infra/host-switch-profiles/" ++ display_name) ;;
  existing_profile <- lift (safejson response) ;;
  if dict_truthy existing_profile && dict_has "id" existing_profile
  then ret existing_profile
  else
    response <- nsx_put ("/policy/api/v1/infra/host-switch-profiles/" ++ display_name)
                  uplink_profile_payload ;;
    lift (safejson response).

(** *** Transport zones *)

Definition tz_type_mapping (transport_type : string) : string :=
  if String.eqb transport_type "OVERLAY" then "OVERLAY_STANDARD"
  else if String.eqb transport_type "VLAN" then "VLAN_BACKED"
  else transport_type.

Fixpoint matching_zones (display_name expected_tz_type : string) (zones : list json)
  : result (list dict) :=
  match zones with
  | [] => Ok []
  | JObj zone :: rest =>
      let? tail := matching_zones display_name expected_tz_type rest in
      if py_eq (dict_get_or "display_name" JNull zone) (JStr display_name)
         && py_eq (dict_get_or "tz_type" JNull zone) (JStr expected_tz_type)
      then Ok (zone :: tail)
      else Ok tail
  | zone :: _ => Err (attribute_error zone "get")
  end.

Definition transport_zone_prefix : string :=
  "/infra/sites/default/enforcement-points/default/transport-zones/".

Definition get_transport_zone (display_name transport_type : string) : M dict :=
  response <- nsx_get
    "/policy/api/v1/infra/sites/default/enforcement-points/default/transport-zones" ;;
  zones <- lift (safejson response) ;;
  let expected_tz_type := tz_type_mapping transport_type in
  results <- lift (Py.iter (dict_get_or "results" (JArr []) zones)) ;;
  matching <- lift (matching_zones display_name expected_tz_type results) ;;
  match matching with
  | [] =>
      raise (mkExn ValueError
               ("Transport Zone '" ++ display_name ++ "' of type '"
                  ++ transport_type ++ "' not found"))
  | zone :: _ => ret (ensure_path transport_zone_prefix zone)
  end.

(** *** Transport node profile *)

Definition get_existing_transport_node_profile (display_name : string)
  : M (option dict) :=
  try_except
    (response <- nsx_get "/policy/api/v1/infra/host-transport-node-profiles" ;;
     tnps <- lift (safejson response) ;;
     results <- lift (Py.iter (dict_get_or "results" (JArr []) tnps)) ;;
     lift (first_match "display_name" display_name results))
    (fun e => ret None).

Fixpoint first_dvs (results : list json) : result (option json) :=
  match results with
  | [] => Ok None
  | JObj result :: rest =>
      if py_eq (dict_get_or "resource_type" JNull result) (JStr "DistributedVirtualSwitch")
      then
        let dvs_uuid := dict_get_or "uuid" JNull result in
        if truthy dvs_uuid then Ok (Some dvs_uuid) else first_dvs rest
      else first_dvs rest
  | result :: _ => Err (attribute_error result "get")
  end.

Definition get_dvs_from_compute_manager (compute_manager_id : json) : M json :=
  try_except
    (let query :=
       "(resource_type:DistributedVirtualSwitch AND _meta.productInfo.version:>=7000000000 AND !owner_nsx:OTHER AND origin_id:"
         ++ Py.str compute_manager_id ++ ")" in
     response <- nsx_get ("/policy/api/v1/search?query=" ++ query) ;;
     search_results <- lift (safejson response) ;;
     results <- lift (Py.iter (dict_get_or "results" (JArr []) search_results)) ;;
     dvs <- lift (first_dvs results) ;;
     match dvs with
     | Some dvs_uuid => ret dvs_uuid
     | None => ret (JStr "DSwitch")
     end)
    (fun e => ret (JStr "DSwitch")).

Definition transport_node_profile_payload (display_name : string)
  (ip_pool_path overlay_tz_path vlan_tz_path uplink_profile_path vsphere_dvs_id : json)
  : dict :=
  [ ("resource_type", JStr "TransportNodeProfile");
    ("display_name", JStr display_name);
    ("host_switch_spec",
      JObj [ ("resource_type", JStr "StandardHostSwitchSpec");
             ("host_switches",
               JArr [ JObj
                 [ ("host_switch_id", vsphere_dvs_id);
                   ("host_switch_type", JStr "VDS");
                   ("host_switch_mode", JStr "STANDARD");
                   ("host_switch_profile_ids",
                     JArr [ JObj [ ("key", JStr "UplinkHostSwitchProfile");
                                   ("value", uplink_profile_path) ] ]);
                   ("transport_zone_endpoints",
                     JArr [ JObj [ ("transport_zone_id", overlay_tz_path);
                                   ("transport_zone_profile_ids", JArr []) ];
                            JObj [ ("transport_zone_id", vlan_tz_path);
                                   ("transport_zone_profile_ids", JArr []) ] ]);
                   ("ip_assignment_spec",
                     JObj [ ("resource_type", JStr "StaticIpPoolSpec");
                            ("ip_pool_id", ip_pool_path) ]);
                   ("uplinks",
                     JArr [ JObj [ ("uplink_name", JStr "uplink1");
                                   ("vds_uplink_name", JStr "uplink1") ];
                            JObj [ ("uplink_name", JStr "uplink2");
                                   ("vds_uplink_name", JStr "uplink2") ] ]) ] ]) ]) ].

(** The [try] block of [create_transport_node_profile]. *)
Definition put_transport_node_profile (display_name : string) (payload : dict) : M dict :=
  response <- nsx_put ("/policy/api/v1/infra/host-transport-node-profiles/" ++ display_name)
                payload ;;
  lift (safejson response).

Definition create_transport_node_profile
  (ip_pool_path overlay_tz_path vlan_tz_path uplink_profile_path vsphere_dvs_id : json)
  : M dict :=
  let display_name := "tnp" in
  existing_tnp <- get_existing_transport_node_profile display_name ;;
  return_if_found existing_tnp (fun tnp => ret tnp)
    (try_except
       (put_transport_node_profile display_name
          (transport_node_profile_payload display_name ip_pool_path overlay_tz_path
             vlan_tz_path uplink_profile_path vsphere_dvs_id))
       (fun e =>
          if says_duplicate e then
            existing_tnp <- get_existing_transport_node_profile display_name ;;
            return_if_found existing_tnp (fun tnp => ret tnp) (raise e)
          else raise e)).

(** *** Compute collection *)

Definition get_compute_collection : M json :=
  let cluster_name := "Cluster" in
  response <- nsx_get ("/api/v1/fabric/compute-collections?display_name=" ++ cluster_name) ;;
  collections <- lift (safejson response) ;;
  if negb (truthy (dict_get_or "results" JNull collections))
  then raise (mkExn ValueError ("Compute Collection '" ++ cluster_name ++ "' not found"))
  else
    results <- lift (dict_item collections "results") ;;
    lift (Py.item0 results).

(** *** Host transport node collection *)

Definition get_existing_host_transport_node_collection (display_name : string)
  : M (option dict) :=
  try_except
    (response <- nsx_get "/api/v1/transport-node-collections" ;;
     htncs <- lift (safejson response) ;;
     results <- lift (Py.iter (dict_get_or "results" (JArr []) htncs)) ;;
     lift (first_match "display_name" display_name results))
    (fun e => ret None).

Definition htnc_payload (display_name : string) (compute_collection_id tnp_path : json)
  : dict :=
  [ ("resource_type", JStr "HostTransportNodeCollection");
    ("display_name", JStr display_name);
    ("compute_collection_id", compute_collection_id);
    ("transport_node_profile_id", tnp_path) ].

(** The [try] block of [create_host_transport_node_collection]. *)
Definition post_host_transport_node_collection (payload : dict) : M dict :=
  response <- nsx_post "/api/v1/transport-node-collections" (Some payload) ;;
  lift (safejson response).

Definition create_host_transport_node_collection (compute_collection_id tnp_path : json)
  : M dict :=
  let display_name := "Host transport node collection" in
  existing_htnc <- get_existing_host_transport_node_collection display_name ;;
  return_if_found existing_htnc (fun htnc => ret htnc)
    (try_except
       (post_host_transport_node_collection
          (htnc_payload display_name compute_collection_id tnp_path))
       (fun e =>
          if says_duplicate e then
            existing_htnc <- get_existing_host_transport_node_collection display_name ;;
            return_if_found existing_htnc (fun htnc => ret htnc) (raise e)
          else raise e)).

(** *** wait_for_htnc_realization *)

Definition realized_entity_url (htnc_path : json) : result string :=
  let? has_slash := Py.contains "/" htnc_path in
  let? htnc_id := (if has_slash then Py.split_last htnc_path else Ok (Py.str htnc_path)) in
  let realized_path :=
    "/infra/realized-state/enforcement-points/default/transport-node-collections/"
      ++ htnc_id in
  Ok ("/policy/api/v1/infra/realized-state/realized-entity?realized_path=" ++ realized_path).

Fixpoint realization_loop (fuel : nat) (htnc_path : json) (timeout : Z) (start_time : Q)
  : M unit :=
  match fuel with
  | O => out_of_fuel
  | S fuel' =>
      now <- time ;;
      if Qle_bool (inject_Z timeout) (now - start_time)
      then raise (mkExn TimeoutError
                    ("Timeout: Host Transport Node Collection " ++ Py.str htnc_path
                       ++ " not realized after " ++ PyStr.of_Z timeout ++ "s"))
      else
        url <- lift (realized_entity_url htnc_path) ;;
        response <- nsx_get url ;;
        state <- lift (safejson response) ;;
        if py_eq (dict_get_or "state" JNull state) (JStr "REALIZED") then ret tt
        else sleep 10 ;;
             realization_loop fuel' htnc_path timeout start_time
  end.

Definition wait_for_htnc_realization (fuel : nat) (htnc_path : json) (timeout : Z)
  : M unit :=
  start_time <- time ;;
  realization_loop fuel htnc_path timeout start_time.

(** *** verify_nsx_configuration_status *)

Definition max_attempts : Z := 60.

(** Lines 756-766: the transport nodes of this compute collection. *)
Fixpoint relevant_nodes (compute_collection_id : json) (nodes : list json)
  : result (list dict) :=
  match nodes with
  | [] => Ok []
  | JObj node :: rest =>
      let node_cc_id := dict_get_or "compute_collection_id" JNull node in
      let? node_cc_id :=
        (if negb (truthy node_cc_id) && dict_has "node_deployment_info" node
         then let? info := dict_item node "node_deployment_info" in
              Py.get info "compute_collection_id"
         else Ok node_cc_id) in
      let? tail := relevant_nodes compute_collection_id rest in
      if py_eq node_cc_id compute_collection_id then Ok (node :: tail) else Ok tail
  | node :: _ => Err (attribute_error node "get")
  end.

(** The three ways a pass over one node can end: the node is left alone
    (the branches printing [OK]), it is appended to [preparing_hosts]
    (the branches printing [WAITING] or [WARNING]), or it is appended to
    [failed_nodes] (the branches printing [ERROR]). *)
Inductive PollOutcome : Type := Ready | Preparing | Failed.

(** Lines 805-863.  When [status_data] has no ["status"] no branch runs and
    the node is left alone. *)
Definition node_verdict (status_data : dict) : result PollOutcome :=
  if dict_has "status" status_data then
    let? status := dict_item status_data "status" in
    let? has_deployment_status :=
      (if dict_has "node_status" status_data
       then let? node_status := dict_item status_data "node_status" in
            Py.contains "host_node_deployment_status" node_status
       else Ok false) in
    if has_deployment_status then
      let? node_status := dict_item status_data "node_status" in
      let? deployment_status := Py.item node_status "host_node_deployment_status" in
      if py_eq deployment_status (JStr "INSTALL_SUCCESSFUL") && py_eq status (JStr "UP")
      then Ok Ready
      else if py_eq deployment_status (JStr "INSTALL_SUCCESSFUL")
              && negb (py_eq status (JStr "UP"))
      then Ok Preparing
      else
        let? has_error := Py.contains "ERROR" deployment_status in
        let? failed :=
          (if has_error then Ok true else Py.contains "FAIL" deployment_status) in
        if failed then Ok Failed else Ok Preparing
    else
      if py_eq status (JStr "UP") then Ok Ready
      else if py_eq status (JStr "DOWN") then Ok Failed
      else if py_eq status (JStr "DEGRADED") then Ok Preparing
      else if py_eq status (JStr "UNKNOWN") then Ok Preparing
      else Ok Preparing
  else Ok Ready.

(** Lines 865-877: only [len] can raise there. *)
Definition node_report (status_data : dict) : result unit :=
  if dict_has "transport_zone_endpoints" status_data then
    let? endpoints := dict_item status_data "transport_zone_endpoints" in
    let? tz_count := Py.len endpoints in
    Ok tt
  else Ok tt.

(** The three variables an attempt accumulates. *)
Record tally : Type := mkTally {
  all_ready : bool;
  failed_nodes : list json;
  preparing_hosts : list json
}.

Definition fresh_tally : tally := mkTally true [] [].

Definition append_failed (display_name : json) (t : tally) : tally :=
  mkTally false (failed_nodes t ++ [display_name]) (preparing_hosts t).

Definition append_preparing (display_name : json) (t : tally) : tally :=
  mkTally false (failed_nodes t) (preparing_hosts t ++ [display_name]).

Definition record_verdict (v : PollOutcome) (display_name : json) (t : tally) : tally :=
  match v with
  | Ready => t
  | Preparing => append_preparing display_name t
  | Failed => append_failed display_name t
  end.

Definition bind_status_data (data : dict) : M unit :=
  fun s => (Return tt, mkState (world s) (trace s) (Some data)).

Definition unbind_status_data : M unit :=
  fun s => (Return tt, mkState (world s) (trace s) None).

(** Reading [status_data] while no assignment has reached it.  The message is
    the one of Python 3.11 and later; before, it read "local variable
    'status_data' referenced before assignment".  Neither has the words the
    handler of the poll looks for. *)
Definition unbound_status_data : exn :=
  mkExn UnboundLocalError
    "cannot access local variable 'status_data' where it is not associated with a value".

Definition read_status_data : M dict :=
  fun s =>
    match status_data s with
    | Some data => (Return data, s)
    | None => (Raise unbound_status_data, s)
    end.

Definition node_status_url (node_id : json) : string :=
  "/api/v1/transport-nodes/" ++ Py.str node_id ++ "/status".

(** Lines 786-877, the body of [for node in relevant_nodes]. *)
Definition check_node (node : dict) (t : tally) : M tally :=
  let node_id := dict_get_or "id" (JStr "Unknown") node in
  let display_name := dict_get_or "display_name" (JStr "Unknown") node in
  t <- try_except
         (status_response <- nsx_get (node_status_url node_id) ;;
          data <- lift (safejson status_response) ;;
          bind_status_data data ;;
          ret t)
         (fun e => ret (append_preparing display_name (append_failed display_name t))) ;;
  data <- read_status_data ;;
  verdict <- lift (node_verdict data) ;;
  let t := record_verdict verdict display_name t in
  lift (node_report data) ;;
  ret t.

Fixpoint check_nodes (nodes : list dict) (t : tally) : M tally :=
  match nodes with
  | [] => ret t
  | node :: rest => t' <- check_node node t ;; check_nodes rest t'
  end.

(** How one pass through the body of the [while] ends when it does not raise:
    [return], or on to the next iteration. *)
Inductive pass : Type := Finished | NextAttempt.

(** Lines 752-903, the [try] block of one attempt. *)
Definition verify_attempt (compute_collection_id : json) (attempt : Z) : M pass :=
  tn_response <- nsx_get "/api/v1/transport-nodes" ;;
  transport_nodes <- lift (safejson tn_response) ;;
  results <- lift (Py.iter (dict_get_or "results" (JArr []) transport_nodes)) ;;
  relevant <- lift (relevant_nodes compute_collection_id results) ;;
  match relevant with
  | [] =>
      if attempt <? max_attempts then sleep 10 ;; ret NextAttempt
      else raise (mkExn PlainException "No transport nodes found for compute collection")
  | _ :: _ =>
      t <- check_nodes relevant fresh_tally ;;
      match failed_nodes t with
      | _ :: _ =>
          names <- lift (Py.join ", " (failed_nodes t)) ;;
          raise (mkExn PlainException ("Host preparation failed for: " ++ names))
      | [] =>
          if all_ready t then ret Finished
          else if attempt <? max_attempts then sleep 10 ;; ret NextAttempt
          else raise (mkExn PlainException "Timeout waiting for host preparation")
      end
  end.

(** [if "failed" in str(e).lower() or "error" in str(e).lower()] *)
Definition says_failed (e : exn) : bool :=
  PyStr.contains "failed" (PyStr.lower (exn_str e))
  || PyStr.contains "error" (PyStr.lower (exn_str e)).

(** Lines 905-915, the handler of the attempt. *)
Definition verify_handler (attempt : Z) (e : exn) : M pass :=
  if says_failed e then raise e
  else if attempt <? max_attempts then sleep 10 ;; ret NextAttempt
  else raise e.

(** [while attempt < max_attempts]; [remaining] is [max_attempts - attempt],
    the number of iterations the counter still allows. *)
Fixpoint verify_loop (remaining : nat) (compute_collection_id : json) (attempt : Z)
  : M unit :=
  match remaining with
  | O => ret tt
  | S remaining' =>
      let attempt := attempt + 1 in
      p <- try_except (verify_attempt compute_collection_id attempt)
             (verify_handler attempt) ;;
      match p with
      | Finished => ret tt
      | NextAttempt => verify_loop remaining' compute_collection_id attempt
      end
  end.

Definition verify_nsx_configuration_status (compute_collection_id : json) : M unit :=
  unbind_status_data ;;
  verify_loop (Z.to_nat max_attempts) compute_collection_id 0.

(** *** execute_config_script *)

(** Lines 23-25: the component and its zpod, from the database session. *)
Definition load_zpod (zpod_component_id : Z) : M Zpod :=
  fun s => (Return (session_get_zpod Wd zpod_component_id (world s)), s).

(** [DBUtils.get_setting_value(name)] *)
Definition setting_value (name : string) : M json :=
  fun s => (Return (get_setting_value Wd name (world s)), s).

(** [NsxClient.auth_by_zpod(zpod=zpod)] *)
Definition nsx_auth (zpod : Zpod) : M unit :=
  fun s =>
    let (reply, w) := auth_by_zpod Wd zpod (world s) in
    (match reply with Ok u => Return u | Err e => Raise e end,
     emit w (Auth zpod reply) s).

(** Lines 32-34. *)
Definition accept_eula : M unit :=
  response <- nsx_post "/api/v1/eula/accept" None ;;
  _ <- lift (safejson response) ;;
  ret tt.

(** [if "error_code" in str(e) and "7050" in str(e)] *)
Definition says_code_7050 (e : exn) : bool :=
  PyStr.contains "error_code" (exn_str e) && PyStr.contains "7050" (exn_str e).

(** Step 1, lines 37-56. *)
Definition compute_manager_step (zpod : Zpod) : M dict :=
  try_except (create_compute_manager zpod)
    (fun e =>
       if says_code_7050 e then
         let vsphere_hostname := "vcsa." ++ domain zpod in
         existing_cm <- get_existing_compute_manager vsphere_hostname ;;
         return_if_found existing_cm (fun cm => ret cm) (raise e)
       else raise e).

(** Step 2, lines 59-66. *)
Definition connection_status_step (fuel : nat) (compute_manager : dict) : M unit :=
  try_except
    (compute_manager_id <- lift (dict_item compute_manager "id") ;;
     check_compute_manager_status fuel compute_manager_id 120)
    (fun e => ret tt).

(** Step 5, lines 77-86. *)
Definition block_subnet_step (ip_pool ip_block : dict) : M dict :=
  if negb (dict_has "path" ip_pool)
  then raise (mkExn ValueError "IP Pool object missing 'path' key")
  else if negb (dict_has "path" ip_block)
  then raise (mkExn ValueError "IP Block object missing 'path' key")
  else
    pool_path <- lift (dict_item ip_pool "path") ;;
    block_path <- lift (dict_item ip_block "path") ;;
    create_block_subnet pool_path block_path.

(** Steps 12 and 13, lines 125-140. *)
Definition realization_steps (fuel : nat) (htnc : dict) (compute_collection : json)
  : M unit :=
  let htnc_path := dict_get_or "path" JNull htnc in
  let verify (htnc_path : json) : M unit :=
    wait_for_htnc_realization fuel htnc_path 300 ;;
    compute_collection_id <- lift (Py.item compute_collection "external_id") ;;
    verify_nsx_configuration_status compute_collection_id in
  if negb (truthy htnc_path) && dict_has "id" htnc then
    id <- lift (dict_item htnc "id") ;;
    verify (JStr ("/transport-node-collections/" ++ Py.str id))
  else if negb (truthy htnc_path) then ret tt
  else verify htnc_path.

(** Lines 30-74: up to the IP pool. *)
Definition steps_to_ip_pool (fuel : nat) (zpod : Zpod) : M (dict * dict * dict) :=
  nsx_auth zpod ;;
  accept_eula ;;
  compute_manager <- compute_manager_step zpod ;;
  connection_status_step fuel compute_manager ;;
  ip_block <- create_ip_block ;;
  ip_pool <- create_ip_pool ;;
  ret (compute_manager, ip_block, ip_pool).

(** Lines 76-140: from the block subnet on. *)
Definition steps_from_subnet (fuel : nat) (compute_manager ip_block ip_pool : dict)
  : M unit :=
  _ <- block_subnet_step ip_pool ip_block ;;
  uplink_profile <- create_uplink_host_switch_profile ;;
  overlay_tz <- get_transport_zone "nsx-overlay-transportzone" "OVERLAY" ;;
  vlan_tz <- get_transport_zone "nsx-vlan-transportzone" "VLAN" ;;
  compute_manager_id <- lift (dict_item compute_manager "id") ;;
  vsphere_dvs_id <- get_dvs_from_compute_manager compute_manager_id ;;
  ip_pool_path <- lift (dict_item ip_pool "path") ;;
  overlay_tz_path <- lift (dict_item overlay_tz "path") ;;
  vlan_tz_path <- lift (dict_item vlan_tz "path") ;;
  uplink_profile_path <- lift (dict_item uplink_profile "path") ;;
  tnp <- create_transport_node_profile ip_pool_path overlay_tz_path vlan_tz_path
           uplink_profile_path vsphere_dvs_id ;;
  compute_collection <- get_compute_collection ;;
  let tnp_id := dict_get_or "unique_id" JNull tnp in
  compute_collection_id <- lift (Py.item compute_collection "external_id") ;;
  htnc <- create_host_transport_node_collection compute_collection_id tnp_id ;;
  realization_steps fuel htnc compute_collection.

Definition execute_config_script (fuel : nat) (zpod_component_id : Z) : M unit :=
  zpod <- load_zpod zpod_component_id ;;
  setting <- setting_value "ff_component_wait_for_status" ;;
  if negb (py_eq setting (JStr "true"))
  then raise (mkExn ValueError "ff_component_wait_for_status is not true")
  else
    resources <- steps_to_ip_pool fuel zpod ;;
    let '(compute_manager, ip_block, ip_pool) := resources in
    steps_from_subnet fuel compute_manager ip_block ip_pool.

End Functions.

(* ===================================================================== *)
(** ** A scripted world *)
(* ===================================================================== *)

(** Collaborators that answer from a table: the reply to a request depends on
    the request and on how many requests came before it; the clock moves
    only while the script sleeps. *)
Module Scripted.

Record sim : Type := mkSim { served : nat; clock : Q }.

Definition start : sim := mkSim 0 0.

Definition world_of
  (route : request -> nat -> result response)
  (cert : result (option (list Byte.byte)))
  (setting : json) : World :=
  mkWorld sim
    (fun req w => (route req (served w), mkSim (S (served w)) (clock w)))
    (fun _ _ w => (cert, w))
    (fun _ w => (Ok tt, w))
    clock
    (fun seconds w => mkSim (served w) (clock w + inject_Z seconds))
    (fun _ _ => mkZpod "zpod.example" "secret")
    (fun _ _ => setting).

Definition initial (Wd : World) (w : backend Wd) : state Wd := mkState w [] None.

Definition ok_json (body : dict) : result response := Ok (mkResponse 200 (Ok body)).

Definition fails (message : string) : result response := Err (mkExn ClientError message).

End Scripted.

(* ===================================================================== *)
(** ** Vocabulary of the statements *)
(* ===================================================================== *)

(** The five create-or-get functions of the script, with their arguments. *)
Inductive create_call : Type :=
| ComputeManager (zpod : Zpod)
| IpBlock
| IpPool
| TransportNodeProfile
    (ip_pool_path overlay_tz_path vlan_tz_path uplink_profile_path vsphere_dvs_id : json)
| HostTransportNodeCollection (compute_collection_id tnp_path : json).

Section Provisioner.

Variable Wd : World.

(** The create-or-get function of each kind. *)
Definition create_or_get (c : create_call) : M Wd dict :=
  match c with
  | ComputeManager zpod => create_compute_manager Wd zpod
  | IpBlock => create_ip_block Wd
  | IpPool => create_ip_pool Wd
  | TransportNodeProfile p o v u d => create_transport_node_profile Wd p o v u d
  | HostTransportNodeCollection cc tnp => create_host_transport_node_collection Wd cc tnp
  end.

(** The lookup each of them runs, with the name it looks for. *)
Definition find_existing (c : create_call) : M Wd (option dict) :=
  match c with
  | ComputeManager zpod => get_existing_compute_manager Wd ("vcsa." ++ domain zpod)
  | IpBlock => get_existing_ip_block Wd "ip-block-vtep"
  | IpPool => get_existing_ip_pool Wd "ip-pool-vtep"
  | TransportNodeProfile _ _ _ _ _ => get_existing_transport_node_profile Wd "tnp"
  | HostTransportNodeCollection _ _ =>
      get_existing_host_transport_node_collection Wd "Host transport node collection"
  end.

(** What runs before the lookup: the thumbprint of the vCenter for the
    compute manager, nothing for the other kinds. *)
Definition before_lookup (c : create_call) : M Wd string :=
  match c with
  | ComputeManager zpod => get_ssl_thumbprint Wd ("vcsa." ++ domain zpod) 443
  | _ => ret EmptyString
  end.

(** The [try] block that issues the create call. *)
Definition create_attempt (c : create_call) (thumbprint : string) : M Wd dict :=
  match c with
  | ComputeManager zpod =>
      post_compute_manager Wd (compute_manager_payload zpod thumbprint)
  | IpBlock => post_ip_block Wd
  | IpPool => put_ip_pool Wd "ip-pool-vtep"
  | TransportNodeProfile p o v u d =>
      put_transport_node_profile Wd "tnp" (transport_node_profile_payload "tnp" p o v u d)
  | HostTransportNodeCollection cc tnp =>
      post_host_transport_node_collection Wd
        (htnc_payload "Host transport node collection" cc tnp)
  end.

End Provisioner.

(** The test each handler applies to the error of the create call. *)
Definition recoverable (c : create_call) (e : exn) : bool :=
  match c with
  | ComputeManager _ => says_registered e
  | _ => says_duplicate e
  end.

(** The path normalisation each kind applies to what it returns. *)
Definition normalize (c : create_call) (d : dict) : dict :=
  match c with
  | IpBlock => ensure_path ip_block_prefix d
  | IpPool => ensure_path ip_pool_prefix d
  | _ => d
  end.

Definition is_create_call (ev : event) : bool :=
  match ev with
  | Exchange req _ =>
      match req_method req with
      | GET => false
      | POST | PUT => true
      end
  | _ => false
  end.

(** [raw] is an element of the listing [body]. *)
Definition listed (raw : dict) (body : dict) : Prop :=
  exists items,
    Py.iter (dict_get_or "results" (JArr []) body) = Ok items /\ In (JObj raw) items.

(** The backend sent [raw] in this exchange: as an element of the listing a
    [GET] returned, or as the body that answered a [POST] or a [PUT]. *)
Definition sent_in (raw : dict) (ev : event) : Prop :=
  match ev with
  | Exchange req (Ok resp) =>
      exists body,
        safejson resp = Ok body /\
        match req_method req with
        | GET => listed raw body
        | POST | PUT => body = raw
        end
  | _ => False
  end.

(** What the lookups compute from the reply to their listing request. *)
Definition lookup_result (field value : string) (post : dict -> dict)
  (reply : result response) : option dict :=
  match reply with
  | Ok resp =>
      match safejson resp with
      | Ok body =>
          match Py.iter (dict_get_or "results" (JArr []) body) with
          | Ok items =>
              match first_match field value items with
              | Ok (Some d) => Some (post d)
              | _ => None
              end
          | Err _ => None
          end
      | Err _ => None
      end
  | Err _ => None
  end.

Definition is_upper_hex (c : ascii) : bool :=
  let n := N_of_ascii c in
  (((48 <=? n) && (n <=? 57)) || ((65 <=? n) && (n <=? 70)))%N.

(** A group of the thumbprint: two upper-case hexadecimal digits. *)
Definition hex_group (g : string) : bool :=
  match g with
  | String a (String b EmptyString) => is_upper_hex a && is_upper_hex b
  | _ => false
  end.

(** The clock does not run backwards during a request, and a sleep lasts at
    least as long as asked. *)
Definition clock_advances (Wd : World) : Prop :=
  (forall req w, time_time Wd w <= time_time Wd (snd (nsx_send Wd req w)))%Q /\
  (forall seconds w,
     time_time Wd w + inject_Z seconds <= time_time Wd (time_sleep Wd seconds w))%Q.

(** The report of a transport node whose status fetch answered with a
    deployment status and a connectivity status. *)
Definition status_report (deployment_status connectivity_status : string) : dict :=
  [ ("status", JStr connectivity_status);
    ("node_status", JObj [ ("host_node_deployment_status", JStr deployment_status) ]) ].

(** The classification in the words of the specification: ready when the
    deployment status is install-successful and the connectivity status is
    UP, failed when the deployment status has an error or fail marker or the
    connectivity status is DOWN, preparing otherwise. *)
Definition specified_verdict (deployment_status connectivity_status : string)
  : PollOutcome :=
  if String.eqb deployment_status "INSTALL_SUCCESSFUL"
     && String.eqb connectivity_status "UP"
  then Ready
  else if PyStr.contains "ERROR" deployment_status
          || PyStr.contains "FAIL" deployment_status
          || String.eqb connectivity_status "DOWN"
  then Failed
  else Preparing.

(** The requests of a trace. *)
Definition requests (evs : list event) : list request :=
  flat_map (fun ev => match ev with Exchange req _ => [req] | _ => [] end) evs.

Definition sleeps (evs : list event) : list Z :=
  flat_map (fun ev => match ev with Sleep d => [d] | _ => [] end) evs.


(** What a function does with the descriptor its lookup found before it
    returns it. *)
Definition after_lookup (c : create_call) (d : dict) : dict :=
  match c with
  | IpBlock => ensure_path ip_block_prefix d
  | _ => d
  end.

Definition lookup_url (c : create_call) : string :=
  match c with
  | ComputeManager _ => "/api/v1/fabric/compute-managers"
  | IpBlock => "/api/v1/pools/ip-blocks"
  | IpPool => "/policy/api/v1/infra/ip-pools"
  | TransportNodeProfile _ _ _ _ _ => "/policy/api/v1/infra/host-transport-node-profiles"
  | HostTransportNodeCollection _ _ => "/api/v1/transport-node-collections"
  end.

Definition lookup_field (c : create_call) : string :=
  match c with
  | ComputeManager _ => "server"
  | _ => "display_name"
  end.

Definition lookup_name (c : create_call) : string :=
  match c with
  | ComputeManager zpod => "vcsa." ++ domain zpod
  | IpBlock => "ip-block-vtep"
  | IpPool => "ip-pool-vtep"
  | TransportNodeProfile _ _ _ _ _ => "tnp"
  | HostTransportNodeCollection _ _ => "Host transport node collection"
  end.

(** The backend answers the listing request of a kind with a list of
    resources, and the first one that carries the name looked for is [raw]. *)
Definition listed_first (c : create_call) (reply : result response) (raw : dict) : Prop :=
  exists resp body before after,
    reply = Ok resp
    /\ safejson resp = Ok body
    /\ dict_get "results" body = Some (JArr (map JObj before ++ JObj raw :: after))
    /\ Forall (fun d => dict_get (lookup_field c) d <> Some (JStr (lookup_name c))) before
    /\ dict_get (lookup_field c) raw = Some (JStr (lookup_name c)).

(** The request of the create call. *)
Definition create_request (c : create_call) (thumbprint : string) : request :=
  match c with
  | ComputeManager zpod =>
      mkRequest POST "/api/v1/fabric/compute-managers"
        (Some (compute_manager_payload zpod thumbprint))
  | IpBlock => mkRequest POST "/api/v1/pools/ip-blocks" (Some ip_block_payload)
  | IpPool =>
      mkRequest PUT "/policy/api/v1/infra/ip-pools/ip-pool-vtep"
        (Some (ip_pool_payload "ip-pool-vtep"))
  | TransportNodeProfile p o v u d =>
      mkRequest PUT "/policy/api/v1/infra/host-transport-node-profiles/tnp"
        (Some (transport_node_profile_payload "tnp" p o v u d))
  | HostTransportNodeCollection cc tnp =>
      mkRequest POST "/api/v1/transport-node-collections"
        (Some (htnc_payload "Host transport node collection" cc tnp))
  end.

Definition no_create_call (evs : list event) : bool :=
  forallb (fun ev => negb (is_create_call ev)) evs.

Section Pattern.

Variable Wd : World.

(** The pattern the five functions share. *)
Definition check_then_act (c : create_call) : M Wd dict :=
  thumbprint <- before_lookup Wd c ;;
  existing <- find_existing Wd c ;;
  return_if_found Wd existing (fun d => ret (after_lookup c d))
    (try_except (create_attempt Wd c thumbprint)
       (fun e =>
          if recoverable c e then
            existing <- find_existing Wd c ;;
            return_if_found Wd existing (fun d => ret (after_lookup c d)) (raise e)
          else raise e)).

(** A lookup, as a function of the reply to its listing request. *)
Definition lookup_run (url field value : string) (post : dict -> dict) (s : state Wd)
  : outcome (option dict) * state Wd :=
  let req := mkRequest GET url None in
  let reply := fst (nsx_send Wd req (world s)) in
  (Return (lookup_result field value post reply),
   emit (snd (nsx_send Wd req (world s))) (Exchange req reply) s).

End Pattern.

Definition connection_up (reply : result response) : bool :=
  match reply with
  | Ok resp =>
      match safejson resp with
      | Ok status_info =>
          py_eq (dict_get_or "connection_status" JNull status_info) (JStr "UP")
      | Err _ => false
      end
  | Err _ => false
  end.

Definition status_request (compute_manager_id : json) : request :=
  mkRequest GET (compute_manager_status_url compute_manager_id) None.

Definition listing_request : request := mkRequest GET "/api/v1/transport-nodes" None.

(** The transport nodes of the compute collection in the reply to the
    listing request of an attempt. *)
Definition listed_nodes (compute_collection_id : json) (reply : result response)
  : result (list dict) :=
  match reply with
  | Ok resp =>
      let? transport_nodes := safejson resp in
      let? results := Py.iter (dict_get_or "results" (JArr []) transport_nodes) in
      relevant_nodes compute_collection_id results
  | Err e => Err e
  end.

Definition no_nodes_found : exn :=
  mkExn PlainException "No transport nodes found for compute collection".

Definition preparation_timeout : exn :=
  mkExn PlainException "Timeout waiting for host preparation".

Section AttemptVocabulary.

Variable Wd : World.

Definition after_sleep (s : state Wd) : state Wd :=
  emit (time_sleep Wd 10 (world s)) (Sleep 10) s.

(** Lines 879-903: what an attempt does once every node was looked at. *)
Definition conclude (attempt : Z) (t : tally) (s : state Wd) : outcome pass * state Wd :=
  match failed_nodes t with
  | _ :: _ =>
      match Py.join ", " (failed_nodes t) with
      | Ok names =>
          (Raise (mkExn PlainException ("Host preparation failed for: " ++ names)), s)
      | Err e => (Raise e, s)
      end
  | [] =>
      if all_ready t then (Return Finished, s)
      else if attempt <? 60 then (Return NextAttempt, after_sleep s)
      else (Raise preparation_timeout, s)
  end.

End AttemptVocabulary.

(* ===================================================================== *)
(** ** Scenarios *)
(* ===================================================================== *)

(** Scripted worlds on which the statements below are exercised. *)
Module Scenario.

Import Scripted.

Definition no_cert : result (option (list Byte.byte)) :=
  Err (mkExn ClientError "connection refused").

Definition abc_cert : result (option (list Byte.byte)) :=
  Ok (Some (list_byte_of_string "abc")).

Definition listing (items : list json) : result response :=
  ok_json [("results", JArr items)].

(** *** An IP block that is created by the first call and listed afterwards *)

Definition raw_block : dict :=
  [ ("id", JStr "b1"); ("display_name", JStr "ip-block-vtep") ].

Definition block : dict :=
  [ ("id", JStr "b1"); ("display_name", JStr "ip-block-vtep");
    ("path", JStr "/api/v1/pools/ip-blocks/b1") ].

Definition block_route (req : request) (n : nat) : result response :=
  match n with
  | O => listing []
  | S O => ok_json raw_block
  | _ => listing [JObj raw_block]
  end.

Definition block_world : World := world_of block_route no_cert (JStr "true").

Definition block_s0 : state block_world := initial block_world start.
Definition block_s1 : state block_world := snd (create_ip_block block_world block_s0).
Definition block_s2 : state block_world := snd (create_ip_block block_world block_s1).

(** *** An IP block whose creation conflicts with one made in between *)

Definition conflict : exn := mkExn ClientError "IP Block already exists".

Definition conflict_route (req : request) (n : nat) : result response :=
  match n with
  | O => listing []
  | S O => Err conflict
  | _ => listing [JObj raw_block]
  end.

Definition conflict_world : World := world_of conflict_route no_cert (JStr "true").

Definition conflict_s0 : state conflict_world := initial conflict_world start.
Definition conflict_s1 : state conflict_world :=
  snd (get_existing_ip_block conflict_world "ip-block-vtep" conflict_s0).
Definition conflict_s2 : state conflict_world :=
  snd (post_ip_block conflict_world conflict_s1).
Definition conflict_s3 : state conflict_world :=
  snd (get_existing_ip_block conflict_world "ip-block-vtep" conflict_s2).

(** *** A compute manager registered in between, reported as a duplicate *)

Definition the_zpod : Zpod := mkZpod "zpod.example" "secret".

Definition registered_manager : dict :=
  [ ("id", JStr "cm-1"); ("server", JStr "vcsa.zpod.example");
    ("display_name", JStr "vcsa.zpod.example") ].

Definition duplicate_manager : exn :=
  mkExn ClientError "Duplicate compute manager vcsa.zpod.example".

Definition manager_route (req : request) (n : nat) : result response :=
  match n with
  | O => listing []
  | S O => Err duplicate_manager
  | _ => listing [JObj registered_manager]
  end.

Definition manager_world : World := world_of manager_route abc_cert (JStr "true").

Definition manager_s0 : state manager_world := initial manager_world start.

(** *** A transport node profile the backend answers without a path *)

Definition raw_profile : dict :=
  [ ("id", JStr "tnp"); ("display_name", JStr "tnp"); ("unique_id", JStr "u-1") ].

Definition profile_route (req : request) (n : nat) : result response :=
  match n with
  | O => listing []
  | _ => ok_json raw_profile
  end.

Definition profile_world : World := world_of profile_route no_cert (JStr "true").

(** *** A backend on which nothing exists yet *)

Definition empty_route (req : request) (n : nat) : result response :=
  Ok (mkResponse 404 (Ok [])).

Definition empty_world : World := world_of empty_route no_cert (JStr "true").

(** A pool descriptor whose path is the empty string. *)
Definition empty_path_pool : dict :=
  [ ("display_name", JStr "ip-pool-vtep"); ("path", JStr EmptyString) ].

(** *** A run that reaches the subnet step with a pool that has no path *)

Definition bare_pool : dict := [ ("display_name", JStr "ip-pool-vtep") ].

Definition run_route (req : request) (n : nat) : result response :=
  let url := req_url req in
  if String.eqb url "/api/v1/fabric/compute-managers" then listing [JObj registered_manager]
  else if String.eqb url "/api/v1/fabric/compute-managers/cm-1/status"
  then ok_json [("connection_status", JStr "UP")]
  else if String.eqb url "/api/v1/pools/ip-blocks" then listing [JObj raw_block]
  else if String.eqb url "/policy/api/v1/infra/ip-pools" then listing [JObj bare_pool]
  else ok_json [].

Definition run_world : World := world_of run_route abc_cert (JStr "true").

Definition run_s0 : state run_world := initial run_world start.
Definition run_s1 : state run_world := snd (steps_to_ip_pool run_world 1 the_zpod run_s0).

(** *** The feature flag is off *)

Definition gated_world : World := world_of empty_route no_cert (JStr "false").

(** *** Transport nodes *)

Definition esx1 : json :=
  JObj [ ("id", JStr "n1"); ("display_name", JStr "esx1");
         ("compute_collection_id", JStr "cc") ].

(** The status fetch of the only node fails. *)
Definition fetch_error_route (req : request) (n : nat) : result response :=
  if String.eqb (req_url req) "/api/v1/transport-nodes" then listing [esx1]
  else fails "read timed out".

Definition fetch_error_world : World := world_of fetch_error_route no_cert (JStr "true").

Definition fetch_error_run : outcome unit * state fetch_error_world :=
  verify_nsx_configuration_status fetch_error_world (JStr "cc")
    (initial fetch_error_world start).

(** The listing itself fails, with and without one of the two words. *)
Definition refused : exn := mkExn ClientError "connection refused".
Definition server_error : exn := mkExn ClientError "500 Internal Server Error".

Definition refused_world : World :=
  world_of (fun _ _ => Err refused) no_cert (JStr "true").

Definition server_error_world : World :=
  world_of (fun _ _ => Err server_error) no_cert (JStr "true").

End Scenario.

Definition dvs_search_url (compute_manager_id : json) : string :=
  "/policy/api/v1/search?query="
    ++ "(resource_type:DistributedVirtualSwitch AND _meta.productInfo.version:>=7000000000 AND !owner_nsx:OTHER AND origin_id:"
    ++ Py.str compute_manager_id ++ ")".

Definition transport_zones_url : string :=
  "/policy/api/v1/infra/sites/default/enforcement-points/default/transport-zones".

Definition compute_collections_url : string :=
  "/api/v1/fabric/compute-collections?display_name=Cluster".

Definition cluster_not_found : exn :=
  mkExn ValueError "Compute Collection 'Cluster' not found".

Definition uplink_profile_url : string := "/policy/api/v1/infra/host-switch-profiles/hsp".

Definition subnets_url (pool_id : string) : string :=
  "/api/v1/infra/ip-pools/" ++ pool_id ++ "/ip-subnets".

Definition subnet_check (pool_id : string) : request :=
  mkRequest GET (subnet_url pool_id ("subnet-" ++ pool_id)) None.

Definition subnet_write (pool_id : string) : request :=
  mkRequest PUT (subnet_url pool_id ("subnet-" ++ pool_id)) (Some (subnet_config pool_id)).

(** What [safejson()] of a reply gives. *)
Definition decoded (reply : result response) : outcome dict :=
  match reply with
  | Ok resp => match safejson resp with Ok body => Return body | Err e => Raise e end
  | Err e => Raise e
  end.

Definition eula_request : request := mkRequest POST "/api/v1/eula/accept" None.

Definition realized_url (htnc_id : string) : string :=
  "/policy/api/v1/infra/realized-state/realized-entity?realized_path="
    ++ "/infra/realized-state/enforcement-points/default/transport-node-collections/"
    ++ htnc_id.

Definition display_name_of (node : dict) : json :=
  dict_get_or "display_name" (JStr "Unknown") node.

Definition node_status_request (node : dict) : request :=
  mkRequest GET (node_status_url (dict_get_or "id" (JStr "Unknown") node)) None.

(** The tally of an attempt in which every status fetch answered and node
    [n] was given the verdict [verdict n]. *)
Definition tally_of (verdict : dict -> PollOutcome) (nodes : list dict) (t : tally) : tally :=
  fold_left (fun t node => record_verdict (verdict node) (display_name_of node) t) nodes t.

Definition is_failed (v : PollOutcome) : bool :=
  match v with Failed => true | _ => false end.

Definition is_ready (v : PollOutcome) : bool :=
  match v with Ready => true | _ => false end.

(** The status fetch of every node of [nodes] answers, in every state of the
    backend, with a report that classifies the node as [verdict] says. *)
Definition fetches_answer (Wd : World) (verdict : dict -> PollOutcome) (nodes : list dict)
  : Prop :=
  forall node w,
    In node nodes ->
    exists resp data,
      fst (nsx_send Wd (node_status_request node) w) = Ok resp
      /\ safejson resp = Ok data
      /\ node_verdict data = Ok (verdict node)
      /\ node_report data = Ok tt.

(** The listing requests among the requests of a trace. *)
Definition listings (evs : list event) : list request :=
  filter (fun req => String.eqb (req_url req) "/api/v1/transport-nodes") (requests evs).

(** The requests of one attempt of the host-preparation poll on [nodes]. *)
Definition attempt_requests (nodes : list dict) : list request :=
  listing_request :: map node_status_request nodes.

(* ===================================================================== *)
(** ** Further scenarios *)
(* ===================================================================== *)

Module Cases.

Import Scripted Scenario.

(** *** Two transport zones of one name *)

Definition vlan_zone : dict :=
  [ ("id", JStr "tz0"); ("display_name", JStr "tz"); ("tz_type", JStr "VLAN_BACKED") ].

Definition overlay_zone : dict :=
  [ ("id", JStr "tz1"); ("display_name", JStr "tz"); ("tz_type", JStr "OVERLAY_STANDARD") ].

Definition zone_world : World :=
  world_of (fun _ _ => listing [JObj vlan_zone; JObj overlay_zone]) no_cert (JStr "true").

Definition zone_s0 : state zone_world := initial zone_world start.
Definition zone_s1 : state zone_world :=
  snd (get_transport_zone zone_world "tz" "OVERLAY" zone_s0).

Definition found_zone : dict :=
  [ ("id", JStr "tz1"); ("display_name", JStr "tz"); ("tz_type", JStr "OVERLAY_STANDARD");
    ("path", JStr "/infra/sites/default/enforcement-points/default/transport-zones/tz1") ].

(** *** A cluster *)

Definition cluster : json :=
  JObj [ ("external_id", JStr "cc"); ("display_name", JStr "Cluster") ].

Definition cluster_body : dict := [ ("results", JArr [cluster]) ].

Definition cluster_world : World :=
  world_of (fun _ _ => ok_json cluster_body) no_cert (JStr "true").

(** *** A backend that answers every request with the same object *)

Definition stored : dict := [ ("id", JStr "hsp"); ("display_name", JStr "hsp") ].

Definition stored_world : World :=
  world_of (fun _ _ => ok_json stored) no_cert (JStr "true").

Definition stored_s0 : state stored_world := initial stored_world start.

Definition pool_path : json := JStr "/policy/api/v1/infra/ip-pools/ip-pool-vtep".

Definition subnet_s1 : state stored_world :=
  snd (create_block_subnet stored_world pool_path (JStr "/api/v1/pools/ip-blocks/b1")
         stored_s0).

Definition uplink_s1 : state stored_world :=
  snd (create_uplink_host_switch_profile stored_world stored_s0).

(** A pool the backend sent with an id and no path. *)
Definition raw_pool : dict :=
  [ ("id", JStr "ip-pool-vtep"); ("display_name", JStr "ip-pool-vtep") ].

(** *** Transport nodes of two clusters *)

Definition esx1_node : dict :=
  [ ("id", JStr "n1"); ("display_name", JStr "esx1"); ("compute_collection_id", JStr "cc") ].

Definition esx2_node : dict :=
  [ ("id", JStr "n2"); ("display_name", JStr "esx2");
    ("node_deployment_info", JObj [ ("compute_collection_id", JStr "cc") ]) ].

Definition other_node : dict :=
  [ ("id", JStr "n3"); ("display_name", JStr "esx3"); ("compute_collection_id", JStr "dd");
    ("node_deployment_info", JObj [ ("compute_collection_id", JStr "cc") ]) ].

Definition mixed_listing : result response :=
  listing [JObj esx1_node; JObj other_node; JObj esx2_node].

Definition status_route (status : string) (req : request) (n : nat) : result response :=
  if String.eqb (req_url req) "/api/v1/transport-nodes" then listing [JObj esx1_node]
  else ok_json [ ("status", JStr status) ].

(** The node is up. *)
Definition ready_world : World := world_of (status_route "UP") no_cert (JStr "true").

Definition ready_s0 : state ready_world := initial ready_world start.
Definition ready_s1 : state ready_world :=
  snd (verify_nsx_configuration_status ready_world (JStr "cc") ready_s0).

(** The node stays degraded. *)
Definition degraded_world : World :=
  world_of (status_route "DEGRADED") no_cert (JStr "true").

(** *** A listing that fails between two calls *)

Definition second_block : dict :=
  [ ("id", JStr "b2"); ("display_name", JStr "ip-block-vtep") ].

Definition duplicate_block : dict :=
  [ ("id", JStr "b2"); ("display_name", JStr "ip-block-vtep");
    ("path", JStr "/api/v1/pools/ip-blocks/b2") ].

Definition relisting_route (req : request) (n : nat) : result response :=
  match n with
  | O => listing []
  | S O => ok_json raw_block
  | S (S O) => fails "503 Service Unavailable"
  | _ => ok_json second_block
  end.

Definition relisting_world : World := world_of relisting_route no_cert (JStr "true").

Definition relisting_s0 : state relisting_world := initial relisting_world start.
Definition relisting_s1 : state relisting_world :=
  snd (create_ip_block relisting_world relisting_s0).

(** *** A collection that is realised when asked the third time *)

Definition realizing_route (req : request) (n : nat) : result response :=
  match n with
  | O | S O => ok_json [ ("state", JStr "IN_PROGRESS") ]
  | _ => ok_json [ ("state", JStr "REALIZED") ]
  end.

Definition realizing_world : World := world_of realizing_route no_cert (JStr "true").

Definition collection_path : json := JStr "/transport-node-collections/c1".

Definition realizing_s0 : state realizing_world := initial realizing_world start.
Definition realizing_s1 : state realizing_world :=
  snd (wait_for_htnc_realization realizing_world 31 collection_path 300 realizing_s0).

End Cases.

(* ===================================================================== *)
(** ** The monad *)
(* ===================================================================== *)

Section MonadFacts.

Variable Wd : World.

Lemma bind_return A B (m : M Wd A) (k : A -> M Wd B) s a s' :
  m s = (Return a, s') -> bind m k s = k a s'.
Proof. intros H. unfold bind. now rewrite H. Qed.

Lemma bind_raise A B (m : M Wd A) (k : A -> M Wd B) s e s' :
  m s = (Raise e, s') -> bind m k s = (Raise e, s').
Proof. intros H. unfold bind. now rewrite H. Qed.

Lemma bind_out_of_fuel A B (m : M Wd A) (k : A -> M Wd B) s s' :
  m s = (OutOfFuel, s') -> bind m k s = (OutOfFuel, s').
Proof. intros H. unfold bind. now rewrite H. Qed.

Lemma try_return A (m : M Wd A) h s a s' :
  m s = (Return a, s') -> try_except m h s = (Return a, s').
Proof. intros H. unfold try_except. now rewrite H. Qed.

Lemma try_raise A (m : M Wd A) h s e s' :
  m s = (Raise e, s') -> try_except m h s = h e s'.
Proof. intros H. unfold try_except. now rewrite H. Qed.

Lemma nsx_call_eq m url json (s : state Wd) :
  nsx_call m url json s =
  (match fst (nsx_send Wd (mkRequest m url json) (world s)) with
   | Ok r => Return r
   | Err e => Raise e
   end,
   emit (snd (nsx_send Wd (mkRequest m url json) (world s)))
     (Exchange (mkRequest m url json)
        (fst (nsx_send Wd (mkRequest m url json) (world s)))) s).
Proof.
  unfold nsx_call. destruct (nsx_send Wd _ (world s)) as [reply w]. reflexivity.
Qed.

End MonadFacts.

Arguments bind_return {Wd A B m k s a s'} _.
Arguments bind_raise {Wd A B m k s e s'} _.
Arguments bind_out_of_fuel {Wd A B m k s s'} _.
Arguments try_return {Wd A m h s a s'} _.
Arguments try_raise {Wd A m h s e s'} _.

Section LookupFacts.

Variable Wd : World.

Ltac lookup_cases :=
  intros; unfold lookup_run, lookup_result, try_except, bind, nsx_get;
  rewrite nsx_call_eq;
  match goal with
  | |- context [nsx_send Wd ?r ?w] => destruct (nsx_send Wd r w) as [[resp | e] w']
  end; cbn [fst snd]; [ | reflexivity ];
  match goal with
  | |- context [safejson ?r] => destruct (safejson r) as [body | e]
  end; cbn [lift ret raise]; [ | reflexivity ];
  match goal with
  | |- context [Py.iter ?j] => destruct (Py.iter j) as [items | e]
  end; cbn [lift ret raise]; [ | reflexivity ];
  match goal with
  | |- context [first_match ?f ?v ?l] => destruct (first_match f v l) as [[d | ] | e]
  end; reflexivity.

Lemma get_existing_compute_manager_run server_name s :
  get_existing_compute_manager Wd server_name s
  = lookup_run Wd "/api/v1/fabric/compute-managers" "server" server_name (fun d => d) s.
Proof. unfold get_existing_compute_manager. lookup_cases. Qed.

Lemma get_existing_ip_block_run display_name s :
  get_existing_ip_block Wd display_name s
  = lookup_run Wd "/api/v1/pools/ip-blocks" "display_name" display_name
      (ensure_path ip_block_prefix) s.
Proof. unfold get_existing_ip_block. lookup_cases. Qed.

Lemma get_existing_ip_pool_run display_name s :
  get_existing_ip_pool Wd display_name s
  = lookup_run Wd "/policy/api/v1/infra/ip-pools" "display_name" display_name
      (ensure_path ip_pool_prefix) s.
Proof. unfold get_existing_ip_pool. lookup_cases. Qed.

Lemma get_existing_transport_node_profile_run display_name s :
  get_existing_transport_node_profile Wd display_name s
  = lookup_run Wd "/policy/api/v1/infra/host-transport-node-profiles" "display_name"
      display_name (fun d => d) s.
Proof. unfold get_existing_transport_node_profile. lookup_cases. Qed.

Lemma get_existing_host_transport_node_collection_run display_name s :
  get_existing_host_transport_node_collection Wd display_name s
  = lookup_run Wd "/api/v1/transport-node-collections" "display_name" display_name
      (fun d => d) s.
Proof. unfold get_existing_host_transport_node_collection. lookup_cases. Qed.

End LookupFacts.

Section DictFacts.

Lemma dict_get_set_same k v d : dict_get k (dict_set k v d) = Some v.
Proof.
  induction d as [ | [k' v'] d IH]; simpl.
  - now rewrite String.eqb_refl.
  - destruct (String.eqb k k') eqn:E; simpl; rewrite E; [reflexivity | exact IH].
Qed.

Lemma dict_get_set_other k k' v d :
  k' <> k -> dict_get k' (dict_set k v d) = dict_get k' d.
Proof.
  intros N. induction d as [ | [k0 v0] d IH]; simpl.
  - destruct (String.eqb k' k) eqn:E; [apply String.eqb_eq in E; contradiction | reflexivity].
  - destruct (String.eqb k k0) eqn:E; simpl.
    + apply String.eqb_eq in E. subst k0.
      destruct (String.eqb k' k) eqn:E'; [apply String.eqb_eq in E'; contradiction | reflexivity].
    + destruct (String.eqb k' k0); [reflexivity | exact IH].
Qed.

Lemma dict_set_truthy k v d : dict_truthy (dict_set k v d) = true.
Proof. destruct d as [ | [k' v'] d]; simpl; [reflexivity | now destruct (String.eqb k k')]. Qed.

(** The path of a normalised descriptor: the one the backend sent, or the
    prefix followed by the id when the backend sent an id and no path. *)
Lemma ensure_path_spec prefix raw :
  dict_get "path" (ensure_path prefix raw) =
  match dict_get "path" raw, dict_get "id" raw with
  | Some p, _ => Some p
  | None, Some id => Some (JStr (prefix ++ Py.str id))
  | None, None => None
  end.
Proof.
  unfold ensure_path.
  destruct (dict_get "path" raw) as [p | ] eqn:P.
  - now rewrite P.
  - destruct (dict_get "id" raw) as [id | ]; [apply dict_get_set_same | exact P].
Qed.

Lemma ensure_path_id prefix raw :
  dict_get "id" (ensure_path prefix raw) = dict_get "id" raw.
Proof.
  unfold ensure_path.
  destruct (dict_get "path" raw); [reflexivity | ].
  destruct (dict_get "id" raw) eqn:I; [ | exact I].
  rewrite dict_get_set_other; [exact I | discriminate].
Qed.

Lemma ensure_path_idem prefix raw :
  ensure_path prefix (ensure_path prefix raw) = ensure_path prefix raw.
Proof.
  unfold ensure_path at 1. rewrite ensure_path_spec.
  destruct (dict_get "path" raw); [reflexivity | ].
  rewrite ensure_path_id. now destruct (dict_get "id" raw).
Qed.

Lemma ensure_path_truthy prefix d :
  dict_truthy d = true -> dict_truthy (ensure_path prefix d) = true.
Proof.
  intros T. unfold ensure_path.
  destruct (dict_get "path" d); [exact T | ].
  destruct (dict_get "id" d); [apply dict_set_truthy | exact T].
Qed.

Lemma first_match_found field value items d :
  first_match field value items = Ok (Some d) ->
  In (JObj d) items /\ py_eq (dict_get_or field JNull d) (JStr value) = true.
Proof.
  induction items as [ | x items IH]; simpl; [discriminate | ].
  destruct x as [ | b | n | str | l | m]; try discriminate.
  destruct (py_eq (dict_get_or field JNull m) (JStr value)) eqn:E.
  - intros H. injection H as ->. split; [now left | exact E].
  - intros H. destruct (IH H) as [I P]. split; [now right | exact P].
Qed.

Lemma first_match_truthy field value items d :
  first_match field value items = Ok (Some d) -> dict_truthy d = true.
Proof.
  intros H. apply first_match_found in H as [_ E].
  destruct d; [discriminate E | reflexivity].
Qed.

Lemma lookup_result_truthy field value post reply d :
  (forall x, dict_truthy x = true -> dict_truthy (post x) = true) ->
  lookup_result field value post reply = Some d -> dict_truthy d = true.
Proof.
  intros P. unfold lookup_result.
  destruct reply as [resp | e]; [ | discriminate].
  destruct (safejson resp) as [body | e]; [ | discriminate].
  destruct (Py.iter _) as [items | e]; [ | discriminate].
  destruct (first_match field value items) as [[x | ] | e] eqn:F; try discriminate.
  intros H. injection H as <-. apply P. eapply first_match_truthy, F.
Qed.

Lemma lookup_result_sent field value post reply d req :
  req_method req = GET ->
  lookup_result field value post reply = Some d ->
  exists raw, d = post raw /\ sent_in raw (Exchange req reply).
Proof.
  intros G. unfold lookup_result, sent_in.
  destruct reply as [resp | e]; [ | discriminate].
  destruct (safejson resp) as [body | e]; [ | discriminate].
  destruct (Py.iter _) as [items | e] eqn:I; [ | discriminate].
  destruct (first_match field value items) as [[x | ] | e] eqn:F; try discriminate.
  intros H. injection H as <-. exists x. split; [reflexivity | ].
  exists body. split; [reflexivity | ]. rewrite G.
  exists items. split; [exact I | ]. eapply first_match_found, F.
Qed.

End DictFacts.

Section ProvisionerFacts.

Variable Wd : World.

Lemma create_or_get_pattern c : create_or_get Wd c = check_then_act Wd c.
Proof. destruct c; reflexivity. Qed.

Lemma find_existing_run c (s : state Wd) :
  find_existing Wd c s
  = lookup_run Wd (lookup_url c) (lookup_field c) (lookup_name c) (normalize c) s.
Proof.
  destruct c; simpl.
  - apply get_existing_compute_manager_run.
  - apply get_existing_ip_block_run.
  - apply get_existing_ip_pool_run.
  - apply get_existing_transport_node_profile_run.
  - apply get_existing_host_transport_node_collection_run.
Qed.

Lemma ip_pool_url :
  ip_pool_prefix
    ++ PyStr.replace_char "_" "-" (PyStr.replace_char " " "-" (PyStr.lower "ip-pool-vtep"))
  = "/policy/api/v1/infra/ip-pools/ip-pool-vtep".
Proof. reflexivity. Qed.

Lemma create_attempt_run c thumbprint (s : state Wd) :
  create_attempt Wd c thumbprint s =
  (match fst (nsx_send Wd (create_request c thumbprint) (world s)) with
   | Ok resp =>
       match safejson resp with
       | Ok body => Return (normalize c body)
       | Err e => Raise e
       end
   | Err e => Raise e
   end,
   emit (snd (nsx_send Wd (create_request c thumbprint) (world s)))
     (Exchange (create_request c thumbprint)
        (fst (nsx_send Wd (create_request c thumbprint) (world s)))) s).
Proof.
  destruct c; simpl;
    unfold post_compute_manager, post_ip_block, put_ip_pool, put_transport_node_profile,
      post_host_transport_node_collection, bind, nsx_post, nsx_put;
    rewrite ?ip_pool_url, nsx_call_eq;
    (destruct (nsx_send Wd _ _) as [[resp | e] w']; cbn [fst snd];
     [destruct (safejson resp) | ]; reflexivity).
Qed.

Lemma normalize_truthy c d : dict_truthy d = true -> dict_truthy (normalize c d) = true.
Proof. destruct c; simpl; auto using ensure_path_truthy. Qed.

Lemma after_lookup_normalize c raw :
  after_lookup c (normalize c raw) = normalize c raw.
Proof. destruct c; simpl; auto using ensure_path_idem. Qed.

(** A lookup is one [GET]; it never raises, and what it finds is a
    non-empty descriptor the backend listed, normalised. *)
Lemma find_existing_spec c (s : state Wd) :
  exists reply w found,
    find_existing Wd c s
    = (Return found, emit w (Exchange (mkRequest GET (lookup_url c) None) reply) s)
    /\ (forall d, found = Some d ->
          dict_truthy d = true /\ after_lookup c d = d /\
          exists raw, d = normalize c raw /\
                      sent_in raw (Exchange (mkRequest GET (lookup_url c) None) reply)).
Proof.
  rewrite find_existing_run. unfold lookup_run.
  eexists _, _, _. split; [reflexivity | ].
  intros d H.
  destruct (lookup_result_sent _ _ _ _ _ (mkRequest GET (lookup_url c) None) eq_refl H)
    as [raw [E S]].
  split; [ | split].
  - eapply lookup_result_truthy; [ | exact H]. apply normalize_truthy.
  - rewrite E. apply after_lookup_normalize.
  - exists raw. split; [exact E | exact S].
Qed.

Lemma get_ssl_thumbprint_run hostname port (s : state Wd) :
  get_ssl_thumbprint Wd hostname port s =
  (match fst (getpeercert Wd hostname port (world s)) with
   | Ok (Some data) =>
       Return (PyStr.join ":" (map PyStr.upper (PyStr.pairs (Sha256.hexdigest data))))
   | Ok None => Raise (mkExn TypeError "object supporting the buffer API required")
   | Err e => Raise e
   end,
   emit (snd (getpeercert Wd hostname port (world s)))
     (PeerCert hostname port (fst (getpeercert Wd hostname port (world s)))) s).
Proof.
  unfold get_ssl_thumbprint, bind, peer_certificate.
  destruct (getpeercert Wd hostname port (world s)) as [[[data | ] | e] w]; reflexivity.
Qed.

Lemma before_lookup_trace c (s s0 : state Wd) r :
  before_lookup Wd c s = (r, s0) ->
  exists evs, trace s0 = (trace s ++ evs)%list /\ no_create_call evs = true.
Proof.
  destruct c; simpl; intros H;
    try (injection H as _ <-; exists []; split; [now rewrite app_nil_r | reflexivity]).
  rewrite get_ssl_thumbprint_run in H. injection H as _ <-.
  eexists [_]. split; reflexivity.
Qed.

(** When the lookup that create-or-get runs finds a resource, create-or-get
    returns that descriptor, ends in the state the lookup left, and the
    exchanges of the call contain no create call. *)
Lemma lookup_hit_is_returned (c : create_call) (s s0 s1 : state Wd)
  (thumbprint : string) (d : dict) :
  before_lookup Wd c s = (Return thumbprint, s0) ->
  find_existing Wd c s0 = (Return (Some d), s1) ->
  create_or_get Wd c s = (Return d, s1) /\
  exists evs, trace s1 = (trace s ++ evs)%list /\ no_create_call evs = true.
Proof.
  intros Hb Hl.
  destruct (find_existing_spec c s0) as (reply & w & found & Hrun & Hfound).
  rewrite Hrun in Hl. injection Hl as -> <-.
  destruct (Hfound d eq_refl) as (T & A & _).
  split.
  - rewrite create_or_get_pattern. unfold check_then_act.
    rewrite (bind_return Hb), (bind_return Hrun).
    unfold return_if_found. rewrite T. unfold ret. now rewrite A.
  - destruct (before_lookup_trace c s s0 _ Hb) as (evs & E & N).
    exists (evs ++ [Exchange (mkRequest GET (lookup_url c) None) reply])%list.
    split.
    + simpl. rewrite E. now rewrite app_assoc.
    + unfold no_create_call in *. rewrite forallb_app, N. reflexivity.
Qed.

(** The loop of a lookup stops at the first entry that carries the name. *)
Lemma first_match_listed field value before raw after :
  Forall (fun d => dict_get field d <> Some (JStr value)) before ->
  dict_get field raw = Some (JStr value) ->
  first_match field value (map JObj before ++ JObj raw :: after) = Ok (Some raw).
Proof.
  intros F R. induction before as [ | d before IH]; cbn [map app first_match].
  - unfold dict_get_or. rewrite R. cbn [py_eq]. now rewrite String.eqb_refl.
  - inversion F as [ | d' before' N F']; subst.
    destruct (py_eq (dict_get_or field JNull d) (JStr value)) eqn:E; [ | exact (IH F')].
    exfalso. apply N. unfold dict_get_or in E.
    destruct (dict_get field d) as [v | ]; [ | discriminate E].
    destruct v; cbn [py_eq] in E; try discriminate E.
    apply String.eqb_eq in E. now subst.
Qed.

(** A resource the backend lists first under the name is what the lookup
    finds. *)
Lemma listed_first_is_found c (s : state Wd) raw :
  listed_first c (fst (nsx_send Wd (mkRequest GET (lookup_url c) None) (world s))) raw ->
  find_existing Wd c s
  = (Return (Some (normalize c raw)),
     emit (snd (nsx_send Wd (mkRequest GET (lookup_url c) None) (world s)))
       (Exchange (mkRequest GET (lookup_url c) None)
          (fst (nsx_send Wd (mkRequest GET (lookup_url c) None) (world s)))) s).
Proof.
  intros (resp & body & before & after & R & J & L & F & N).
  rewrite find_existing_run. unfold lookup_run, lookup_result. rewrite R, J.
  unfold dict_get_or. rewrite L. cbn [Py.iter].
  now rewrite (first_match_listed _ _ _ _ _ F N).
Qed.

Lemma normalize_other c d k : k <> "path" -> dict_get k (normalize c d) = dict_get k d.
Proof.
  intros K. destruct c; cbn [normalize]; try reflexivity; unfold ensure_path;
    (destruct (dict_get "path" d); [reflexivity | ];
     destruct (dict_get "id" d); [ | reflexivity];
     apply dict_get_set_other; exact K).
Qed.

(** C1, amended.  For each of the five kinds (compute manager, IP block, IP
    pool, transport node profile, host transport-node collection), take two
    calls of create-or-get, one after the other, the first of which returned
    a descriptor.  When the listing request of the second call is answered
    with a list whose first entry under the name is the resource the first
    call returned (the same id), the second call returns that entry, with
    every field as the backend listed it (the IP block and the IP pool get
    their path added), so a descriptor of the same id; its only request is
    the listing, and it issues no create call.  When the listing request of
    the second call raises, the lookup counts the resource as absent and the
    second call sends the create request again. *)
Theorem create_or_get_idempotent (c : create_call) (s s1 s1' : state Wd)
  (first : dict) (thumbprint : string) :
  create_or_get Wd c s = (Return first, s1) ->
  before_lookup Wd c s1 = (Return thumbprint, s1') ->
  (forall raw,
     listed_first c
       (fst (nsx_send Wd (mkRequest GET (lookup_url c) None) (world s1'))) raw ->
     dict_get "id" raw = dict_get "id" first ->
     exists s2 evs,
       create_or_get Wd c s1 = (Return (normalize c raw), s2)
       /\ dict_get "id" (normalize c raw) = dict_get "id" first
       /\ (forall k, k <> "path" -> dict_get k (normalize c raw) = dict_get k raw)
       /\ trace s2 = (trace s1 ++ evs)%list
       /\ requests evs = [mkRequest GET (lookup_url c) None]
       /\ no_create_call evs = true)
  /\ (forall e,
        fst (nsx_send Wd (mkRequest GET (lookup_url c) None) (world s1')) = Err e ->
        exists r s2 reply evs,
          create_or_get Wd c s1 = (r, s2)
          /\ trace s2
             = (trace s1'
                  ++ Exchange (mkRequest GET (lookup_url c) None) (Err e)
                       :: Exchange (create_request c thumbprint) reply :: evs)%list).
Proof.
  intros _ Hb. split.
  - intros raw L I.
    pose proof (listed_first_is_found c s1' raw L) as Hl.
    destruct (lookup_hit_is_returned c s1 s1' _ thumbprint _ Hb Hl) as (R & evs0 & T & N).
    eexists _, evs0. split; [exact R | ].
    split; [rewrite normalize_other by discriminate; exact I | ].
    split; [intros k K; now apply normalize_other | ].
    split; [exact T | ]. split; [ | exact N].
    assert (B : exists pre, trace s1' = (trace s1 ++ pre)%list /\ requests pre = []).
    { clear - Hb. destruct c; cbn [before_lookup] in Hb;
        try (injection Hb as _ <-; exists []; split; [now rewrite app_nil_r | reflexivity]).
      rewrite get_ssl_thumbprint_run in Hb. injection Hb as _ <-.
      eexists [_]. split; reflexivity. }
    destruct B as (pre & Tp & Rp).
    cbn [trace emit] in T. rewrite Tp, <- app_assoc in T.
    apply app_inv_head in T. subst evs0.
    unfold requests. rewrite flat_map_app. fold (requests pre). rewrite Rp. reflexivity.
  - intros e E.
    assert (Hl : find_existing Wd c s1'
                 = (Return None,
                    emit (snd (nsx_send Wd (mkRequest GET (lookup_url c) None) (world s1')))
                      (Exchange (mkRequest GET (lookup_url c) None) (Err e)) s1')).
    { rewrite find_existing_run. unfold lookup_run. rewrite E. reflexivity. }
    rewrite create_or_get_pattern. unfold check_then_act.
    rewrite (bind_return Hb), (bind_return Hl). cbn [return_if_found].
    unfold try_except. rewrite create_attempt_run.
    set (sl := emit _ (Exchange (mkRequest GET (lookup_url c) None) (Err e)) s1').
    set (reply := fst (nsx_send Wd (create_request c thumbprint) (world sl))).
    set (sc := emit _ (Exchange (create_request c thumbprint) reply) sl).
    assert (Tc : trace sc
                 = (trace s1' ++ Exchange (mkRequest GET (lookup_url c) None) (Err e)
                      :: [Exchange (create_request c thumbprint) reply])%list).
    { subst sc sl. cbn [trace emit]. now rewrite <- app_assoc. }
    assert (Raised : forall e',
              exists r s2 evs,
                (if recoverable c e'
                 then (existing <- find_existing Wd c ;;
                       return_if_found Wd existing (fun d => ret (after_lookup c d))
                         (raise e'))
                 else raise e') sc = (r, s2)
                /\ trace s2
                   = (trace s1' ++ Exchange (mkRequest GET (lookup_url c) None) (Err e)
                        :: Exchange (create_request c thumbprint) reply :: evs)%list).
    { intros e'. destruct (recoverable c e').
      - destruct (find_existing_spec c sc) as (reply' & w & found & Hrun & Hfound).
        rewrite (bind_return Hrun).
        destruct found as [d | ];
          [destruct (Hfound d eq_refl) as (T & _); unfold return_if_found; rewrite T | ];
          (eexists _, _, [_]; split; [reflexivity | ];
           cbn [trace emit]; rewrite Tc, <- app_assoc; reflexivity).
      - eexists _, _, []. split; [reflexivity | exact Tc]. }
    destruct reply as [resp | e'] eqn:Rp.
    + destruct (safejson resp) as [body | e'].
      * eexists _, sc, (Ok resp), []. split; [reflexivity | exact Tc].
      * destruct (Raised e') as (r & s2 & evs & X & T).
        exists r, s2, (Ok resp), evs. split; [exact X | exact T].
    + destruct (Raised e') as (r & s2 & evs & X & T).
      exists r, s2, (Err e'), evs. split; [exact X | exact T].
Qed.

End ProvisionerFacts.

Section RecoveryFacts.

Variable Wd : World.

(** The lookup a handler re-runs, and what it does with the result. *)
Lemma recover_run c e (s : state Wd) :
  (existing <- find_existing Wd c ;;
   return_if_found Wd existing (fun d => ret (after_lookup c d)) (raise e)) s
  = match find_existing Wd c s with
    | (Return (Some d), s3) => (Return d, s3)
    | (_, s3) => (Raise e, s3)
    end.
Proof.
  destruct (find_existing_spec Wd c s) as (reply & w & found & Hrun & Hfound).
  rewrite (bind_return Hrun), Hrun.
  destruct found as [d | ]; [ | reflexivity].
  destruct (Hfound d eq_refl) as (T & A & _).
  unfold return_if_found. rewrite T. unfold ret. now rewrite A.
Qed.

Lemma compute_manager_step_run zpod (s : state Wd) :
  compute_manager_step Wd zpod s =
  match create_compute_manager Wd zpod s with
  | (Raise e, s2) =>
      if says_code_7050 e then
        match get_existing_compute_manager Wd ("vcsa." ++ domain zpod) s2 with
        | (Return (Some d), s3) => (Return d, s3)
        | (_, s3) => (Raise e, s3)
        end
      else (Raise e, s2)
  | r => r
  end.
Proof.
  unfold compute_manager_step, try_except.
  destruct (create_compute_manager Wd zpod s) as [[d | e | ] s2]; try reflexivity.
  destruct (says_code_7050 e); [ | reflexivity].
  apply (recover_run (ComputeManager zpod) e s2).
Qed.

(** C2, amended.  When the lookup finds nothing and the create call raises
    [e], the error is treated as a recoverable conflict exactly when
    [recoverable c e] holds: for the IP block, the IP pool, the transport
    node profile and the host transport-node collection, when the message of
    [e] contains, whatever the case of its letters, "already exists" or
    "duplicate"; for the compute manager, when the message contains
    "already registered with NSX" or "error_code", as written.  On a
    recoverable conflict the lookup is run again and what it finds is
    returned; when it finds nothing, and on any other error, [e] is raised.
    For the compute manager the orchestrator adds one more round: an error
    that [create_compute_manager] raised and whose message contains both
    "error_code" and "7050" makes it run the lookup once more. *)
Theorem create_conflict_recovery (c : create_call) (s s0 s1 s2 : state Wd)
  (thumbprint : string) (e : exn) :
  before_lookup Wd c s = (Return thumbprint, s0) ->
  find_existing Wd c s0 = (Return None, s1) ->
  create_attempt Wd c thumbprint s1 = (Raise e, s2) ->
  create_or_get Wd c s =
    (if recoverable c e then
       match find_existing Wd c s2 with
       | (Return (Some d), s3) => (Return d, s3)
       | (_, s3) => (Raise e, s3)
       end
     else (Raise e, s2))
  /\ (forall zpod, c = ComputeManager zpod ->
      compute_manager_step Wd zpod s =
      match create_or_get Wd c s with
      | (Raise e', s') =>
          if says_code_7050 e' then
            match find_existing Wd c s' with
            | (Return (Some d), s3) => (Return d, s3)
            | (_, s3) => (Raise e', s3)
            end
          else (Raise e', s')
      | r => r
      end).
Proof.
  intros Hb Hl Hc. split.
  - rewrite create_or_get_pattern. unfold check_then_act.
    rewrite (bind_return Hb), (bind_return Hl).
    unfold return_if_found. rewrite (try_raise Hc).
    destruct (recoverable c e); [apply recover_run | reflexivity].
  - intros zpod ->. apply compute_manager_step_run.
Qed.

(** C4, amended.  Whatever create-or-get returns is a descriptor [raw] the
    backend sent during the call (an element of a listing, or the body that
    answered the create call), passed through the normalisation of its kind.
    For the IP block and the IP pool, when [raw] has an id and no path, the
    path of the returned descriptor is the fixed prefix of the kind followed
    by the id, and a path the backend sent is kept.  The compute manager, the
    transport node profile and the host transport-node collection are
    returned as the backend sent them. *)
Theorem returned_descriptor_path (c : create_call) (s s' : state Wd) (d : dict) :
  create_or_get Wd c s = (Return d, s') ->
  exists raw evs,
    trace s' = (trace s ++ evs)%list /\ Exists (sent_in raw) evs /\
    d = normalize c raw /\
    match c with
    | IpBlock | IpPool =>
        forall id,
          dict_get "id" raw = Some id ->
          dict_get "path" d =
          match dict_get "path" raw with
          | Some p => Some p
          | None =>
              Some (JStr ((match c with IpBlock => ip_block_prefix | _ => ip_pool_prefix end)
                            ++ Py.str id))
          end
    | _ => d = raw
    end.
Proof.
  intros H.
  assert (N : forall raw, d = normalize c raw ->
    match c with
    | IpBlock | IpPool =>
        forall id,
          dict_get "id" raw = Some id ->
          dict_get "path" d =
          match dict_get "path" raw with
          | Some p => Some p
          | None =>
              Some (JStr ((match c with IpBlock => ip_block_prefix | _ => ip_pool_prefix end)
                            ++ Py.str id))
          end
    | _ => d = raw
    end).
  { intros raw ->. destruct c; simpl; try reflexivity;
      intros id I; rewrite ensure_path_spec, I; reflexivity. }
  rewrite create_or_get_pattern in H. unfold check_then_act in H.
  destruct (before_lookup Wd c s) as [[t | e | ] s0] eqn:Hb;
    [ | rewrite (bind_raise Hb) in H; discriminate
      | rewrite (bind_out_of_fuel Hb) in H; discriminate ].
  rewrite (bind_return Hb) in H.
  destruct (before_lookup_trace Wd c s s0 _ Hb) as (evs0 & E0 & _).
  destruct (find_existing_spec Wd c s0) as (reply & w & found & Hrun & Hfound).
  rewrite (bind_return Hrun) in H.
  assert (Create : found = None \/ exists d0, found = Some d0 /\ dict_truthy d0 = true).
  { destruct found as [d0 | ]; [right | now left].
    exists d0. split; [reflexivity | apply (Hfound d0 eq_refl)]. }
  destruct Create as [-> | (d0 & -> & T)].
  2: { unfold return_if_found in H. rewrite T in H.
       destruct (Hfound d0 eq_refl) as (_ & A & raw & R & S).
       unfold ret in H. rewrite A in H. injection H as <- <-.
       exists raw, (evs0 ++ [Exchange (mkRequest GET (lookup_url c) None) reply])%list.
       split; [simpl; rewrite E0; now rewrite app_assoc | ].
       split; [apply Exists_app; right; now constructor | ].
       split; [exact R | apply N, R]. }
  unfold return_if_found at 1 in H.
  match type of H with
  | try_except _ _ ?st = _ =>
      destruct (create_attempt Wd c t st) as [[b | e | ] s2] eqn:Hc;
      pose proof (create_attempt_run Wd c t st) as Hrun1
  end.
  3: { unfold try_except in H. rewrite Hc in H. discriminate. }
  all: rewrite Hc in Hrun1;
    set (req := create_request c t) in *;
    assert (Rm : req_method req <> GET) by (subst req; destruct c; discriminate);
    destruct (nsx_send Wd req _) as [reply1 w1]; cbn [fst snd] in Hrun1;
    injection Hrun1 as Hout ->.
  - rewrite (try_return Hc) in H. injection H as <- <-.
    destruct reply1 as [resp | e]; [ | discriminate].
    destruct (safejson resp) as [body | e] eqn:J; [ | discriminate].
    injection Hout as ->.
    exists body, (evs0 ++ [Exchange (mkRequest GET (lookup_url c) None) reply;
                           Exchange req (Ok resp)])%list.
    split; [simpl; rewrite E0, <- !app_assoc; reflexivity | ].
    split; [ | split; [reflexivity | now apply N] ].
    apply Exists_app. right. apply Exists_cons_tl, Exists_cons_hd.
    simpl. exists body. split; [exact J | ].
    destruct (req_method req); [contradiction | reflexivity | reflexivity].
  - rewrite (try_raise Hc) in H. cbv beta in H.
    destruct (recoverable c e); [ | discriminate].
    rewrite recover_run in H.
    match type of H with
    | context [find_existing Wd c ?st] =>
        destruct (find_existing_spec Wd c st) as (reply2 & w2 & found2 & Hrun2 & Hfound2)
    end.
    rewrite Hrun2 in H. destruct found2 as [d2 | ]; [ | discriminate].
    injection H as <- <-.
    destruct (Hfound2 d2 eq_refl) as (_ & _ & raw & R & S).
    exists raw, (evs0 ++ [Exchange (mkRequest GET (lookup_url c) None) reply;
                          Exchange req reply1;
                          Exchange (mkRequest GET (lookup_url c) None) reply2])%list.
    split; [simpl; rewrite E0, <- !app_assoc; reflexivity | ].
    split; [ | split; [exact R | apply N, R] ].
    apply Exists_app. right. now apply Exists_cons_tl, Exists_cons_tl, Exists_cons_hd.
Qed.

End RecoveryFacts.

Section ThumbprintFacts.

Lemma pairs_of_hex_bytes (bs : list Byte.byte) :
  PyStr.pairs (String.concat EmptyString (map Sha256.hex_byte bs)) = map Sha256.hex_byte bs.
Proof.
  induction bs as [ | b bs IH]; [reflexivity | ].
  destruct bs as [ | b' bs]; [reflexivity | ].
  change (String.concat EmptyString (map Sha256.hex_byte (b :: b' :: bs)))
    with (Sha256.hex_byte b
            ++ EmptyString ++ String.concat EmptyString (map Sha256.hex_byte (b' :: bs))).
  unfold Sha256.hex_byte at 1. cbn [append PyStr.pairs].
  now rewrite IH.
Qed.

Lemma upper_hex_byte_group (b : Byte.byte) :
  hex_group (PyStr.upper (Sha256.hex_byte b)) = true.
Proof. destruct b; reflexivity. Qed.

Example sha256_abc :
  Sha256.hexdigest (list_byte_of_string "abc")
  = "ba7816bf8f01cfea414140de5dae2223b00361a396177a9cb410ff61f20015ad".
Proof. vm_compute. reflexivity. Qed.

Example sha256_two_blocks :
  Sha256.hexdigest
    (list_byte_of_string "abcdbcdecdefdefgefghfghighijhijkijkljklmklmnlmnomnopnopq")
  = "248d6a61d20638b8e5c026930c3e6039a33ce45964ff2167f6ecedd419db06c1".
Proof. vm_compute. reflexivity. Qed.

Example sha256_empty :
  Sha256.hexdigest []
  = "e3b0c44298fc1c149afbf4c8996fb92427ae41e4649b934ca495991b7852b855".
Proof. vm_compute. reflexivity. Qed.

Lemma digest_length (data : list Byte.byte) : List.length (Sha256.digest data) = 32%nat.
Proof. reflexivity. Qed.

End ThumbprintFacts.

Section ThumbprintTheorem.

Variable Wd : World.

(** C8.  Whenever the peer hands over certificate bytes, the thumbprint
    returned is the SHA-256 digest of those bytes, each of its 32 bytes
    written as two upper-case hexadecimal digits, the 32 groups joined by
    colons. *)
Theorem thumbprint_format (hostname : string) (port : Z) (s : state Wd)
  (cert : list Byte.byte) (w : backend Wd) :
  getpeercert Wd hostname port (world s) = (Ok (Some cert), w) ->
  exists groups,
    get_ssl_thumbprint Wd hostname port s
    = (Return (PyStr.join ":" groups),
       emit w (PeerCert hostname port (Ok (Some cert))) s)
    /\ groups = map (fun b => PyStr.upper (Sha256.hex_byte b)) (Sha256.digest cert)
    /\ List.length groups = 32%nat
    /\ forallb hex_group groups = true.
Proof.
  intros H.
  exists (map (fun b => PyStr.upper (Sha256.hex_byte b)) (Sha256.digest cert)).
  split; [ | split; [reflexivity | split] ].
  - rewrite get_ssl_thumbprint_run, H. cbn [fst snd].
    unfold Sha256.hexdigest. now rewrite pairs_of_hex_bytes, map_map.
  - now rewrite length_map, digest_length.
  - apply forallb_forall. intros g G. apply in_map_iff in G as [b [<- _]].
    apply upper_hex_byte_group.
Qed.

(** C9.  When the setting ff_component_wait_for_status is not the string
    "true", the run raises the [ValueError] and leaves the state as it found
    it: the trace gets no exchange, so no request reaches NSX. *)
Theorem wait_for_status_gate (fuel : nat) (zpod_component_id : Z) (s : state Wd) :
  get_setting_value Wd "ff_component_wait_for_status" (world s) <> JStr "true" ->
  execute_config_script Wd fuel zpod_component_id s
  = (Raise (mkExn ValueError "ff_component_wait_for_status is not true"), s).
Proof.
  intros H. unfold execute_config_script, bind, load_zpod, setting_value.
  destruct (py_eq _ (JStr "true")) eqn:E; [ | reflexivity].
  exfalso. apply H.
  destruct (get_setting_value Wd _ (world s)); try discriminate E.
  simpl in E. apply String.eqb_eq in E. now subst.
Qed.

End ThumbprintTheorem.

Section ConnectionPoll.

Variable Wd : World.

Lemma check_connection_run id (s : state Wd) :
  check_connection Wd id s =
  (Return (connection_up (fst (nsx_send Wd (status_request id) (world s)))),
   emit (snd (nsx_send Wd (status_request id) (world s)))
     (Exchange (status_request id) (fst (nsx_send Wd (status_request id) (world s)))) s).
Proof.
  unfold check_connection, try_except, bind, nsx_get, status_request.
  rewrite nsx_call_eq.
  destruct (nsx_send Wd _ (world s)) as [[resp | e] w]; cbn [fst snd]; [ | reflexivity].
  unfold connection_up.
  destruct (safejson resp) as [info | e]; cbn [lift ret raise]; [ | reflexivity].
  now destruct (py_eq _ _).
Qed.

Lemma final_connection_check_run id (s : state Wd) :
  final_connection_check Wd id s =
  (Return tt,
   emit (snd (nsx_send Wd (status_request id) (world s)))
     (Exchange (status_request id) (fst (nsx_send Wd (status_request id) (world s)))) s).
Proof.
  unfold final_connection_check, try_except, bind, nsx_get, status_request.
  rewrite nsx_call_eq.
  destruct (nsx_send Wd _ (world s)) as [[resp | e] w]; cbn [fst snd]; [ | reflexivity].
  destruct (safejson resp) as [info | e]; cbn [lift ret raise]; [ | reflexivity].
  now destruct (py_eq _ _).
Qed.

Lemma check_connection_loop_no_raise fuel id timeout start (s : state Wd) e s' :
  check_connection_loop Wd fuel id timeout start s <> (Raise e, s').
Proof.
  revert s. induction fuel as [ | fuel IH]; intros s; simpl; [discriminate | ].
  unfold bind, time. destruct (Qle_bool _ _); [discriminate | ].
  rewrite check_connection_run.
  destruct (connection_up _); [discriminate | ].
  unfold sleep. apply IH.
Qed.

Lemma check_connection_loop_ends (Hclock : clock_advances Wd) id timeout start n :
  forall s : state Wd,
    (inject_Z timeout - (time_time Wd (world s) - start) <= 10 * inject_Z (Z.of_nat n))%Q ->
    exists up s', check_connection_loop Wd (S n) id timeout start s = (Return up, s').
Proof.
  destruct Hclock as [Hreq Hsleep].
  induction n as [ | n IH]; intros s B.
  - cbn [check_connection_loop]. unfold bind at 1, time.
    destruct (Qle_bool _ _) eqn:Q; [now eexists _, _ | ].
    exfalso. apply Bool.not_true_iff_false in Q. apply Q, Qle_bool_iff.
    change (inject_Z (Z.of_nat 0)) with 0%Q in B. lra.
  - cbn [check_connection_loop]. unfold bind at 1, time.
    destruct (Qle_bool _ _) eqn:Q; [now eexists _, _ | ].
    rewrite (bind_return (check_connection_run id s)).
    destruct (connection_up _); [now eexists _, _ | ].
    unfold bind at 1, sleep. apply IH. cbn [world emit].
    specialize (Hreq (status_request id) (world s)).
    specialize (Hsleep 10 (snd (nsx_send Wd (status_request id) (world s)))).
    change (inject_Z 10) with 10%Q in Hsleep.
    rewrite Nat2Z.inj_succ in B. unfold Z.succ in B. rewrite inject_Z_plus in B.
    change (inject_Z 1) with 1%Q in B. lra.
Qed.

Lemma check_compute_manager_status_run fuel id timeout (s : state Wd) :
  check_compute_manager_status Wd fuel id timeout s =
  match check_connection_loop Wd fuel id timeout (time_time Wd (world s)) s with
  | (Return true, s1) => (Return tt, s1)
  | (Return false, s1) => final_connection_check Wd id s1
  | (Raise e, s1) => (Raise e, s1)
  | (OutOfFuel, s1) => (OutOfFuel, s1)
  end.
Proof.
  unfold check_compute_manager_status, bind, time.
  destruct (check_connection_loop Wd fuel id timeout _ s) as [[[ | ] | e | ] s1];
    reflexivity.
Qed.

Lemma Z_le_ten_to_nat (z : Z) : (inject_Z z <= 10 * inject_Z (Z.of_nat (Z.to_nat z)))%Q.
Proof.
  change 10%Q with (inject_Z 10). rewrite <- inject_Z_mult, <- Zle_Qle. lia.
Qed.

(** C7.  The connection-status poll never raises, whatever the status
    fetches answer; when the loop runs out of time the function makes exactly
    one more status request and returns; the step of the orchestrator that
    calls it never raises either, also when the compute manager has no id;
    and when the clock advances, both return. *)
Theorem connection_poll_never_raises (compute_manager_id : json) (timeout : Z)
  (s : state Wd) :
  (forall fuel e s',
     check_compute_manager_status Wd fuel compute_manager_id timeout s <> (Raise e, s'))
  /\ (forall fuel s1,
        check_connection_loop Wd fuel compute_manager_id timeout
          (time_time Wd (world s)) s = (Return false, s1) ->
        exists reply w,
          check_compute_manager_status Wd fuel compute_manager_id timeout s
          = (Return tt, emit w (Exchange (status_request compute_manager_id) reply) s1))
  /\ (forall fuel compute_manager e s',
        connection_status_step Wd fuel compute_manager s <> (Raise e, s'))
  /\ (clock_advances Wd ->
      (exists fuel s',
         check_compute_manager_status Wd fuel compute_manager_id timeout s = (Return tt, s'))
      /\ (exists fuel, forall compute_manager, exists s',
            connection_status_step Wd fuel compute_manager s = (Return tt, s'))).
Proof.
  assert (NoRaise : forall fuel id t (s0 : state Wd) e s',
            check_compute_manager_status Wd fuel id t s0 <> (Raise e, s')).
  { intros fuel id t s0 e s'. rewrite check_compute_manager_status_run.
    destruct (check_connection_loop Wd fuel id t _ s0) as [[[ | ] | e0 | ] s1] eqn:L.
    - discriminate.
    - rewrite final_connection_check_run. discriminate.
    - exfalso. eapply check_connection_loop_no_raise, L.
    - discriminate. }
  assert (Ends : clock_advances Wd -> forall id t (s0 : state Wd), exists s',
            check_compute_manager_status Wd (S (Z.to_nat t)) id t s0 = (Return tt, s')).
  { intros Hclock id t s0. rewrite check_compute_manager_status_run.
    destruct (check_connection_loop_ends Hclock id t (time_time Wd (world s0))
                (Z.to_nat t) s0) as (up & s1 & L).
    { pose proof (Z_le_ten_to_nat t). lra. }
    rewrite L. destruct up; [now eexists | ].
    rewrite final_connection_check_run. now eexists. }
  split; [ | split; [ | split] ].
  - intros fuel e s'. apply NoRaise.
  - intros fuel s1 L. rewrite check_compute_manager_status_run, L.
    rewrite final_connection_check_run. now eexists _, _.
  - intros fuel cm e s'. unfold connection_status_step, try_except.
    destruct (dict_item cm "id") as [id | e0] eqn:I.
    + rewrite (bind_return (a := id) (s' := s)) by reflexivity.
      destruct (check_compute_manager_status Wd fuel id 120 s) as [[[] | e0 | ] s1];
        discriminate.
    + rewrite (bind_raise (e := e0) (s' := s)) by reflexivity. discriminate.
  - intros Hclock. split.
    + exists (S (Z.to_nat timeout)). apply Ends, Hclock.
    + exists (S (Z.to_nat 120)). intros cm. unfold connection_status_step, try_except.
      destruct (dict_item cm "id") as [id | e0] eqn:I.
      * rewrite (bind_return (a := id) (s' := s)) by reflexivity.
        destruct (Ends Hclock id 120 s) as [s' E]. rewrite E. now eexists.
      * rewrite (bind_raise (e := e0) (s' := s)) by reflexivity. now eexists.
Qed.

End ConnectionPoll.

Section VerdictFacts.

Lemma py_eq_str (j : json) (text : string) : py_eq j (JStr text) = true <-> j = JStr text.
Proof.
  split.
  - destruct j; simpl; try discriminate. intros E. apply String.eqb_eq in E. now subst.
  - intros ->. simpl. apply String.eqb_refl.
Qed.

(** C3, amended.  For a node whose status fetch answered with a ["status"]
    field: when the answer carries a deployment status, the node is ready if
    and only if the deployment status is INSTALL_SUCCESSFUL and the status is
    UP, failed if and only if the deployment status is not INSTALL_SUCCESSFUL
    and contains ERROR or FAIL, and preparing otherwise, whatever the status
    (also DOWN); when the answer carries no deployment status, the node is
    ready if and only if the status is UP, failed if and only if it is DOWN,
    and preparing otherwise. *)
Theorem node_verdict_table (status_data : dict) (status : json) :
  dict_get "status" status_data = Some status ->
  (forall node_status deployment_status,
     dict_get "node_status" status_data = Some (JObj node_status) ->
     dict_get "host_node_deployment_status" node_status = Some (JStr deployment_status) ->
     node_verdict status_data =
     Ok (if String.eqb deployment_status "INSTALL_SUCCESSFUL"
         then if py_eq status (JStr "UP") then Ready else Preparing
         else if PyStr.contains "ERROR" deployment_status
                 || PyStr.contains "FAIL" deployment_status
         then Failed
         else Preparing))
  /\ ((dict_get "node_status" status_data = None \/
       exists node_status,
         dict_get "node_status" status_data = Some (JObj node_status) /\
         dict_get "host_node_deployment_status" node_status = None) ->
      node_verdict status_data =
      Ok (if py_eq status (JStr "UP") then Ready
          else if py_eq status (JStr "DOWN") then Failed
          else Preparing)).
Proof.
  intros S. split.
  - intros node_status dep NS D.
    unfold node_verdict, dict_has, dict_item. rewrite S, NS.
    cbn [rbind Py.contains Py.item]. unfold dict_has, dict_item. rewrite D.
    cbn [rbind py_eq Py.contains].
    destruct (String.eqb dep "INSTALL_SUCCESSFUL"); cbn [andb].
    + now destruct (py_eq status (JStr "UP")).
    + destruct (PyStr.contains "ERROR" dep); cbn [rbind orb]; [reflexivity | ].
      now destruct (PyStr.contains "FAIL" dep).
  - intros [NS | (node_status & NS & D)];
      unfold node_verdict, dict_has, dict_item; rewrite S, NS; cbn [rbind Py.contains].
    + destruct (py_eq status (JStr "UP")); [reflexivity | ].
      destruct (py_eq status (JStr "DOWN")); [reflexivity | ].
      destruct (py_eq status (JStr "DEGRADED")); [reflexivity | ].
      now destruct (py_eq status (JStr "UNKNOWN")).
    + unfold dict_has. rewrite D.
      destruct (py_eq status (JStr "UP")); [reflexivity | ].
      destruct (py_eq status (JStr "DOWN")); [reflexivity | ].
      destruct (py_eq status (JStr "DEGRADED")); [reflexivity | ].
      now destruct (py_eq status (JStr "UNKNOWN")).
Qed.

(** C3 as stated fails: a node that is still installing and whose
    connectivity status is DOWN is failed in the words of the specification,
    and the script records it as preparing. *)
Lemma installing_down_node_is_preparing :
  node_verdict (status_report "INSTALL_IN_PROGRESS" "DOWN") = Ok Preparing
  /\ specified_verdict "INSTALL_IN_PROGRESS" "DOWN" = Failed.
Proof. split; reflexivity. Qed.

End VerdictFacts.

Section HostPreparation.

Variable Wd : World.

(** C10.  An exception that escapes an attempt of the host-preparation poll
    and whose message contains, whatever the case of its letters, "failed"
    or "error" is raised again at once: no sleep, no further attempt.  An
    exception with neither word makes the poll sleep 10 seconds and go on
    with the next attempt while fewer than 60 attempts were made, and is
    raised again on the 60th. *)
Theorem attempt_error_policy (compute_collection_id : json) (remaining : nat)
  (attempt : Z) (s s1 : state Wd) (e : exn) :
  verify_attempt Wd compute_collection_id (attempt + 1) s = (Raise e, s1) ->
  verify_loop Wd (S remaining) compute_collection_id attempt s =
  if PyStr.contains "failed" (PyStr.lower (exn_str e))
     || PyStr.contains "error" (PyStr.lower (exn_str e))
  then (Raise e, s1)
  else if attempt + 1 <? 60
  then verify_loop Wd remaining compute_collection_id (attempt + 1)
         (emit (time_sleep Wd 10 (world s1)) (Sleep 10) s1)
  else (Raise e, s1).
Proof.
  intros H. cbn [verify_loop]. unfold bind at 1.
  rewrite (try_raise H). unfold verify_handler, says_failed.
  destruct (_ || _); [reflexivity | ].
  change max_attempts with 60.
  destruct (attempt + 1 <? 60); reflexivity.
Qed.

(** C6, amended.  Before the subnet step the orchestrator checks that the IP
    pool descriptor and the IP block descriptor each have a ["path"] key, the
    pool first; the value under the key is not examined.  When one of them
    has no such key the run raises a [ValueError] that names the object and
    leaves the state as it was: no request, so no subnet write. *)
Theorem subnet_precondition (fuel : nat) (compute_manager ip_block ip_pool : dict)
  (s : state Wd) :
  dict_get "path" ip_pool = None \/ dict_get "path" ip_block = None ->
  steps_from_subnet Wd fuel compute_manager ip_block ip_pool s =
  (Raise (mkExn ValueError
            (if dict_has "path" ip_pool
             then "IP Block object missing 'path' key"
             else "IP Pool object missing 'path' key")), s)
  /\ (forall zpod_component_id s0,
        get_setting_value Wd "ff_component_wait_for_status" (world s0) = JStr "true" ->
        steps_to_ip_pool Wd fuel (session_get_zpod Wd zpod_component_id (world s0)) s0
        = (Return (compute_manager, ip_block, ip_pool), s) ->
        exists message,
          execute_config_script Wd fuel zpod_component_id s0
          = (Raise (mkExn ValueError message), s)).
Proof.
  intros H.
  assert (E : steps_from_subnet Wd fuel compute_manager ip_block ip_pool s =
              (Raise (mkExn ValueError
                        (if dict_has "path" ip_pool
                         then "IP Block object missing 'path' key"
                         else "IP Pool object missing 'path' key")), s)).
  { unfold steps_from_subnet, bind at 1, block_subnet_step, dict_has.
    destruct (dict_get "path" ip_pool) as [p | ]; [ | reflexivity].
    destruct H as [H | H]; [discriminate | ]. now rewrite H. }
  split; [exact E | ].
  intros id s0 T P. eexists.
  unfold execute_config_script, bind at 1, load_zpod.
  unfold bind at 1, setting_value. rewrite T.
  change (negb (py_eq (JStr "true") (JStr "true"))) with false. cbv iota.
  rewrite (bind_return P). exact E.
Qed.

End HostPreparation.

Section AttemptFacts.

Variable Wd : World.

Lemma verify_attempt_run cid attempt (s : state Wd) :
  verify_attempt Wd cid attempt s =
  let reply := fst (nsx_send Wd listing_request (world s)) in
  let s1 := emit (snd (nsx_send Wd listing_request (world s)))
              (Exchange listing_request reply) s in
  match listed_nodes cid reply with
  | Err e => (Raise e, s1)
  | Ok [] =>
      if attempt <? 60 then (Return NextAttempt, after_sleep Wd s1)
      else (Raise no_nodes_found, s1)
  | Ok (node :: nodes) =>
      match check_nodes Wd (node :: nodes) fresh_tally s1 with
      | (Return t, s2) => conclude Wd attempt t s2
      | (Raise e, s2) => (Raise e, s2)
      | (OutOfFuel, s2) => (OutOfFuel, s2)
      end
  end.
Proof.
  unfold verify_attempt, bind at 1, nsx_get. rewrite nsx_call_eq.
  fold listing_request.
  destruct (nsx_send Wd listing_request (world s)) as [[resp | e] w]; cbn [fst snd];
    [ | reflexivity].
  unfold listed_nodes, bind at 1.
  destruct (safejson resp) as [body | e]; cbn [lift ret raise rbind]; [ | reflexivity].
  unfold bind at 1.
  destruct (Py.iter _) as [items | e]; cbn [lift ret raise rbind]; [ | reflexivity].
  unfold bind at 1.
  destruct (relevant_nodes cid items) as [[ | node nodes] | e];
    cbn [lift ret raise rbind]; try reflexivity.
  - change max_attempts with 60. destruct (attempt <? 60); reflexivity.
  - unfold bind at 1.
    destruct (check_nodes Wd (node :: nodes) fresh_tally _) as [[t | e | ] s2];
      try reflexivity.
    unfold conclude. destruct (failed_nodes t) as [ | f fs].
    + destruct (all_ready t); [reflexivity | ].
      change max_attempts with 60. destruct (attempt <? 60); reflexivity.
    + unfold bind. destruct (Py.join ", " (f :: fs)); reflexivity.
Qed.

(** One turn of the loop, by the way the attempt ended. *)
Lemma verify_loop_step cid remaining attempt (s : state Wd) :
  verify_loop Wd (S remaining) cid attempt s =
  match verify_attempt Wd cid (attempt + 1) s with
  | (Return Finished, s1) => (Return tt, s1)
  | (Return NextAttempt, s1) => verify_loop Wd remaining cid (attempt + 1) s1
  | (Raise e, s1) =>
      if says_failed e then (Raise e, s1)
      else if attempt + 1 <? 60
      then verify_loop Wd remaining cid (attempt + 1) (after_sleep Wd s1)
      else (Raise e, s1)
  | (OutOfFuel, s1) => (OutOfFuel, s1)
  end.
Proof.
  cbn [verify_loop]. unfold bind at 1, try_except.
  destruct (verify_attempt Wd cid (attempt + 1) s) as [[[ | ] | e | ] s1]; try reflexivity.
  unfold verify_handler. destruct (says_failed e); [reflexivity | ].
  change max_attempts with 60. destruct (attempt + 1 <? 60); reflexivity.
Qed.

(** The status fetch of a node fails while [status_data] is unbound: the
    node is appended to [failed_nodes], and the next line reads the unbound
    variable. *)
Lemma check_node_fetch_error_unbound node t (s : state Wd) e :
  status_data s = None ->
  fst (nsx_send Wd
         (mkRequest GET (node_status_url (dict_get_or "id" (JStr "Unknown") node)) None)
         (world s)) = Err e ->
  exists s', check_node Wd node t s = (Raise unbound_status_data, s').
Proof.
  intros U F. unfold check_node, bind at 1, try_except, bind at 1, nsx_get.
  rewrite nsx_call_eq, F. cbn [ret]. unfold bind at 1, read_status_data.
  cbn [status_data emit]. rewrite U. now eexists.
Qed.

Lemma poll_retries_listing_errors cid e :
  (forall w, fst (nsx_send Wd listing_request w) = Err e) ->
  says_failed e = false ->
  forall remaining attempt (s : state Wd),
    attempt + Z.of_nat (S remaining) = 60 ->
    exists s' evs,
      verify_loop Wd (S remaining) cid attempt s = (Raise e, s')
      /\ trace s' = (trace s ++ evs)%list
      /\ requests evs = repeat listing_request (S remaining)
      /\ sleeps evs = repeat 10 remaining.
Proof.
  intros L N. induction remaining as [ | remaining IH]; intros attempt s B;
    rewrite verify_loop_step, verify_attempt_run, L; cbn [listed_nodes]; cbv zeta;
    rewrite N.
  - replace (attempt + 1 <? 60) with false by (symmetry; apply Z.ltb_ge; lia).
    eexists _, [_]. repeat split.
  - replace (attempt + 1 <? 60) with true by (symmetry; apply Z.ltb_lt; lia).
    edestruct (IH (attempt + 1)) as (s' & evs & R & T & Q & S); [lia | ].
    rewrite R. exists s'. eexists (_ :: _ :: evs). split; [reflexivity | ].
    split; [ | split].
    + rewrite T. unfold after_sleep. cbn [trace emit]. rewrite <- !app_assoc. reflexivity.
    + cbn [requests flat_map app]. fold (requests evs). now rewrite Q.
    + cbn [sleeps flat_map app]. fold (sleeps evs). now rewrite S.
Qed.

Lemma poll_retries_empty_listings cid :
  (forall w, listed_nodes cid (fst (nsx_send Wd listing_request w)) = Ok []) ->
  forall remaining attempt (s : state Wd),
    attempt + Z.of_nat (S remaining) = 60 ->
    exists s' evs,
      verify_loop Wd (S remaining) cid attempt s = (Raise no_nodes_found, s')
      /\ trace s' = (trace s ++ evs)%list
      /\ requests evs = repeat listing_request (S remaining)
      /\ sleeps evs = repeat 10 remaining.
Proof.
  intros L. induction remaining as [ | remaining IH]; intros attempt s B;
    rewrite verify_loop_step, verify_attempt_run; cbv zeta; rewrite L.
  - replace (attempt + 1 <? 60) with false by (symmetry; apply Z.ltb_ge; lia).
    change (says_failed no_nodes_found) with false. cbv iota.
    eexists _, [_]. repeat split.
  - replace (attempt + 1 <? 60) with true by (symmetry; apply Z.ltb_lt; lia).
    edestruct (IH (attempt + 1)) as (s' & evs & R & T & Q & S); [lia | ].
    rewrite R. exists s'. eexists (_ :: _ :: evs). split; [reflexivity | ].
    split; [ | split].
    + rewrite T. unfold after_sleep. cbn [trace emit]. rewrite <- !app_assoc. reflexivity.
    + cbn [requests flat_map app]. fold (requests evs). now rewrite Q.
    + cbn [sleeps flat_map app]. fold (sleeps evs). now rewrite S.
Qed.

(** When every node of an attempt was looked at without an exception: a
    failed node ends the poll at once with an error naming the failed nodes,
    and when none failed and all are ready the poll returns. *)
Lemma verify_loop_conclusive cid remaining attempt (s s2 : state Wd) t :
  verify_attempt Wd cid (attempt + 1) s = conclude Wd (attempt + 1) t s2 ->
  (forall names, Py.join ", " (failed_nodes t) = Ok names -> failed_nodes t <> [] ->
     verify_loop Wd (S remaining) cid attempt s
     = (Raise (mkExn PlainException ("Host preparation failed for: " ++ names)), s2))
  /\ (failed_nodes t = [] -> all_ready t = true ->
      verify_loop Wd (S remaining) cid attempt s = (Return tt, s2)).
Proof.
  intros H. rewrite verify_loop_step, H. unfold conclude. split.
  - intros names J F. destruct (failed_nodes t) as [ | f fs]; [contradiction | ].
    rewrite J. reflexivity.
  - intros -> ->. reflexivity.
Qed.

Lemma unbound_status_data_is_retried : says_failed unbound_status_data = false.
Proof. reflexivity. Qed.

End AttemptFacts.

Section ScenarioChecks.

Import Scripted Scenario.

Example block_first_call :
  create_ip_block block_world block_s0 = (Return block, block_s1).
Proof. reflexivity. Qed.

Example block_second_call :
  create_ip_block block_world block_s1 = (Return block, block_s2)
  /\ map req_method (requests (trace block_s2)) = [GET; POST; GET].
Proof. split; reflexivity. Qed.

Example run_reaches_subnet_step :
  steps_to_ip_pool run_world 1 the_zpod run_s0
  = (Return (registered_manager, block, bare_pool), run_s1).
Proof. vm_compute. reflexivity. Qed.

End ScenarioChecks.

Section Witnesses.

Import Scripted Scenario.

(** The second of two calls is answered with the block the first one
    created: it returns the same block and creates nothing. *)
Lemma create_or_get_idempotent_witness :
  create_or_get block_world IpBlock block_s0 = (Return block, block_s1)
  /\ before_lookup block_world IpBlock block_s1 = (Return EmptyString, block_s1)
  /\ listed_first IpBlock
       (fst (nsx_send block_world (mkRequest GET (lookup_url IpBlock) None)
               (world block_s1)))
       raw_block
  /\ dict_get "id" raw_block = dict_get "id" block
  /\ exists s2 evs,
       create_or_get block_world IpBlock block_s1
       = (Return (normalize IpBlock raw_block), s2)
       /\ dict_get "id" (normalize IpBlock raw_block) = dict_get "id" block
       /\ (forall k, k <> "path" ->
           dict_get k (normalize IpBlock raw_block) = dict_get k raw_block)
       /\ trace s2 = (trace block_s1 ++ evs)%list
       /\ requests evs = [mkRequest GET (lookup_url IpBlock) None]
       /\ no_create_call evs = true.
Proof.
  assert (L : listed_first IpBlock
                (fst (nsx_send block_world (mkRequest GET (lookup_url IpBlock) None)
                        (world block_s1)))
                raw_block).
  { exists (mkResponse 200 (Ok [("results", JArr [JObj raw_block])])),
      [("results", JArr [JObj raw_block])], [], [].
    split; [reflexivity | ]. split; [reflexivity | ]. split; [reflexivity | ].
    split; [constructor | reflexivity]. }
  split; [reflexivity | ]. split; [reflexivity | ]. split; [exact L | ].
  split; [reflexivity | ].
  exact (proj1 (create_or_get_idempotent block_world IpBlock block_s0 block_s1 block_s1
                  block EmptyString eq_refl eq_refl)
           raw_block L eq_refl).
Defined.

(** C1 as stated fails when the listing request of the second call raises:
    the first call created the block b1, the lookup of the second call takes
    the failed listing for an absent block, and the second call creates a
    second block, b2. *)
Lemma second_call_creates_a_duplicate :
  create_ip_block Cases.relisting_world Cases.relisting_s0
  = (Return block, Cases.relisting_s1)
  /\ fst (nsx_send Cases.relisting_world (mkRequest GET (lookup_url IpBlock) None)
            (world Cases.relisting_s1))
     = fails "503 Service Unavailable"
  /\ (exists s2,
        create_ip_block Cases.relisting_world Cases.relisting_s1
        = (Return Cases.duplicate_block, s2)
        /\ map req_method (requests (trace s2)) = [GET; POST; GET; POST])
  /\ dict_get "id" block = Some (JStr "b1")
  /\ dict_get "id" Cases.duplicate_block = Some (JStr "b2").
Proof.
  split; [reflexivity | ]. split; [reflexivity | ].
  split; [eexists; split; reflexivity | ]. split; reflexivity.
Qed.

Lemma create_conflict_recovery_witness :
  before_lookup conflict_world IpBlock conflict_s0 = (Return EmptyString, conflict_s0)
  /\ find_existing conflict_world IpBlock conflict_s0 = (Return None, conflict_s1)
  /\ create_attempt conflict_world IpBlock EmptyString conflict_s1
     = (Raise conflict, conflict_s2)
  /\ create_or_get conflict_world IpBlock conflict_s0 = (Return block, conflict_s3).
Proof.
  split; [reflexivity | ]. split; [reflexivity | ]. split; [reflexivity | ].
  exact (proj1 (create_conflict_recovery conflict_world IpBlock conflict_s0 conflict_s0
                  conflict_s1 conflict_s2 EmptyString conflict
                  eq_refl eq_refl eq_refl)).
Defined.

(** C2 as stated fails for the compute manager: the create call raises an
    error whose message contains "duplicate" whatever the case, a manager
    for the server is registered, and the error is raised instead of the
    lookup being run again, by [create_compute_manager] and by the step of
    the orchestrator alike. *)
Lemma duplicate_manager_is_not_recovered :
  says_duplicate duplicate_manager = true
  /\ (exists s2,
        create_compute_manager manager_world the_zpod manager_s0
        = (Raise duplicate_manager, s2)
        /\ map req_method (requests (trace s2)) = [GET; POST]
        /\ fst (find_existing manager_world (ComputeManager the_zpod) s2)
           = Return (Some registered_manager))
  /\ fst (compute_manager_step manager_world the_zpod manager_s0)
     = Raise duplicate_manager.
Proof.
  split; [reflexivity | ]. split; [ | reflexivity].
  eexists. split; [reflexivity | ]. split; reflexivity.
Qed.

Lemma node_verdict_table_witness :
  dict_get "status" (status_report "INSTALL_SUCCESSFUL" "DOWN") = Some (JStr "DOWN")
  /\ node_verdict (status_report "INSTALL_SUCCESSFUL" "DOWN") = Ok Preparing
  /\ node_verdict [("status", JStr "DOWN")] = Ok Failed.
Proof.
  split; [reflexivity | ]. split.
  - apply (proj1 (node_verdict_table (status_report "INSTALL_SUCCESSFUL" "DOWN")
                    (JStr "DOWN") eq_refl)
             [("host_node_deployment_status", JStr "INSTALL_SUCCESSFUL")]
             "INSTALL_SUCCESSFUL"); reflexivity.
  - apply (proj2 (node_verdict_table [("status", JStr "DOWN")] (JStr "DOWN") eq_refl)).
    left. reflexivity.
Defined.

Lemma returned_descriptor_path_witness :
  create_or_get block_world IpBlock block_s0 = (Return block, block_s1)
  /\ exists raw evs,
       trace block_s1 = (trace block_s0 ++ evs)%list /\ Exists (sent_in raw) evs /\
       block = normalize IpBlock raw /\
       forall id,
         dict_get "id" raw = Some id ->
         dict_get "path" block =
         match dict_get "path" raw with
         | Some p => Some p
         | None => Some (JStr (ip_block_prefix ++ Py.str id))
         end.
Proof.
  split; [reflexivity | ].
  apply (returned_descriptor_path block_world IpBlock block_s0 block_s1 block).
  reflexivity.
Defined.

(** C4 as stated fails for the transport node profile: the backend answers
    the create call with an id and no path, and the descriptor is returned
    as it came, without a path. *)
Lemma profile_is_returned_without_path :
  fst (create_transport_node_profile profile_world (JStr "/pool") (JStr "/overlay")
         (JStr "/vlan") (JStr "/uplink") (JStr "DSwitch") (initial profile_world start))
  = Return raw_profile
  /\ dict_get "id" raw_profile = Some (JStr "tnp")
  /\ dict_get "path" raw_profile = None.
Proof. repeat split. Qed.

Lemma subnet_precondition_witness :
  (dict_get "path" bare_pool = None \/ dict_get "path" block = None)
  /\ steps_from_subnet run_world 1 registered_manager block bare_pool run_s1
     = (Raise (mkExn ValueError "IP Pool object missing 'path' key"), run_s1)
  /\ exists message,
       execute_config_script run_world 1 7 run_s0
       = (Raise (mkExn ValueError message), run_s1).
Proof.
  split; [left; reflexivity | ].
  split.
  - exact (proj1 (subnet_precondition run_world 1 registered_manager block bare_pool
                    run_s1 (or_introl eq_refl))).
  - apply (proj2 (subnet_precondition run_world 1 registered_manager block bare_pool
                    run_s1 (or_introl eq_refl)) 7 run_s0); vm_compute; reflexivity.
Defined.

(** C6 as stated fails for a path that is present and empty: the check
    passes, and the subnet is written. *)
Lemma empty_path_passes_the_check :
  dict_get "path" empty_path_pool = Some (JStr EmptyString)
  /\ fst (block_subnet_step empty_world empty_path_pool block (initial empty_world start))
     = Return []
  /\ map (fun req => (req_method req, req_url req))
       (requests (trace (snd (block_subnet_step empty_world empty_path_pool block
                                (initial empty_world start)))))
     = [ (GET, "/api/v1/infra/ip-pools//ip-subnets");
         (GET, "/api/v1/infra/ip-pools//ip-subnets/subnet-");
         (PUT, "/api/v1/infra/ip-pools//ip-subnets/subnet-") ].
Proof. repeat split. Qed.

Lemma scripted_clock_advances route cert setting :
  clock_advances (world_of route cert setting).
Proof. split; intros; simpl; apply Qle_refl. Defined.

Lemma connection_poll_never_raises_witness :
  clock_advances refused_world
  /\ (exists fuel s',
        check_compute_manager_status refused_world fuel (JStr "cm-1") 120
          (initial refused_world start) = (Return tt, s'))
  /\ (exists fuel, forall compute_manager, exists s',
        connection_status_step refused_world fuel compute_manager
          (initial refused_world start) = (Return tt, s')).
Proof.
  split; [apply scripted_clock_advances | ].
  apply (proj2 (proj2 (proj2
           (connection_poll_never_raises refused_world (JStr "cm-1") 120
              (initial refused_world start))))).
  apply scripted_clock_advances.
Defined.

Lemma thumbprint_format_witness :
  getpeercert manager_world "vcsa.zpod.example" 443 (world manager_s0)
  = (Ok (Some (list_byte_of_string "abc")), start)
  /\ exists groups,
       get_ssl_thumbprint manager_world "vcsa.zpod.example" 443 manager_s0
       = (Return (PyStr.join ":" groups),
          emit (Wd := manager_world) start
            (PeerCert "vcsa.zpod.example" 443 (Ok (Some (list_byte_of_string "abc"))))
            manager_s0)
       /\ groups = map (fun b => PyStr.upper (Sha256.hex_byte b))
                     (Sha256.digest (list_byte_of_string "abc"))
       /\ List.length groups = 32%nat
       /\ forallb hex_group groups = true.
Proof.
  split; [reflexivity | ].
  apply (thumbprint_format manager_world "vcsa.zpod.example" 443 manager_s0
           (list_byte_of_string "abc") start).
  reflexivity.
Defined.

Example thumbprint_of_abc :
  fst (get_ssl_thumbprint manager_world "vcsa.zpod.example" 443 manager_s0)
  = Return "BA:78:16:BF:8F:01:CF:EA:41:41:40:DE:5D:AE:22:23:B0:03:61:A3:96:17:7A:9C:B4:10:FF:61:F2:00:15:AD".
Proof. vm_compute. reflexivity. Qed.

Lemma wait_for_status_gate_witness :
  get_setting_value gated_world "ff_component_wait_for_status"
    (world (initial gated_world start)) <> JStr "true"
  /\ execute_config_script gated_world 1 7 (initial gated_world start)
     = (Raise (mkExn ValueError "ff_component_wait_for_status is not true"),
        initial gated_world start).
Proof.
  split; [discriminate | ].
  apply (wait_for_status_gate gated_world 1 7 (initial gated_world start)).
  discriminate.
Defined.

Lemma attempt_error_policy_witness :
  (verify_attempt refused_world (JStr "cc") (0 + 1) (initial refused_world start)
   = (Raise refused,
      snd (verify_attempt refused_world (JStr "cc") (0 + 1) (initial refused_world start)))
   /\ verify_loop refused_world 60 (JStr "cc") 0 (initial refused_world start)
      = verify_loop refused_world 59 (JStr "cc") (0 + 1)
          (emit
             (time_sleep refused_world 10
                (world (snd (verify_attempt refused_world (JStr "cc") (0 + 1)
                               (initial refused_world start)))))
             (Sleep 10)
             (snd (verify_attempt refused_world (JStr "cc") (0 + 1)
                     (initial refused_world start)))))
  /\ (verify_attempt server_error_world (JStr "cc") (0 + 1)
        (initial server_error_world start)
      = (Raise server_error,
         snd (verify_attempt server_error_world (JStr "cc") (0 + 1)
                (initial server_error_world start)))
      /\ verify_loop server_error_world 60 (JStr "cc") 0
           (initial server_error_world start)
         = (Raise server_error,
            snd (verify_attempt server_error_world (JStr "cc") (0 + 1)
                   (initial server_error_world start)))).
Proof.
  split; (split; [reflexivity | ]).
  - pose proof (attempt_error_policy refused_world (JStr "cc") 59 0
                  (initial refused_world start)
                  (snd (verify_attempt refused_world (JStr "cc") (0 + 1)
                          (initial refused_world start)))
                  refused eq_refl) as H.
    replace (PyStr.contains "failed" (PyStr.lower (exn_str refused))
             || PyStr.contains "error" (PyStr.lower (exn_str refused)))
      with false in H by reflexivity.
    replace (0 + 1 <? 60) with true in H by reflexivity.
    exact H.
  - pose proof (attempt_error_policy server_error_world (JStr "cc") 59 0
                  (initial server_error_world start)
                  (snd (verify_attempt server_error_world (JStr "cc") (0 + 1)
                          (initial server_error_world start)))
                  server_error eq_refl) as H.
    replace (PyStr.contains "failed" (PyStr.lower (exn_str server_error))
             || PyStr.contains "error" (PyStr.lower (exn_str server_error)))
      with true in H by reflexivity.
    exact H.
Defined.

(** C5 fails on the script when the status fetch of a node raises while
    [status_data] is still unbound: the poll neither aborts nor names the
    node, it reads the unbound variable, takes the resulting exception for a
    transient one, and goes through all 60 attempts, 10 seconds apart. *)
Theorem fetch_error_is_retried_to_the_budget :
  fst (verify_attempt fetch_error_world (JStr "cc") 1 (initial fetch_error_world start))
  = Raise unbound_status_data
  /\ says_failed unbound_status_data = false
  /\ fst fetch_error_run = Raise unbound_status_data
  /\ List.length
       (filter (fun req => String.eqb (req_url req) "/api/v1/transport-nodes")
          (requests (trace (snd fetch_error_run)))) = 60%nat
  /\ sleeps (trace (snd fetch_error_run)) = repeat 10 59.
Proof. vm_compute. repeat split. Qed.

End Witnesses.

Section LookupProperties.

Variable Wd : World.

Lemma normalize_keeps_field c d :
  dict_get (lookup_field c) (normalize c d) = dict_get (lookup_field c) d.
Proof.
  destruct c; simpl; try reflexivity; unfold ensure_path;
    (destruct (dict_get "path" d); [reflexivity | ];
     destruct (dict_get "id" d); [ | reflexivity];
     apply dict_get_set_other; discriminate).
Qed.

(** X1.  The lookup of each kind is one [GET] on the listing of the kind
    and never raises, whatever the backend answers: a failed request, a body
    that cannot be decoded, results that cannot be iterated over all give
    [None].  A descriptor it finds is not empty and carries, under the field
    the lookup compares, exactly the name looked for. *)
Theorem lookup_never_raises (c : create_call) (s : state Wd) :
  exists found,
    find_existing Wd c s
    = (Return found,
       emit (snd (nsx_send Wd (mkRequest GET (lookup_url c) None) (world s)))
         (Exchange (mkRequest GET (lookup_url c) None)
            (fst (nsx_send Wd (mkRequest GET (lookup_url c) None) (world s)))) s)
    /\ (forall e,
          fst (nsx_send Wd (mkRequest GET (lookup_url c) None) (world s)) = Err e ->
          found = None)
    /\ (forall d, found = Some d ->
          dict_truthy d = true
          /\ dict_get (lookup_field c) d = Some (JStr (lookup_name c)))
    /\ (forall resp e,
          fst (nsx_send Wd (mkRequest GET (lookup_url c) None) (world s)) = Ok resp ->
          safejson resp = Err e ->
          found = None)
    /\ (forall resp body e,
          fst (nsx_send Wd (mkRequest GET (lookup_url c) None) (world s)) = Ok resp ->
          safejson resp = Ok body ->
          Py.iter (dict_get_or "results" (JArr []) body) = Err e ->
          found = None).
Proof.
  rewrite find_existing_run. unfold lookup_run. eexists. split; [reflexivity | ].
  split; [ | split; [ | split] ].
  - intros e E. rewrite E. reflexivity.
  - intros d H. split.
    + eapply lookup_result_truthy; [apply normalize_truthy | exact H].
    + unfold lookup_result in H.
      destruct (fst (nsx_send Wd _ (world s))) as [resp | e]; [ | discriminate].
      destruct (safejson resp) as [body | e]; [ | discriminate].
      destruct (Py.iter _) as [items | e]; [ | discriminate].
      destruct (first_match _ _ items) as [[raw | ] | e] eqn:F; try discriminate.
      injection H as <-. rewrite normalize_keeps_field.
      apply first_match_found in F as [_ E]. apply py_eq_str in E.
      unfold dict_get_or in E. destruct (dict_get (lookup_field c) raw); [now subst | discriminate].
  - intros resp e R J. unfold lookup_result. now rewrite R, J.
  - intros resp body e R J I. unfold lookup_result. now rewrite R, J, I.
Qed.

Lemma first_dvs_truthy results uuid : first_dvs results = Ok (Some uuid) -> truthy uuid = true.
Proof.
  induction results as [ | x results IH]; simpl; [discriminate | ].
  destruct x as [ | b | n | str | l | m]; try discriminate.
  destruct (py_eq _ _); [ | exact IH].
  destruct (truthy (dict_get_or "uuid" JNull m)) eqn:T; [ | exact IH].
  intros H. injection H as <-. exact T.
Qed.

(** X2.  Resolving the DVS of a compute manager never fails: it is one
    [GET] on the search API, and whatever the answer the function returns a
    value that is truthy, so never an empty switch id; when the request
    itself raises, the value is the default name "DSwitch". *)
Theorem dvs_lookup_never_fails (compute_manager_id : json) (s : state Wd) :
  exists dvs,
    get_dvs_from_compute_manager Wd compute_manager_id s
    = (Return dvs,
       emit (snd (nsx_send Wd (mkRequest GET (dvs_search_url compute_manager_id) None)
                    (world s)))
         (Exchange (mkRequest GET (dvs_search_url compute_manager_id) None)
            (fst (nsx_send Wd (mkRequest GET (dvs_search_url compute_manager_id) None)
                    (world s)))) s)
    /\ truthy dvs = true
    /\ (forall e,
          fst (nsx_send Wd (mkRequest GET (dvs_search_url compute_manager_id) None)
                 (world s)) = Err e ->
          dvs = JStr "DSwitch").
Proof.
  unfold get_dvs_from_compute_manager, try_except, bind, nsx_get.
  change ("/policy/api/v1/search?query=" ++ _) with (dvs_search_url compute_manager_id).
  rewrite nsx_call_eq.
  destruct (nsx_send Wd _ (world s)) as [[resp | e] w]; cbn [fst snd].
  2: { eexists. split; [reflexivity | ]. split; [reflexivity | ]. reflexivity. }
  destruct (safejson resp) as [body | e]; cbn [lift ret raise].
  2: { eexists. split; [reflexivity | ]. split; [reflexivity | discriminate]. }
  destruct (Py.iter _) as [items | e]; cbn [lift ret raise].
  2: { eexists. split; [reflexivity | ]. split; [reflexivity | discriminate]. }
  destruct (first_dvs items) as [[uuid | ] | e] eqn:F; cbn [lift ret raise].
  - eexists. split; [reflexivity | ]. split; [eapply first_dvs_truthy, F | discriminate].
  - eexists. split; [reflexivity | ]. split; [reflexivity | discriminate].
  - eexists. split; [reflexivity | ]. split; [reflexivity | discriminate].
Qed.

Lemma matching_zones_match name type zones found zone :
  matching_zones name type zones = Ok found ->
  In zone found ->
  In (JObj zone) zones
  /\ dict_get "display_name" zone = Some (JStr name)
  /\ dict_get "tz_type" zone = Some (JStr type).
Proof.
  revert found. induction zones as [ | x zones IH]; simpl; intros found H I.
  - injection H as <-. contradiction.
  - destruct x as [ | b | n | str | l | m]; try discriminate.
    destruct (matching_zones name type zones) as [tail | e]; [ | discriminate].
    cbn [rbind] in H.
    destruct (py_eq (dict_get_or "display_name" JNull m) (JStr name)) eqn:N;
      [destruct (py_eq (dict_get_or "tz_type" JNull m) (JStr type)) eqn:T | ];
      cbn [andb] in H; injection H as <-.
    + destruct I as [I | I].
      * subst zone. split; [now left | ].
        apply py_eq_str in N, T. unfold dict_get_or in N, T.
        destruct (dict_get "display_name" m); [ | discriminate].
        destruct (dict_get "tz_type" m); [ | discriminate].
        now subst.
      * destruct (IH tail eq_refl I) as (A & B & C). split; [now right | now split].
    + destruct (IH tail eq_refl I) as (A & B & C). split; [now right | now split].
    + destruct (IH tail eq_refl I) as (A & B & C). split; [now right | now split].
Qed.

Lemma ensure_path_other prefix d k :
  k <> "path" -> dict_get k (ensure_path prefix d) = dict_get k d.
Proof.
  intros N. unfold ensure_path.
  destruct (dict_get "path" d); [reflexivity | ].
  destruct (dict_get "id" d); [ | reflexivity].
  now apply dict_get_set_other.
Qed.

(** X3.  A transport zone that [get_transport_zone] returns has the display
    name asked for and the Policy API type the transport type maps to
    (OVERLAY to OVERLAY_STANDARD, VLAN to VLAN_BACKED, any other type to
    itself); a zone of the right name and another type is never returned.
    When it has an id it has a path.  The call is one [GET]. *)
Theorem transport_zone_matches (display_name transport_type : string)
  (s s' : state Wd) (zone : dict) :
  get_transport_zone Wd display_name transport_type s = (Return zone, s') ->
  dict_get "display_name" zone = Some (JStr display_name)
  /\ dict_get "tz_type" zone = Some (JStr (tz_type_mapping transport_type))
  /\ tz_type_mapping "OVERLAY" = "OVERLAY_STANDARD"
  /\ tz_type_mapping "VLAN" = "VLAN_BACKED"
  /\ (dict_get "id" zone <> None -> dict_get "path" zone <> None)
  /\ exists reply,
       (trace s' = trace s ++ [Exchange (mkRequest GET transport_zones_url None) reply])%list.
Proof.
  unfold get_transport_zone, bind at 1, nsx_get. fold transport_zones_url.
  rewrite nsx_call_eq.
  destruct (nsx_send Wd _ (world s)) as [[resp | e] w]; cbn [fst snd]; [ | discriminate].
  unfold bind at 1. destruct (safejson resp) as [body | e]; cbn [lift ret raise];
    [ | discriminate].
  unfold bind at 1. destruct (Py.iter _) as [items | e]; cbn [lift ret raise];
    [ | discriminate].
  unfold bind at 1.
  destruct (matching_zones _ _ items) as [[ | raw found] | e] eqn:Z; cbn [lift ret raise];
    try discriminate.
  intros H. injection H as <- <-.
  destruct (matching_zones_match _ _ _ _ raw Z (or_introl eq_refl)) as (_ & N & T).
  split; [rewrite ensure_path_other by discriminate; exact N | ].
  split; [rewrite ensure_path_other by discriminate; exact T | ].
  split; [reflexivity | ]. split; [reflexivity | ]. split.
  - rewrite ensure_path_id, ensure_path_spec. intros I.
    destruct (dict_get "path" raw); [discriminate | ].
    destruct (dict_get "id" raw); [discriminate | contradiction].
  - eexists. reflexivity.
Qed.

(** X4.  [get_compute_collection] is one [GET].  When the body has no
    ["results"], or [null] or an empty list under it, the function raises the
    [ValueError] that says the cluster was not found; when ["results"] is a
    list with an element, it returns the first one. *)
Theorem compute_collection_lookup (s : state Wd) (resp : response) (body : dict) :
  fst (nsx_send Wd (mkRequest GET compute_collections_url None) (world s)) = Ok resp ->
  safejson resp = Ok body ->
  (dict_get "results" body = None \/ dict_get "results" body = Some JNull
   \/ dict_get "results" body = Some (JArr []) ->
   get_compute_collection Wd s =
   (Raise cluster_not_found,
    emit (snd (nsx_send Wd (mkRequest GET compute_collections_url None) (world s)))
      (Exchange (mkRequest GET compute_collections_url None) (Ok resp)) s))
  /\ (forall first rest,
        dict_get "results" body = Some (JArr (first :: rest)) ->
        get_compute_collection Wd s =
        (Return first,
         emit (snd (nsx_send Wd (mkRequest GET compute_collections_url None) (world s)))
           (Exchange (mkRequest GET compute_collections_url None) (Ok resp)) s)).
Proof.
  intros R J.
  assert (E :
    get_compute_collection Wd s =
    (if negb (truthy (dict_get_or "results" JNull body)) then Raise cluster_not_found
     else match dict_item body "results" with
          | Ok results =>
              match Py.item0 results with Ok first => Return first | Err e => Raise e end
          | Err e => Raise e
          end,
     emit (snd (nsx_send Wd (mkRequest GET compute_collections_url None) (world s)))
       (Exchange (mkRequest GET compute_collections_url None) (Ok resp)) s)).
  { unfold get_compute_collection, bind at 1, nsx_get.
    change ("/api/v1/fabric/compute-collections?display_name=" ++ "Cluster")
      with compute_collections_url.
    rewrite nsx_call_eq, R. cbn [fst snd]. unfold bind at 1. rewrite J. cbn [lift ret].
    destruct (negb _); [reflexivity | ].
    unfold bind. destruct (dict_item body "results") as [results | e]; [ | reflexivity].
    cbn [lift ret]. destruct (Py.item0 results); reflexivity. }
  split.
  - intros [D | [D | D]]; rewrite E; unfold dict_get_or; rewrite D; reflexivity.
  - intros first rest D. rewrite E. unfold dict_get_or, dict_item. rewrite D. reflexivity.
Qed.

End LookupProperties.

Section SubnetProperties.

Variable Wd : World.

Lemma create_block_subnet_run (pool_path : string) block_path (s : state Wd) :
  create_block_subnet Wd (JStr pool_path) block_path s =
  let pool_id := PyStr.last_segment pool_path in
  let r1 := nsx_send Wd (mkRequest GET (subnets_url pool_id) None) (world s) in
  let s1 := emit (snd r1) (Exchange (mkRequest GET (subnets_url pool_id) None) (fst r1)) s in
  match decoded (fst r1) with
  | Return _ =>
      let r2 := nsx_send Wd (subnet_check pool_id) (world s1) in
      let s2 := emit (snd r2) (Exchange (subnet_check pool_id) (fst r2)) s1 in
      let r3 := nsx_send Wd (subnet_write pool_id) (world s2) in
      let s3 := emit (snd r3) (Exchange (subnet_write pool_id) (fst r3)) s2 in
      match fst r2 with
      | Ok check_response =>
          if status_code check_response =? 200
          then (decoded (Ok check_response), s2)
          else (decoded (fst r3), s3)
      | Err _ => (decoded (fst r3), s3)
      end
  | Raise e => (Raise e, s1)
  | OutOfFuel => (OutOfFuel, s1)
  end.
Proof.
  cbv zeta. unfold subnet_check, subnet_write, create_block_subnet, bind at 1.
  cbn [Py.split_last lift ret].
  unfold bind at 1, nsx_get. fold (subnets_url (PyStr.last_segment pool_path)).
  rewrite nsx_call_eq.
  destruct (nsx_send Wd (mkRequest GET (subnets_url _) None) (world s)) as [[resp | e] w1];
    cbn [fst snd decoded]; [ | reflexivity].
  unfold bind at 1. destruct (safejson resp) as [body | e]; cbn [lift ret raise];
    [ | reflexivity].
  unfold bind at 1, try_except, bind at 1, nsx_get, nsx_put.
  rewrite !nsx_call_eq.
  destruct (nsx_send Wd (mkRequest GET (subnet_url _ _) None) _) as [[check | e] w2];
    cbn [fst snd ret].
  - destruct (status_code check =? 200).
    + cbn [decoded]. destruct (safejson check); reflexivity.
    + unfold bind. rewrite nsx_call_eq.
      destruct (nsx_send Wd (mkRequest PUT _ _) _) as [[r | e3] w3]; cbn [fst snd decoded];
        [destruct (safejson r) | ]; reflexivity.
  - unfold bind. rewrite nsx_call_eq.
    destruct (nsx_send Wd (mkRequest PUT _ _) _) as [[r | e3] w3]; cbn [fst snd decoded];
      [destruct (safejson r) | ]; reflexivity.
Qed.

(** X5.  The subnet step reads before it writes and writes at most once:
    its requests are a [GET] of the subnets of the pool, a [GET] of the
    subnet named after the pool, and then at most one [PUT] of that subnet.
    When the second [GET] answers with status 200 nothing is written and the
    body of that answer is what the function returns.  A pool path that is
    not a string raises before any request. *)
Theorem subnet_written_at_most_once (pool_path block_path : json) (s s' : state Wd)
  (r : outcome dict) :
  create_block_subnet Wd pool_path block_path s = (r, s') ->
  exists evs,
    trace s' = (trace s ++ evs)%list
    /\ (match pool_path with
        | JStr text =>
            let pool_id := PyStr.last_segment text in
            requests evs = [mkRequest GET (subnets_url pool_id) None]
            \/ requests evs = [mkRequest GET (subnets_url pool_id) None; subnet_check pool_id]
            \/ requests evs = [mkRequest GET (subnets_url pool_id) None; subnet_check pool_id;
                                subnet_write pool_id]
        | _ => evs = [] /\ exists e, r = Raise e /\ exn_kind e = AttributeError
        end)
    /\ (forall first req check_response rest,
          evs = first :: Exchange req (Ok check_response) :: rest ->
          status_code check_response = 200 ->
          rest = [] /\ r = decoded (Ok check_response)).
Proof.
  intros H.
  destruct pool_path as [ | b | n | text | l | m];
    try (injection H as <- <-; exists []; split; [now rewrite app_nil_r | ];
         split; [split; [reflexivity | eexists; split; reflexivity] | ];
         intros; discriminate).
  rewrite create_block_subnet_run in H. cbv zeta in H.
  set (pool_id := PyStr.last_segment text) in *.
  destruct (nsx_send Wd (mkRequest GET (subnets_url pool_id) None) (world s)) as [r1 w1].
  cbn [fst snd] in H.
  destruct (decoded r1) as [body | e | ].
  2, 3: injection H as <- <-; eexists [_]; split; [reflexivity | ];
        (split; [left; reflexivity | intros; discriminate]).
  cbn [world emit] in H.
  destruct (nsx_send Wd (subnet_check pool_id) w1) as [r2 w2]. cbn [fst snd world emit] in H.
  destruct (nsx_send Wd (subnet_write pool_id) w2) as [r3 w3]. cbn [fst snd] in H.
  destruct r2 as [check | e].
  - destruct (status_code check =? 200) eqn:C; injection H as <- <-.
    + eexists [_; _]. split; [cbn; now rewrite <- app_assoc | ].
      split; [right; left; reflexivity | ].
      intros first req cr rest E _. injection E as _ _ <- <-. split; reflexivity.
    + eexists [_; _; _]. split; [cbn; now rewrite <- !app_assoc | ].
      split; [right; right; reflexivity | ].
      intros first req cr rest E S. injection E as _ _ <- _.
      apply Z.eqb_neq in C. contradiction.
  - injection H as <- <-.
    eexists [_; _; _]. split; [cbn; now rewrite <- !app_assoc | ].
    split; [right; right; reflexivity | ].
    intros first req cr rest E S. discriminate.
Qed.

(** X6.  The uplink profile step asks for the profile first; when the answer
    has an id the profile is returned as it came and nothing is written;
    otherwise, also on the empty body of a missing profile, it is followed by
    exactly one [PUT]. *)
Theorem uplink_profile_reused (s s' : state Wd) (r : outcome dict) :
  create_uplink_host_switch_profile Wd s = (r, s') ->
  exists evs,
    trace s' = (trace s ++ evs)%list
    /\ (map req_method (requests evs) = [GET] \/ map req_method (requests evs) = [GET; PUT])
    /\ (forall req resp existing_profile rest,
          evs = Exchange req (Ok resp) :: rest ->
          safejson resp = Ok existing_profile ->
          (dict_get "id" existing_profile <> None ->
           rest = [] /\ r = Return existing_profile)
          /\ (dict_get "id" existing_profile = None ->
              map req_method (requests evs) = [GET; PUT])).
Proof.
  unfold create_uplink_host_switch_profile, bind at 1, nsx_get.
  rewrite nsx_call_eq.
  destruct (nsx_send Wd _ (world s)) as [[resp | e] w1]; cbn [fst snd].
  2: { intros H. injection H as <- <-. eexists [_]. split; [reflexivity | ].
       split; [left; reflexivity | ]. intros; discriminate. }
  unfold bind at 1. destruct (safejson resp) as [body | e] eqn:J; cbn [lift ret raise].
  2: { intros H. injection H as <- <-. eexists [_]. split; [reflexivity | ].
       split; [left; reflexivity | ].
       intros req r0 b rest E J'. injection E as _ <- _. congruence. }
  unfold dict_has.
  destruct (dict_get "id" body) as [id | ] eqn:I.
  - assert (T : dict_truthy body = true) by (destruct body; [discriminate I | reflexivity]).
    rewrite T. cbn [andb ret]. intros H. injection H as <- <-.
    eexists [_]. split; [reflexivity | ]. split; [left; reflexivity | ].
    intros req r0 b rest E J'. injection E as _ <- <-.
    assert (b = body) by congruence. subst b.
    split; [intros _; split; reflexivity | intros N; congruence].
  - rewrite Bool.andb_false_r. unfold bind, nsx_put. rewrite nsx_call_eq.
    destruct (nsx_send Wd _ _) as [[r2 | e] w2]; cbn [fst snd]; intros H.
    + destruct (safejson r2); injection H as <- <-;
        (eexists [_; _]; split; [cbn; now rewrite <- app_assoc | ];
         split; [right; reflexivity | ];
         intros req r0 b rest E J'; injection E as _ <- _;
         assert (b = body) by congruence; subst b;
         split; [intros N; congruence | reflexivity]).
    + injection H as <- <-.
      eexists [_; _]. split; [cbn; now rewrite <- app_assoc | ].
      split; [right; reflexivity | ].
      intros req r0 b rest E J'. injection E as _ <- _.
      assert (b = body) by congruence. subst b.
      split; [intros N; congruence | reflexivity].
Qed.

(** X7.  The thumbprint of the vCenter is fetched before anything is asked
    of NSX: when the TLS connection fails, [create_compute_manager] raises
    that error without a single NSX request, also when the compute manager is
    registered already. *)
Theorem thumbprint_failure_gates_registration (zpod : Zpod) (s : state Wd) (e : exn)
  (w : backend Wd) :
  getpeercert Wd ("vcsa." ++ domain zpod) 443 (world s) = (Err e, w) ->
  create_compute_manager Wd zpod s
  = (Raise e, emit w (PeerCert ("vcsa." ++ domain zpod) 443 (Err e)) s)
  /\ requests (trace (snd (create_compute_manager Wd zpod s))) = requests (trace s).
Proof.
  intros H.
  assert (E : create_compute_manager Wd zpod s
              = (Raise e, emit w (PeerCert ("vcsa." ++ domain zpod) 443 (Err e)) s)).
  { unfold create_compute_manager.
    apply bind_raise. rewrite get_ssl_thumbprint_run, H. reflexivity. }
  split; [exact E | ]. rewrite E. cbn [snd trace emit].
  unfold requests. rewrite flat_map_app. cbn. apply app_nil_r.
Qed.

End SubnetProperties.

Section PathRoundTrip.

Lemma split_on_not_nil sep s : PyStr.split_on sep s <> [].
Proof.
  destruct s as [ | c s]; simpl; [discriminate | ].
  destruct (Ascii.eqb c sep); [discriminate | ].
  destruct (PyStr.split_on sep s); discriminate.
Qed.

Lemma split_on_after_separator sep a b :
  exists pre, pre <> [] /\
    PyStr.split_on sep (a ++ String sep b) = (pre ++ PyStr.split_on sep b)%list.
Proof.
  induction a as [ | c a (pre & N & E)]; simpl.
  - rewrite Ascii.eqb_refl. exists [EmptyString]. split; [discriminate | reflexivity].
  - rewrite E. destruct (Ascii.eqb c sep).
    + exists (EmptyString :: pre). split; [discriminate | reflexivity].
    + destruct pre as [ | h t]; [contradiction | ].
      exists (String c h :: t). split; [discriminate | reflexivity].
Qed.

Lemma last_app_not_nil (A : Type) (l1 l2 : list A) d :
  l2 <> [] -> last (l1 ++ l2) d = last l2 d.
Proof.
  intros N. induction l1 as [ | x l1 IH]; [reflexivity | ].
  simpl. destruct (l1 ++ l2)%list eqn:E; [ | exact IH].
  apply app_eq_nil in E as [_ E]. contradiction.
Qed.

Lemma last_segment_after_slash a b :
  PyStr.last_segment (a ++ String "/" b) = PyStr.last_segment b.
Proof.
  unfold PyStr.last_segment.
  destruct (split_on_after_separator "/" a b) as (pre & _ & ->).
  apply last_app_not_nil, split_on_not_nil.
Qed.

Lemma contains_slash_head c s :
  PyStr.contains "/" (String c s) = Ascii.eqb c "/" || PyStr.contains "/" s.
Proof.
  cbn [PyStr.contains String.prefix].
  destruct (ascii_dec "/" c) as [E | N].
  - subst c. rewrite Ascii.eqb_refl. now destruct s.
  - destruct (Ascii.eqb_spec c "/") as [E | _]; [now subst | reflexivity].
Qed.

Lemma split_on_no_separator s :
  PyStr.contains "/" s = false -> PyStr.split_on "/" s = [s].
Proof.
  induction s as [ | c s IH]; [reflexivity | ].
  rewrite contains_slash_head. intros H. apply Bool.orb_false_iff in H as [C S].
  simpl. rewrite C, (IH S). reflexivity.
Qed.

Lemma last_segment_no_slash s : PyStr.contains "/" s = false -> PyStr.last_segment s = s.
Proof. intros H. unfold PyStr.last_segment. now rewrite split_on_no_separator. Qed.

(** X8.  The paths the script makes up and the ids it later cuts out of them
    agree.  For an id without a slash: the pool id the subnet step takes from
    the path of a pool normalised from that id is the id, and the realised
    path the realisation wait asks about for the collection path made from
    the id ends with the id. *)
Theorem synthesized_path_round_trip (raw : dict) (id : string) :
  PyStr.contains "/" id = false ->
  dict_get "path" raw = None ->
  dict_get "id" raw = Some (JStr id) ->
  rbind (dict_item (ensure_path ip_pool_prefix raw) "path") Py.split_last = Ok id
  /\ realized_entity_url (JStr ("/transport-node-collections/" ++ id)) = Ok (realized_url id).
Proof.
  intros S P I. split.
  - unfold dict_item. rewrite ensure_path_spec, P, I. cbn [rbind Py.split_last Py.str].
    change (ip_pool_prefix ++ id)
      with ("/policy/api/v1/infra/ip-pools" ++ String "/" id).
    now rewrite last_segment_after_slash, last_segment_no_slash.
  - unfold realized_entity_url. cbn [Py.contains].
    change ("/transport-node-collections/" ++ id)
      with (String "/" ("transport-node-collections/" ++ id)) at 1.
    rewrite contains_slash_head. cbn [Ascii.eqb Bool.eqb orb rbind Py.split_last].
    change ("/transport-node-collections/" ++ id)
      with ("/transport-node-collections" ++ String "/" id).
    now rewrite last_segment_after_slash, last_segment_no_slash.
Qed.

End PathRoundTrip.

Section OrchestratorEdges.

Variable Wd : World.

(** When the host transport-node collection the backend answered with
    has no usable path (absent, null or empty) and no id, the last two steps
    are skipped: the run returns without a request, without waiting for the
    realisation and without checking the hosts. *)
Lemma realization_skipped_without_path (fuel : nat) (htnc : dict)
  (compute_collection : json) (s : state Wd) :
  truthy (dict_get_or "path" JNull htnc) = false ->
  dict_get "id" htnc = None ->
  realization_steps Wd fuel htnc compute_collection s = (Return tt, s).
Proof.
  intros P I. unfold realization_steps, dict_has. rewrite P, I. reflexivity.
Qed.

(** X9.  With the setting on and the client built, when the request that
    accepts the EULA raises, the run raises the same error and its trace is
    the authentication followed by that one request: nothing was asked of NSX
    before it, and nothing is asked after. *)
Theorem eula_failure_is_fatal (fuel : nat) (zpod_component_id : Z) (s : state Wd)
  (e : exn) (w1 w2 : backend Wd) :
  get_setting_value Wd "ff_component_wait_for_status" (world s) = JStr "true" ->
  auth_by_zpod Wd (session_get_zpod Wd zpod_component_id (world s)) (world s)
  = (Ok tt, w1) ->
  nsx_send Wd eula_request w1 = (Err e, w2) ->
  execute_config_script Wd fuel zpod_component_id s
  = (Raise e,
     emit w2 (Exchange eula_request (Err e))
       (emit w1 (Auth (session_get_zpod Wd zpod_component_id (world s)) (Ok tt)) s)).
Proof.
  intros T A E.
  unfold execute_config_script, bind at 1, load_zpod.
  unfold bind at 1, setting_value. rewrite T.
  change (negb (py_eq (JStr "true") (JStr "true"))) with false. cbv iota.
  unfold bind at 1, steps_to_ip_pool, bind at 1, nsx_auth. rewrite A.
  unfold bind at 1, accept_eula, bind at 1, nsx_post. rewrite nsx_call_eq.
  fold eula_request. cbn [world emit]. rewrite E. reflexivity.
Qed.

End OrchestratorEdges.

Section PollBounds.

Variable Wd : World.

Lemma requests_app evs1 evs2 : requests (evs1 ++ evs2) = (requests evs1 ++ requests evs2)%list.
Proof. apply flat_map_app. Qed.

Lemma sleeps_app evs1 evs2 : sleeps (evs1 ++ evs2) = (sleeps evs1 ++ sleeps evs2)%list.
Proof. apply flat_map_app. Qed.

Lemma inject_succ (n : nat) :
  (inject_Z (Z.of_nat (S n)) == inject_Z (Z.of_nat n) + 1)%Q.
Proof.
  rewrite Nat2Z.inj_succ. unfold Z.succ. rewrite inject_Z_plus. reflexivity.
Qed.

Lemma check_connection_loop_unfold fuel id timeout start :
  check_connection_loop Wd (S fuel) id timeout start =
  (now <- time ;;
   if Qle_bool (inject_Z timeout) (now - start) then ret false
   else
     up <- check_connection Wd id ;;
     if up then ret true
     else sleep 10 ;; check_connection_loop Wd fuel id timeout start).
Proof. reflexivity. Qed.

Lemma realization_loop_unfold fuel htnc_path timeout start :
  realization_loop Wd (S fuel) htnc_path timeout start =
  (now <- time ;;
   if Qle_bool (inject_Z timeout) (now - start)
   then raise (mkExn TimeoutError
                 ("Timeout: Host Transport Node Collection " ++ Py.str htnc_path
                    ++ " not realized after " ++ PyStr.of_Z timeout ++ "s"))
   else
     url <- lift (realized_entity_url htnc_path) ;;
     response <- nsx_get url ;;
     state <- lift (safejson response) ;;
     if py_eq (dict_get_or "state" JNull state) (JStr "REALIZED") then ret tt
     else sleep 10 ;; realization_loop Wd fuel htnc_path timeout start).
Proof. reflexivity. Qed.

Lemma check_connection_loop_bounded (Hclock : clock_advances Wd) id timeout start n :
  forall s : state Wd,
    (inject_Z timeout - (time_time Wd (world s) - start) <= 10 * inject_Z (Z.of_nat n))%Q ->
    exists up s' evs,
      check_connection_loop Wd (S n) id timeout start s = (Return up, s')
      /\ trace s' = (trace s ++ evs)%list
      /\ requests evs = repeat (status_request id) (List.length (requests evs))
      /\ sleeps evs = repeat 10 (List.length (sleeps evs))
      /\ (List.length (requests evs) <= n)%nat
      /\ (List.length (sleeps evs) <= n)%nat.
Proof.
  destruct Hclock as [Hreq Hsleep].
  induction n as [ | n IH]; intros s B.
  - rewrite check_connection_loop_unfold. unfold bind at 1, time.
    destruct (Qle_bool _ _) eqn:Q.
    + exists false, s, []. rewrite app_nil_r. repeat split; auto.
    + exfalso. apply Bool.not_true_iff_false in Q. apply Q, Qle_bool_iff.
      change (inject_Z (Z.of_nat 0)) with 0%Q in B. lra.
  - rewrite check_connection_loop_unfold. unfold bind at 1, time.
    destruct (Qle_bool _ _) eqn:Q.
    + exists false, s, []. rewrite app_nil_r. repeat split; auto; apply Nat.le_0_l.
    + rewrite (bind_return (check_connection_run Wd id s)).
      destruct (connection_up _).
      * eexists true, _, [_]. split; [reflexivity | ]. split; [reflexivity | ].
        cbn. repeat split; auto; lia.
      * unfold bind at 1, sleep. cbv beta iota.
        edestruct IH as (up & s' & evs & R & T & Rq & Sl & Lr & Ls).
        2: { rewrite R. exists up, s'. eexists (_ :: _ :: evs).
             split; [reflexivity | ]. split.
             { rewrite T. cbn [trace emit]. rewrite <- !app_assoc. reflexivity. }
             cbn [requests sleeps flat_map app List.length repeat].
             fold (requests evs). fold (sleeps evs).
             split; [now rewrite <- Rq | ]. split; [now rewrite <- Sl | ]. lia. }
        cbn [world emit].
        specialize (Hreq (status_request id) (world s)).
        specialize (Hsleep 10 (snd (nsx_send Wd (status_request id) (world s)))).
        change (inject_Z 10) with 10%Q in Hsleep.
        rewrite inject_succ in B. lra.
Qed.

(** X10.  With a clock that advances, the connection-status poll is bounded
    by its time budget: when the budget is at most 10 n seconds the loop
    makes at most n status requests, 10 seconds apart, and the final check
    adds one; with the 120 seconds the orchestrator gives, at most 13
    requests and 12 sleeps.  Every request goes to the status endpoint of the
    compute manager, and every sleep lasts 10 seconds. *)
Theorem connection_poll_bounded (compute_manager_id : json) (timeout : Z) (n : nat)
  (s : state Wd) :
  clock_advances Wd ->
  (inject_Z timeout <= 10 * inject_Z (Z.of_nat n))%Q ->
  exists s' evs,
    check_compute_manager_status Wd (S n) compute_manager_id timeout s = (Return tt, s')
    /\ trace s' = (trace s ++ evs)%list
    /\ requests evs = repeat (status_request compute_manager_id) (List.length (requests evs))
    /\ sleeps evs = repeat 10 (List.length (sleeps evs))
    /\ (List.length (requests evs) <= S n)%nat
    /\ (List.length (sleeps evs) <= n)%nat.
Proof.
  intros Hclock B. rewrite check_compute_manager_status_run.
  destruct (check_connection_loop_bounded Hclock compute_manager_id timeout
              (time_time Wd (world s)) n s) as (up & s1 & evs & R & T & Rq & Sl & Lr & Ls).
  { lra. }
  rewrite R. destruct up.
  - exists s1, evs. repeat split; auto.
  - rewrite final_connection_check_run. eexists _, (evs ++ [_])%list.
    split; [reflexivity | ]. split.
    { cbn [trace emit]. rewrite T, <- app_assoc. reflexivity. }
    rewrite requests_app, sleeps_app. cbn [requests sleeps flat_map app].
    rewrite app_nil_r, length_app. cbn [List.length].
    split; [rewrite repeat_app; cbn [repeat]; f_equal; exact Rq | ].
    split; [exact Sl | ]. lia.
Qed.

Lemma realization_loop_realized fuel htnc_path timeout start :
  forall s s' : state Wd,
    realization_loop Wd fuel htnc_path timeout start s = (Return tt, s') ->
    exists evs req resp body,
      trace s' = (trace s ++ evs ++ [Exchange req (Ok resp)])%list
      /\ safejson resp = Ok body
      /\ dict_get "state" body = Some (JStr "REALIZED").
Proof.
  induction fuel as [ | fuel IH]; intros s s'; [discriminate | ].
  rewrite realization_loop_unfold.
  unfold bind at 1, time. destruct (Qle_bool _ _); [discriminate | ].
  unfold bind at 1. destruct (realized_entity_url htnc_path) as [url | e];
    cbn [lift ret raise]; [ | discriminate].
  unfold bind at 1, nsx_get. rewrite nsx_call_eq.
  destruct (nsx_send Wd _ (world s)) as [[resp | e] w]; cbn [fst snd]; [ | discriminate].
  unfold bind at 1. destruct (safejson resp) as [body | e] eqn:J; cbn [lift ret raise];
    [ | discriminate].
  destruct (py_eq _ _) eqn:E.
  - intros H. injection H as <-. exists [], (mkRequest GET url None), resp, body.
    split; [reflexivity | ]. split; [exact J | ].
    apply py_eq_str in E. unfold dict_get_or in E.
    destruct (dict_get "state" body); [now subst | discriminate].
  - unfold bind at 1, sleep. intros H.
    destruct (IH _ _ H) as (evs & req & r & b & T & J' & S).
    eexists (_ :: _ :: evs), req, r, b. split; [ | split; assumption].
    rewrite T. cbn [trace emit]. rewrite <- !app_assoc. reflexivity.
Qed.

Lemma realization_loop_bounded (Hclock : clock_advances Wd) htnc_path timeout start n :
  forall s : state Wd,
    (inject_Z timeout - (time_time Wd (world s) - start) <= 10 * inject_Z (Z.of_nat n))%Q ->
    exists r s' evs,
      realization_loop Wd (S n) htnc_path timeout start s = (r, s')
      /\ r <> OutOfFuel
      /\ trace s' = (trace s ++ evs)%list
      /\ sleeps evs = repeat 10 (List.length (sleeps evs))
      /\ (List.length (requests evs) <= n)%nat
      /\ (List.length (sleeps evs) <= n)%nat.
Proof.
  destruct Hclock as [Hreq Hsleep].
  induction n as [ | n IH]; intros s B; rewrite realization_loop_unfold;
    unfold bind at 1, time.
  - destruct (Qle_bool _ _) eqn:Q.
    { eexists _, s, []. rewrite app_nil_r. split; [reflexivity | ].
      split; [discriminate | ]. repeat split; apply Nat.le_0_l. }
    exfalso. apply Bool.not_true_iff_false in Q. apply Q, Qle_bool_iff.
    change (inject_Z (Z.of_nat 0)) with 0%Q in B. lra.
  - destruct (Qle_bool _ _) eqn:Q.
    { eexists _, s, []. rewrite app_nil_r. split; [reflexivity | ].
      split; [discriminate | ]. repeat split; apply Nat.le_0_l. }
    unfold bind at 1. destruct (realized_entity_url htnc_path) as [url | e];
      cbn [lift ret raise].
    2: { eexists _, s, []. rewrite app_nil_r. split; [reflexivity | ].
         split; [discriminate | ]. repeat split; apply Nat.le_0_l. }
    unfold bind at 1, nsx_get. rewrite nsx_call_eq.
    pose proof (Hreq (mkRequest GET url None) (world s)) as Hr.
    destruct (nsx_send Wd _ (world s)) as [[resp | e] w]; cbn [fst snd] in *.
    2: { eexists _, _, [_]. split; [reflexivity | ]. split; [discriminate | ].
         split; [reflexivity | ]. cbn. repeat split; lia. }
    unfold bind at 1. destruct (safejson resp) as [body | e]; cbn [lift ret raise].
    2: { eexists _, _, [_]. split; [reflexivity | ]. split; [discriminate | ].
         split; [reflexivity | ]. cbn. repeat split; lia. }
    destruct (py_eq _ _).
    + eexists _, _, [_]. split; [reflexivity | ]. split; [discriminate | ].
      split; [reflexivity | ]. cbn. repeat split; lia.
    + unfold bind at 1, sleep. cbv beta iota.
      edestruct IH as (r & s' & evs & R & NF & T & Sl & Lr & Ls).
      2: { rewrite R. exists r, s'. eexists (_ :: _ :: evs).
           split; [reflexivity | ]. split; [exact NF | ]. split.
           { rewrite T. cbn [trace emit]. rewrite <- !app_assoc. reflexivity. }
           cbn [requests sleeps flat_map app List.length repeat].
           fold (requests evs). fold (sleeps evs).
           split; [now rewrite <- Sl | ]. lia. }
      cbn [world emit].
      specialize (Hsleep 10 w). change (inject_Z 10) with 10%Q in Hsleep.
      rewrite inject_succ in B. lra.
Qed.

(** X11.  The realisation wait returns only after a status request answered
    that the state is REALIZED: the last exchange of a call that returns is
    such an answer.  With a clock that advances and a budget of at most 10 n
    seconds, the wait ends, by returning or by raising, after at most n
    requests and n sleeps of 10 seconds; 30 of each for the 300 seconds of
    the orchestrator. *)
Theorem realization_wait_bounded (htnc_path : json) (timeout : Z) (s : state Wd) :
  (forall fuel s',
     wait_for_htnc_realization Wd fuel htnc_path timeout s = (Return tt, s') ->
     exists evs req resp body,
       trace s' = (trace s ++ evs ++ [Exchange req (Ok resp)])%list
       /\ safejson resp = Ok body
       /\ dict_get "state" body = Some (JStr "REALIZED"))
  /\ (clock_advances Wd ->
      forall n,
        (inject_Z timeout <= 10 * inject_Z (Z.of_nat n))%Q ->
        exists r s' evs,
          wait_for_htnc_realization Wd (S n) htnc_path timeout s = (r, s')
          /\ r <> OutOfFuel
          /\ trace s' = (trace s ++ evs)%list
          /\ sleeps evs = repeat 10 (List.length (sleeps evs))
          /\ (List.length (requests evs) <= n)%nat
          /\ (List.length (sleeps evs) <= n)%nat).
Proof.
  split.
  - intros fuel s'. unfold wait_for_htnc_realization, bind, time.
    apply realization_loop_realized.
  - intros Hclock n B. unfold wait_for_htnc_realization, bind at 1, time.
    apply (realization_loop_bounded Hclock). lra.
Qed.

End PollBounds.

Section HostPreparationProperties.

Variable Wd : World.

Lemma check_node_answered verdict node t (s : state Wd) :
  fetches_answer Wd verdict [node] ->
  check_node Wd node t s
  = (Return (record_verdict (verdict node) (display_name_of node) t),
     mkState (snd (nsx_send Wd (node_status_request node) (world s)))
       (trace s ++ [Exchange (node_status_request node)
                      (fst (nsx_send Wd (node_status_request node) (world s)))])
       (match fst (nsx_send Wd (node_status_request node) (world s)) with
        | Ok resp => match safejson resp with Ok data => Some data | Err _ => None end
        | Err _ => None
        end)).
Proof.
  intros F. destruct (F node (world s) (or_introl eq_refl)) as (resp & data & R & J & V & P).
  unfold check_node, bind at 1, try_except, bind at 1, nsx_get.
  fold (node_status_request node). rewrite nsx_call_eq.
  fold (node_status_request node). rewrite R. cbn [fst snd].
  unfold bind at 1. rewrite J. cbn [lift ret].
  unfold bind at 1, bind_status_data. unfold bind at 1, read_status_data.
  cbn [status_data world trace emit].
  cbn [ret status_data]. unfold bind, lift. rewrite V, P. reflexivity.
Qed.

Lemma fetches_answer_tail verdict node nodes :
  fetches_answer Wd verdict (node :: nodes) ->
  fetches_answer Wd verdict [node] /\ fetches_answer Wd verdict nodes.
Proof.
  intros F. split; intros n w I; apply F.
  - destruct I as [<- | []]. now left.
  - now right.
Qed.

Lemma check_nodes_answered verdict nodes :
  fetches_answer Wd verdict nodes ->
  forall t (s : state Wd),
    exists s',
      check_nodes Wd nodes t s = (Return (tally_of verdict nodes t), s')
      /\ exists evs,
           trace s' = (trace s ++ evs)%list
           /\ requests evs = map node_status_request nodes
           /\ sleeps evs = [].
Proof.
  induction nodes as [ | node nodes IH]; intros F t s.
  - exists s. split; [reflexivity | ]. exists []. now rewrite app_nil_r.
  - apply fetches_answer_tail in F as [F1 F2].
    cbn [check_nodes]. rewrite (bind_return (check_node_answered _ _ t s F1)).
    edestruct (IH F2) as (s' & R & evs & T & Rq & Sl).
    exists s'. split; [exact R | ].
    eexists (_ :: evs). split; [ | split].
    + rewrite T. cbn [trace]. rewrite <- app_assoc. reflexivity.
    + cbn [requests flat_map app map]. fold (requests evs). now rewrite Rq.
    + cbn [sleeps flat_map app]. exact Sl.
Qed.

Lemma tally_of_cons verdict node nodes t :
  tally_of verdict (node :: nodes) t
  = tally_of verdict nodes (record_verdict (verdict node) (display_name_of node) t).
Proof. reflexivity. Qed.

Lemma tally_of_failed verdict nodes t :
  failed_nodes (tally_of verdict nodes t)
  = (failed_nodes t
       ++ map display_name_of (filter (fun n => is_failed (verdict n)) nodes))%list.
Proof.
  revert t. induction nodes as [ | node nodes IH]; intros t.
  - cbn. now rewrite app_nil_r.
  - rewrite tally_of_cons, IH. cbn [filter].
    destruct (verdict node); cbn [record_verdict is_failed failed_nodes append_preparing
                                   append_failed map]; try reflexivity.
    now rewrite <- app_assoc.
Qed.

Lemma tally_of_ready verdict nodes t :
  all_ready (tally_of verdict nodes t)
  = all_ready t && forallb (fun n => is_ready (verdict n)) nodes.
Proof.
  revert t. induction nodes as [ | node nodes IH]; intros t.
  - cbn. now rewrite Bool.andb_true_r.
  - rewrite tally_of_cons, IH. cbn [forallb].
    destruct (verdict node); cbn [record_verdict is_ready all_ready append_preparing
                                   append_failed andb]; try reflexivity.
    + now rewrite Bool.andb_false_r.
    + now rewrite Bool.andb_false_r.
Qed.

Lemma verify_status_run cid (s : state Wd) :
  verify_nsx_configuration_status Wd cid s
  = verify_loop Wd 60 cid 0 (mkState (world s) (trace s) None).
Proof. reflexivity. Qed.

(** X12.  When the first listing of the poll has transport nodes of the
    compute collection and every status fetch answers: if at least one node
    is classified failed, the poll raises at once, without a sleep or a
    second attempt, an error that names the failed nodes, all of them and in
    the order of the listing; if every node is classified ready the poll
    returns at once.  In both cases the requests are the listing and one
    status request per node. *)
Theorem first_attempt_is_conclusive (cid : json) (verdict : dict -> PollOutcome)
  (node : dict) (nodes : list dict) (s : state Wd) :
  listed_nodes cid (fst (nsx_send Wd listing_request (world s))) = Ok (node :: nodes) ->
  fetches_answer Wd verdict (node :: nodes) ->
  (forall names,
     filter (fun n => is_failed (verdict n)) (node :: nodes) <> [] ->
     Py.join ", "
       (map display_name_of (filter (fun n => is_failed (verdict n)) (node :: nodes)))
     = Ok names ->
     exists s' evs,
       verify_nsx_configuration_status Wd cid s
       = (Raise (mkExn PlainException ("Host preparation failed for: " ++ names)), s')
       /\ trace s' = (trace s ++ evs)%list
       /\ requests evs = listing_request :: map node_status_request (node :: nodes)
       /\ sleeps evs = [])
  /\ (forallb (fun n => is_ready (verdict n)) (node :: nodes) = true ->
      exists s' evs,
        verify_nsx_configuration_status Wd cid s = (Return tt, s')
        /\ trace s' = (trace s ++ evs)%list
        /\ requests evs = listing_request :: map node_status_request (node :: nodes)
        /\ sleeps evs = []).
Proof.
  intros L F.
  set (s0 := mkState (world s) (trace s) None).
  set (s1 := emit (snd (nsx_send Wd listing_request (world s0)))
               (Exchange listing_request (fst (nsx_send Wd listing_request (world s0)))) s0).
  destruct (check_nodes_answered _ _ F fresh_tally s1) as (s2 & C & evs & T & Rq & Sl).
  assert (A : verify_attempt Wd cid (0 + 1) s0
              = conclude Wd (0 + 1) (tally_of verdict (node :: nodes) fresh_tally) s2).
  { rewrite verify_attempt_run. cbv zeta. change (world s0) with (world s). rewrite L.
    fold s1 in C. change (world s) with (world s0). fold s1. now rewrite C. }
  assert (E : trace s2 = (trace s ++ Exchange listing_request
                                       (fst (nsx_send Wd listing_request (world s))) :: evs)%list).
  { rewrite T. subst s1 s0. cbn [trace emit world]. now rewrite <- app_assoc. }
  split.
  - intros names NE J. exists s2. eexists. split; [ | split; [exact E | split] ].
    + rewrite verify_status_run. fold s0. rewrite verify_loop_step, A. unfold conclude.
      rewrite tally_of_failed. cbn [failed_nodes fresh_tally app].
      destruct (map display_name_of _) as [ | n0 ns] eqn:M.
      * apply map_eq_nil in M. contradiction.
      * rewrite J.
        replace (says_failed (mkExn PlainException ("Host preparation failed for: " ++ names)))
          with true; [reflexivity | ].
        symmetry. unfold says_failed. apply Bool.orb_true_iff. left. reflexivity.
    + cbn [requests flat_map app]. fold (requests evs). now rewrite Rq.
    + cbn [sleeps flat_map app]. exact Sl.
  - intros R. exists s2. eexists. split; [ | split; [exact E | split] ].
    + rewrite verify_status_run. fold s0. rewrite verify_loop_step, A. unfold conclude.
      rewrite tally_of_failed, tally_of_ready. cbn [failed_nodes fresh_tally app all_ready].
      rewrite R. cbn [andb].
      replace (filter (fun n => is_failed (verdict n)) (node :: nodes)) with (@nil dict);
        [reflexivity | ].
      symmetry. clear -R. induction (node :: nodes) as [ | x l IH]; [reflexivity | ].
      cbn [forallb filter] in *. apply Bool.andb_true_iff in R as [X R].
      destruct (verdict x); try discriminate X. cbn [is_failed]. now apply IH.
    + cbn [requests flat_map app]. fold (requests evs). now rewrite Rq.
    + cbn [sleeps flat_map app]. exact Sl.
Qed.

End HostPreparationProperties.

Section PollTotals.

Variable Wd : World.

Lemma listings_app evs1 evs2 :
  listings (evs1 ++ evs2) = (listings evs1 ++ listings evs2)%list.
Proof. unfold listings. now rewrite requests_app, filter_app. Qed.

Lemma check_node_trace node t (s s' : state Wd) r :
  check_node Wd node t s = (r, s') ->
  r <> OutOfFuel
  /\ exists reply,
       trace s' = (trace s ++ [Exchange (node_status_request node) reply])%list.
Proof.
  unfold check_node, bind at 1, try_except, bind at 1, nsx_get.
  fold (node_status_request node). rewrite nsx_call_eq.
  destruct (nsx_send Wd _ (world s)) as [[resp | e] w]; cbn [fst snd].
  - unfold bind at 1. destruct (safejson resp) as [data | e]; cbn [lift ret raise].
    + unfold bind at 1, bind_status_data. cbn [ret]. unfold bind at 1, read_status_data.
      cbn [status_data]. unfold bind, lift.
      destruct (node_verdict data) as [v | e]; [destruct (node_report data) as [[] | e] | ];
        intros H; injection H as <- <-; (split; [discriminate | eexists; reflexivity]).
    + unfold bind at 1, read_status_data. cbn [status_data emit].
      destruct (status_data s) as [data | ].
      * unfold bind, lift.
        destruct (node_verdict data) as [v | e']; [destruct (node_report data) as [[] | e'] | ];
          intros H; injection H as <- <-; (split; [discriminate | eexists; reflexivity]).
      * intros H; injection H as <- <-. split; [discriminate | eexists; reflexivity].
  - cbn [ret]. unfold bind at 1, read_status_data. cbn [status_data emit].
    destruct (status_data s) as [data | ].
    + unfold bind, lift.
      destruct (node_verdict data) as [v | e']; [destruct (node_report data) as [[] | e'] | ];
        intros H; injection H as <- <-; (split; [discriminate | eexists; reflexivity]).
    + intros H; injection H as <- <-. split; [discriminate | eexists; reflexivity].
Qed.

Lemma node_status_is_no_listing node :
  String.eqb (req_url (node_status_request node)) "/api/v1/transport-nodes" = false.
Proof. reflexivity. Qed.

Lemma check_nodes_trace nodes :
  forall t (s s' : state Wd) r,
    check_nodes Wd nodes t s = (r, s') ->
    r <> OutOfFuel
    /\ exists evs,
         trace s' = (trace s ++ evs)%list /\ sleeps evs = [] /\ listings evs = [].
Proof.
  induction nodes as [ | node nodes IH]; intros t s s' r; cbn [check_nodes].
  - intros H. injection H as <- <-. split; [discriminate | ].
    exists []. now rewrite app_nil_r.
  - unfold bind.
    destruct (check_node Wd node t s) as [[t1 | e | ] s1] eqn:C;
      destruct (check_node_trace _ _ _ _ _ C) as (NF & reply & T).
    + intros H. destruct (IH _ _ _ _ H) as (NF' & evs & T' & S & L).
      split; [exact NF' | ]. eexists (_ :: evs). split; [ | split].
      * rewrite T', T, <- app_assoc. reflexivity.
      * exact S.
      * change (listings (Exchange (node_status_request node) reply :: evs))
          with (if String.eqb (req_url (node_status_request node)) "/api/v1/transport-nodes"
                then node_status_request node :: listings evs else listings evs).
        now rewrite node_status_is_no_listing.
    + intros H. injection H as <- <-. split; [discriminate | ].
      eexists [_]. split; [exact T | ]. split; reflexivity.
    + contradiction.
Qed.

(** An attempt makes one listing request and sleeps at most once, only
    before handing over to a next attempt that the counter still allows. *)
Lemma verify_attempt_trace cid attempt (s s1 : state Wd) r :
  verify_attempt Wd cid attempt s = (r, s1) ->
  r <> OutOfFuel
  /\ exists evs,
       trace s1 = (trace s ++ evs)%list
       /\ List.length (listings evs) = 1%nat
       /\ ((r = Return NextAttempt /\ sleeps evs = [10] /\ attempt < 60)
           \/ (r <> Return NextAttempt /\ sleeps evs = [])).
Proof.
  rewrite verify_attempt_run. cbv zeta.
  set (reply := fst (nsx_send Wd listing_request (world s))).
  set (s0 := emit _ _ s).
  assert (T0 : trace s0 = (trace s ++ [Exchange listing_request reply])%list) by reflexivity.
  destruct (listed_nodes cid reply) as [[ | node nodes] | e].
  - destruct (attempt <? 60) eqn:A; intros H; injection H as <- <-;
      (split; [discriminate | ]).
    + eexists [_; _]. split; [unfold after_sleep; cbn [trace emit]; rewrite T0, <- app_assoc;
                               reflexivity | ].
      split; [reflexivity | ]. left. apply Z.ltb_lt in A. now repeat split.
    + eexists [_]. split; [exact T0 | ]. split; [reflexivity | ]. right.
      split; [discriminate | reflexivity].
  - destruct (check_nodes Wd (node :: nodes) fresh_tally s0) as [[t | e | ] s2] eqn:C;
      destruct (check_nodes_trace _ _ _ _ _ C) as (NF & evs & T & S & L);
      [ | intros H; injection H as <- <- | contradiction ].
    + assert (B : forall evs', sleeps evs' = [] \/ sleeps evs' = [10] ->
                  listings evs' = [] ->
                  List.length (listings (Exchange listing_request reply :: evs ++ evs')) = 1%nat).
      { intros evs' _ L'.
        change (Exchange listing_request reply :: evs ++ evs')%list
          with ([Exchange listing_request reply] ++ (evs ++ evs'))%list.
        rewrite !listings_app, L, L'. reflexivity. }
      unfold conclude. destruct (failed_nodes t) as [ | f fs].
      * destruct (all_ready t).
        { intros H. injection H as <- <-. split; [discriminate | ].
          exists (Exchange listing_request reply :: evs ++ [])%list.
          split; [rewrite app_nil_r, T, T0, <- app_assoc; reflexivity | ].
          split; [apply B; [now left | reflexivity] | ].
          right. split; [discriminate | ]. rewrite app_nil_r. exact S. }
        destruct (attempt <? 60) eqn:A; intros H; injection H as <- <-;
          (split; [discriminate | ]).
        { exists (Exchange listing_request reply :: evs ++ [Sleep 10])%list.
          split; [unfold after_sleep; cbn [trace emit]; rewrite T, T0, <- !app_assoc;
                  reflexivity | ].
          split; [apply B; [now right | reflexivity] | ].
          left. apply Z.ltb_lt in A. split; [reflexivity | split; [ | exact A] ].
          change (sleeps (Exchange listing_request reply :: evs ++ [Sleep 10]))
            with (sleeps (evs ++ [Sleep 10])).
          now rewrite sleeps_app, S. }
        { exists (Exchange listing_request reply :: evs ++ [])%list.
          split; [rewrite app_nil_r, T, T0, <- app_assoc; reflexivity | ].
          split; [apply B; [now left | reflexivity] | ].
          right. split; [discriminate | ]. rewrite app_nil_r. exact S. }
      * destruct (Py.join ", " (f :: fs)); intros H; injection H as <- <-;
          (split; [discriminate | ];
           exists (Exchange listing_request reply :: evs ++ [])%list;
           split; [rewrite app_nil_r, T, T0, <- app_assoc; reflexivity | ];
           split; [apply B; [now left | reflexivity] | ];
           right; split; [discriminate | ]; rewrite app_nil_r; exact S).
    + split; [discriminate | ].
      exists (Exchange listing_request reply :: evs)%list.
      split; [rewrite T, T0, <- app_assoc; reflexivity | ].
      split.
      { change (Exchange listing_request reply :: evs)%list
          with ([Exchange listing_request reply] ++ evs)%list.
        rewrite listings_app, L. reflexivity. }
      right. split; [discriminate | exact S].
  - intros H. injection H as <- <-. split; [discriminate | ].
    eexists [_]. split; [exact T0 | ]. split; [reflexivity | ]. right.
    split; [discriminate | reflexivity].
Qed.

Lemma verify_loop_totals cid remaining :
  forall attempt (s s' : state Wd) r,
    attempt + Z.of_nat remaining = 60 ->
    verify_loop Wd remaining cid attempt s = (r, s') ->
    r <> OutOfFuel
    /\ exists evs,
         trace s' = (trace s ++ evs)%list
         /\ sleeps evs = repeat 10 (List.length (sleeps evs))
         /\ (List.length (sleeps evs) <= remaining - 1)%nat
         /\ (List.length (listings evs) <= remaining)%nat.
Proof.
  induction remaining as [ | remaining IH]; intros attempt s s' r B.
  - intros H. injection H as <- <-. split; [discriminate | ].
    exists []. rewrite app_nil_r. repeat split; auto.
  - rewrite verify_loop_step.
    destruct (verify_attempt Wd cid (attempt + 1) s) as [r1 s1] eqn:A.
    destruct (verify_attempt_trace _ _ _ _ _ A) as (NF & evs & T & L & D).
    assert (Next : forall s2 : state Wd,
              attempt + 1 < 60 ->
              (exists tail, sleeps tail = [10] /\ listings tail = []
                            /\ trace s2 = (trace s ++ evs ++ tail)%list
                            /\ (sleeps evs = [] \/ tail = [])) ->
              verify_loop Wd remaining cid (attempt + 1) s2 = (r, s') ->
              r <> OutOfFuel
              /\ exists evs0,
                   trace s' = (trace s ++ evs0)%list
                   /\ sleeps evs0 = repeat 10 (List.length (sleeps evs0))
                   /\ (List.length (sleeps evs0) <= S remaining - 1)%nat
                   /\ (List.length (listings evs0) <= S remaining)%nat).
    { intros s2 A60 (tail & St & Lt & T2 & One) H.
      destruct (IH (attempt + 1) s2 s' r) as (NF' & evs' & T' & S' & Ls & Ll); [lia | exact H | ].
      split; [exact NF' | ].
      exists (evs ++ tail ++ evs')%list. split; [rewrite T', T2, <- !app_assoc; reflexivity | ].
      rewrite !sleeps_app, !listings_app, !length_app, L, Lt, St.
      assert (Se : sleeps evs = []).
      { destruct One as [E | E]; [exact E | ]. subst tail. discriminate St. }
      rewrite Se. cbn [app List.length repeat Nat.add]. split; [now rewrite <- S' | ]. lia. }
    destruct r1 as [[ | ] | e | ].
    + intros H. injection H as <- <-. split; [discriminate | ].
      destruct D as [(D & _) | (_ & S)]; [discriminate | ].
      exists evs. split; [exact T | ]. rewrite S, L. cbn. repeat split; lia.
    + destruct D as [(_ & S & A60) | (D & _)]; [ | contradiction].
      intros H.
      destruct (IH (attempt + 1) s1 s' r) as (NF' & evs' & T' & S' & Ls & Ll); [lia | exact H | ].
      split; [exact NF' | ].
      exists (evs ++ evs')%list. split; [rewrite T', T, <- app_assoc; reflexivity | ].
      rewrite sleeps_app, listings_app, !length_app, L, S. cbn [app List.length repeat Nat.add].
      split; [now rewrite <- S' | ]. lia.
    + destruct D as [(D & _) | (_ & S)]; [discriminate | ].
      destruct (says_failed e).
      * intros H. injection H as <- <-. split; [discriminate | ].
        exists evs. split; [exact T | ]. rewrite S, L. cbn. repeat split; lia.
      * destruct (attempt + 1 <? 60) eqn:A60.
        { apply Next; [now apply Z.ltb_lt | ].
          exists [Sleep 10]. split; [reflexivity | ]. split; [reflexivity | ].
          split; [unfold after_sleep; cbn [trace emit]; rewrite T, <- app_assoc; reflexivity | ].
          now left. }
        intros H. injection H as <- <-. split; [discriminate | ].
        exists evs. split; [exact T | ]. rewrite S, L. cbn. repeat split; lia.
    + contradiction.
Qed.

(** X13.  The host-preparation poll is bounded whatever the backend does: a
    call lists the transport nodes at most 60 times and sleeps at most 59
    times, 10 seconds each, so it gives up after at most 590 seconds of
    waiting. *)
Theorem poll_is_bounded (cid : json) (s s' : state Wd) (r : outcome unit) :
  verify_nsx_configuration_status Wd cid s = (r, s') ->
  exists evs,
    trace s' = (trace s ++ evs)%list
    /\ sleeps evs = repeat 10 (List.length (sleeps evs))
    /\ (List.length (sleeps evs) <= 59)%nat
    /\ (List.length (listings evs) <= 60)%nat.
Proof.
  rewrite verify_status_run. intros H.
  destruct (verify_loop_totals cid 60 0 _ _ _ eq_refl H) as (_ & evs & T & S & Ls & Ll).
  exists evs. repeat split; assumption.
Qed.

Lemma verify_attempt_ends cid attempt (s s1 : state Wd) r :
  verify_attempt Wd cid attempt s = (r, s1) ->
  (r = Return Finished ->
   exists node nodes t,
     listed_nodes cid (fst (nsx_send Wd listing_request (world s))) = Ok (node :: nodes)
     /\ check_nodes Wd (node :: nodes) fresh_tally
          (emit (snd (nsx_send Wd listing_request (world s)))
             (Exchange listing_request (fst (nsx_send Wd listing_request (world s)))) s)
        = (Return t, s1)
     /\ failed_nodes t = [] /\ all_ready t = true)
  /\ (r = Return NextAttempt -> attempt < 60).
Proof.
  intros H. split.
  - intros ->. rewrite verify_attempt_run in H. cbv zeta in H.
    destruct (listed_nodes cid _) as [[ | node nodes] | e].
    + destruct (attempt <? 60); discriminate.
    + destruct (check_nodes Wd (node :: nodes) fresh_tally _) as [[t | e | ] s2] eqn:C;
        try discriminate.
      unfold conclude in H. destruct (failed_nodes t) as [ | f fs] eqn:F.
      * destruct (all_ready t) eqn:R.
        { injection H as <-. now exists node, nodes, t. }
        destruct (attempt <? 60); discriminate.
      * destruct (Py.join ", " (f :: fs)); discriminate.
    + discriminate.
  - intros ->. destruct (verify_attempt_trace _ _ _ _ _ H) as (_ & evs & _ & _ & D).
    destruct D as [(_ & _ & A) | (D & _)]; [exact A | contradiction].
Qed.

Lemma verify_loop_success cid remaining :
  forall attempt (s s' : state Wd),
    attempt + Z.of_nat remaining = 60 ->
    (1 <= remaining)%nat ->
    verify_loop Wd remaining cid attempt s = (Return tt, s') ->
    exists (s0 : state Wd) node nodes t,
      listed_nodes cid (fst (nsx_send Wd listing_request (world s0))) = Ok (node :: nodes)
      /\ check_nodes Wd (node :: nodes) fresh_tally
           (emit (snd (nsx_send Wd listing_request (world s0)))
              (Exchange listing_request (fst (nsx_send Wd listing_request (world s0)))) s0)
         = (Return t, s')
      /\ failed_nodes t = [] /\ all_ready t = true.
Proof.
  induction remaining as [ | remaining IH]; intros attempt s s' B P; [lia | ].
  rewrite verify_loop_step.
  destruct (verify_attempt Wd cid (attempt + 1) s) as [r1 s1] eqn:A.
  destruct (verify_attempt_ends _ _ _ _ _ A) as (Fin & Nxt).
  destruct r1 as [[ | ] | e | ].
  - intros H. injection H as <-.
    destruct (Fin eq_refl) as (node & nodes & t & X). now exists s, node, nodes, t.
  - specialize (Nxt eq_refl). apply IH; lia.
  - destruct (says_failed e); [discriminate | ].
    destruct (attempt + 1 <? 60) eqn:A60; [ | discriminate].
    apply Z.ltb_lt in A60. apply IH; lia.
  - discriminate.
Qed.

(** X14.  The host-preparation poll never succeeds on an empty set of nodes
    nor while a node is failed or preparing: when it returns, its last
    attempt listed at least one transport node of the compute collection,
    looked at every one of them without an exception, and found none failed
    and all ready. *)
Theorem poll_success_needs_ready_nodes (cid : json) (s s' : state Wd) :
  verify_nsx_configuration_status Wd cid s = (Return tt, s') ->
  exists (s0 : state Wd) node nodes t,
    listed_nodes cid (fst (nsx_send Wd listing_request (world s0))) = Ok (node :: nodes)
    /\ check_nodes Wd (node :: nodes) fresh_tally
         (emit (snd (nsx_send Wd listing_request (world s0)))
            (Exchange listing_request (fst (nsx_send Wd listing_request (world s0)))) s0)
       = (Return t, s')
    /\ failed_nodes t = [] /\ all_ready t = true.
Proof.
  rewrite verify_status_run. apply verify_loop_success; [reflexivity | lia].
Qed.

End PollTotals.

Section PollBudget.

Variable Wd : World.

Lemma preparing_nodes_loop cid verdict node nodes :
  (forall w, listed_nodes cid (fst (nsx_send Wd listing_request w)) = Ok (node :: nodes)) ->
  fetches_answer Wd verdict (node :: nodes) ->
  filter (fun n => is_failed (verdict n)) (node :: nodes) = [] ->
  forallb (fun n => is_ready (verdict n)) (node :: nodes) = false ->
  forall remaining attempt (s : state Wd),
    attempt + Z.of_nat (S remaining) = 60 ->
    exists s' evs,
      verify_loop Wd (S remaining) cid attempt s = (Raise preparation_timeout, s')
      /\ trace s' = (trace s ++ evs)%list
      /\ requests evs = List.concat (repeat (attempt_requests (node :: nodes)) (S remaining))
      /\ sleeps evs = repeat 10 remaining.
Proof.
  intros L F NF NR.
  assert (Turn : forall attempt (s : state Wd),
            exists s2 evs,
              verify_attempt Wd cid attempt s
              = (if attempt <? 60 then (Return NextAttempt, after_sleep Wd s2)
                 else (Raise preparation_timeout, s2))
              /\ trace s2 = (trace s ++ evs)%list
              /\ requests evs = attempt_requests (node :: nodes)
              /\ sleeps evs = []).
  { intros attempt s. rewrite verify_attempt_run. cbv zeta. rewrite L.
    edestruct (check_nodes_answered Wd verdict (node :: nodes) F fresh_tally)
      as (s2 & C & evs & T & Rq & Sl).
    rewrite C. exists s2. eexists (_ :: evs). split; [ | split; [ | split] ].
    - unfold conclude. rewrite tally_of_failed, tally_of_ready, NF, NR. reflexivity.
    - rewrite T. cbn [trace emit]. rewrite <- app_assoc. reflexivity.
    - cbn [requests flat_map app]. fold (requests evs). rewrite Rq. reflexivity.
    - exact Sl. }
  induction remaining as [ | remaining IH]; intros attempt s B;
    rewrite verify_loop_step;
    destruct (Turn (attempt + 1) s) as (s2 & evs & A & T & Rq & Sl); rewrite A.
  - replace (attempt + 1 <? 60) with false by (symmetry; apply Z.ltb_ge; lia).
    change (says_failed preparation_timeout) with false. cbv iota.
    exists s2, evs. split; [reflexivity | ]. split; [exact T | ].
    split; [cbn [repeat List.concat]; now rewrite app_nil_r | exact Sl].
  - replace (attempt + 1 <? 60) with true by (symmetry; apply Z.ltb_lt; lia).
    destruct (IH (attempt + 1) (after_sleep Wd s2)) as (s' & evs' & R & T' & Rq' & Sl');
      [lia | ].
    exists s', (evs ++ Sleep 10 :: evs')%list. split; [exact R | ].
    split; [ | split].
    + rewrite T'. unfold after_sleep. cbn [trace emit]. rewrite T, <- !app_assoc.
      reflexivity.
    + rewrite requests_app. cbn [requests flat_map app]. fold (requests evs').
      rewrite Rq, Rq'. reflexivity.
    + rewrite sleeps_app, Sl. cbn [sleeps flat_map app]. fold (sleeps evs').
      now rewrite Sl'.
Qed.

(** X15.  Nodes that stay in preparation use up the budget: when every
    listing has the same transport nodes of the compute collection, every
    status fetch answers, no node is classified failed and not all are
    ready, the poll makes 60 attempts, each one the listing followed by one
    status request per node, sleeps 10 seconds between two attempts, 59
    times, and then raises the timeout error. *)
Theorem preparing_nodes_time_out (cid : json) (verdict : dict -> PollOutcome)
  (node : dict) (nodes : list dict) (s : state Wd) :
  (forall w, listed_nodes cid (fst (nsx_send Wd listing_request w)) = Ok (node :: nodes)) ->
  fetches_answer Wd verdict (node :: nodes) ->
  filter (fun n => is_failed (verdict n)) (node :: nodes) = [] ->
  forallb (fun n => is_ready (verdict n)) (node :: nodes) = false ->
  exists s' evs,
    verify_nsx_configuration_status Wd cid s = (Raise preparation_timeout, s')
    /\ trace s' = (trace s ++ evs)%list
    /\ requests evs = List.concat (repeat (attempt_requests (node :: nodes)) 60)
    /\ sleeps evs = repeat 10 59.
Proof.
  intros L F NF NR. rewrite verify_status_run.
  destruct (preparing_nodes_loop cid verdict node nodes L F NF NR 59 0
              (mkState (world s) (trace s) None) eq_refl) as (s' & evs & R & T & Rq & Sl).
  exists s', evs. split; [exact R | ]. split; [exact T | ]. split; [exact Rq | exact Sl].
Qed.

(** X16.  A listing that cannot be used is asked for again until the budget
    is spent.  When the listing request always raises an error whose message
    has neither "failed" nor "error", or when it always answers without a
    transport node of the compute collection, the poll makes 60 listing
    requests and nothing else, sleeps 10 seconds 59 times, and raises: the
    error of the request in the first case, the error saying that no
    transport nodes were found in the second. *)
Theorem unusable_listing_exhausts_budget (cid : json) (s : state Wd) :
  (forall e,
     (forall w, fst (nsx_send Wd listing_request w) = Err e) ->
     says_failed e = false ->
     exists s' evs,
       verify_nsx_configuration_status Wd cid s = (Raise e, s')
       /\ trace s' = (trace s ++ evs)%list
       /\ requests evs = repeat listing_request 60
       /\ sleeps evs = repeat 10 59)
  /\ ((forall w, listed_nodes cid (fst (nsx_send Wd listing_request w)) = Ok []) ->
      exists s' evs,
        verify_nsx_configuration_status Wd cid s = (Raise no_nodes_found, s')
        /\ trace s' = (trace s ++ evs)%list
        /\ requests evs = repeat listing_request 60
        /\ sleeps evs = repeat 10 59).
Proof.
  split.
  - intros e L N. rewrite verify_status_run.
    destruct (poll_retries_listing_errors Wd cid e L N 59 0
                (mkState (world s) (trace s) None) eq_refl) as (s' & evs & R & T & Rq & Sl).
    exists s', evs. split; [exact R | ]. split; [exact T | ]. split; [exact Rq | exact Sl].
  - intros L. rewrite verify_status_run.
    destruct (poll_retries_empty_listings Wd cid L 59 0
                (mkState (world s) (trace s) None) eq_refl) as (s' & evs & R & T & Rq & Sl).
    exists s', evs. split; [exact R | ]. split; [exact T | ]. split; [exact Rq | exact Sl].
Qed.

Lemma relevant_nodes_sound cid items :
  forall nodes,
    relevant_nodes cid items = Ok nodes ->
    forall node,
      In node nodes ->
      In (JObj node) items
      /\ (if negb (truthy (dict_get_or "compute_collection_id" JNull node))
             && dict_has "node_deployment_info" node
          then exists info v,
                 dict_get "node_deployment_info" node = Some info
                 /\ Py.get info "compute_collection_id" = Ok v
                 /\ py_eq v cid = true
          else py_eq (dict_get_or "compute_collection_id" JNull node) cid = true).
Proof.
  induction items as [ | item items IH]; intros nodes; cbn [relevant_nodes].
  - intros H. injection H as <-. intros node [].
  - destruct item as [ | b | n | str | l | m]; try discriminate. cbv zeta.
    destruct (negb (truthy (dict_get_or "compute_collection_id" JNull m))
              && dict_has "node_deployment_info" m) eqn:Indirect.
    + unfold dict_item, dict_has in *.
      destruct (dict_get "node_deployment_info" m) as [info | ] eqn:I;
        [ | rewrite Bool.andb_false_r in Indirect; discriminate].
      cbn [rbind]. destruct (Py.get info "compute_collection_id") as [v | e] eqn:G;
        cbn [rbind]; [ | discriminate].
      destruct (relevant_nodes cid items) as [tail | e]; cbn [rbind]; [ | discriminate].
      destruct (py_eq v cid) eqn:E; intros H; injection H as <-; intros node.
      * intros [<- | T].
        { split; [now left | ]. unfold dict_has. rewrite I, Indirect. now exists info, v. }
        destruct (IH tail eq_refl node T) as [X Y]. split; [now right | exact Y].
      * intros T. destruct (IH tail eq_refl node T) as [X Y]. split; [now right | exact Y].
    + cbn [rbind].
      destruct (relevant_nodes cid items) as [tail | e]; cbn [rbind]; [ | discriminate].
      destruct (py_eq (dict_get_or "compute_collection_id" JNull m) cid) eqn:E;
        intros H; injection H as <-; intros node.
      * intros [<- | T].
        { split; [now left | ]. now rewrite Indirect. }
        destruct (IH tail eq_refl node T) as [X Y]. split; [now right | exact Y].
      * intros T. destruct (IH tail eq_refl node T) as [X Y]. split; [now right | exact Y].
Qed.

Lemma relevant_nodes_complete cid items :
  forall nodes,
    relevant_nodes cid items = Ok nodes ->
    forall node,
      In (JObj node) items ->
      truthy (dict_get_or "compute_collection_id" JNull node) = true ->
      py_eq (dict_get_or "compute_collection_id" JNull node) cid = true ->
      In node nodes.
Proof.
  induction items as [ | item items IH]; intros nodes; cbn [relevant_nodes].
  - intros _ node [].
  - destruct item as [ | b | n | str | l | m]; try discriminate. cbv zeta.
    destruct (negb (truthy (dict_get_or "compute_collection_id" JNull m))
              && dict_has "node_deployment_info" m) eqn:Indirect.
    + destruct (dict_item m "node_deployment_info") as [info | e]; cbn [rbind];
        [ | discriminate].
      destruct (Py.get info "compute_collection_id") as [v | e]; cbn [rbind];
        [ | discriminate].
      destruct (relevant_nodes cid items) as [tail | e]; cbn [rbind]; [ | discriminate].
      intros H node [X | X] T E.
      * injection X as <-. rewrite T in Indirect. discriminate.
      * destruct (py_eq v cid); injection H as <-; [right | ]; now apply (IH tail eq_refl).
    + cbn [rbind].
      destruct (relevant_nodes cid items) as [tail | e]; cbn [rbind]; [ | discriminate].
      intros H node [X | X] T E.
      * injection X as <-. rewrite E in H. injection H as <-. now left.
      * destruct (py_eq _ cid); injection H as <-; [right | ]; now apply (IH tail eq_refl).
Qed.

(** X17.  The poll looks only at the transport nodes of its compute
    collection.  Every node it keeps from a listing is an entry of the
    listing whose compute collection equals the one asked for, where the
    compute collection of an entry is its own ["compute_collection_id"] and,
    only when that is missing or empty and the entry has a
    ["node_deployment_info"], the one recorded there.  Every entry whose own
    compute collection is set and equal to the one asked for is kept. *)
Theorem poll_keeps_nodes_of_the_collection (cid : json) (reply : result response)
  (nodes : list dict) :
  listed_nodes cid reply = Ok nodes ->
  exists resp body items,
    reply = Ok resp /\ safejson resp = Ok body
    /\ Py.iter (dict_get_or "results" (JArr []) body) = Ok items
    /\ (forall node,
          In node nodes ->
          In (JObj node) items
          /\ (if negb (truthy (dict_get_or "compute_collection_id" JNull node))
                 && dict_has "node_deployment_info" node
              then exists info v,
                     dict_get "node_deployment_info" node = Some info
                     /\ Py.get info "compute_collection_id" = Ok v
                     /\ py_eq v cid = true
              else py_eq (dict_get_or "compute_collection_id" JNull node) cid = true))
    /\ (forall node,
          In (JObj node) items ->
          truthy (dict_get_or "compute_collection_id" JNull node) = true ->
          py_eq (dict_get_or "compute_collection_id" JNull node) cid = true ->
          In node nodes).
Proof.
  unfold listed_nodes. destruct reply as [resp | e]; [ | discriminate].
  destruct (safejson resp) as [body | e] eqn:J; cbn [rbind]; [ | discriminate].
  destruct (Py.iter _) as [items | e] eqn:I; cbn [rbind]; [ | discriminate].
  intros H. exists resp, body, items.
  split; [reflexivity | ]. split; [exact J | ]. split; [exact I | ]. split.
  - apply (relevant_nodes_sound cid items nodes H).
  - apply (relevant_nodes_complete cid items nodes H).
Qed.

End PollBudget.

Section PathNormalisation.

(** X18.  Adding the path to a descriptor is a normalisation: doing it twice
    is doing it once (the create functions do it again on what the lookup
    returned), it changes no key other than ["path"], it leaves a descriptor
    that has a path or has no id as it is, and the descriptor it returns has
    no path only when the one it was given had neither path nor id. *)
Theorem path_is_added_once (prefix : string) (d : dict) :
  ensure_path prefix (ensure_path prefix d) = ensure_path prefix d
  /\ (forall k, k <> "path" -> dict_get k (ensure_path prefix d) = dict_get k d)
  /\ (dict_get "path" d <> None \/ dict_get "id" d = None -> ensure_path prefix d = d)
  /\ (dict_get "path" (ensure_path prefix d) = None <->
      dict_get "path" d = None /\ dict_get "id" d = None).
Proof.
  split; [apply ensure_path_idem | ]. split; [ | split].
  - intros k K. apply ensure_path_other. exact K.
  - unfold ensure_path. intros [P | I].
    + destruct (dict_get "path" d); [reflexivity | contradiction].
    + rewrite I. now destruct (dict_get "path" d).
  - rewrite ensure_path_spec.
    destruct (dict_get "path" d); [split; [discriminate | intros [X _]; discriminate] | ].
    destruct (dict_get "id" d); [split; [discriminate | intros [_ X]; discriminate] | ].
    split; auto.
Qed.

End PathNormalisation.

Section MoreWitnesses.

Import Scripted Scenario Cases.

Lemma transport_zone_matches_witness :
  get_transport_zone zone_world "tz" "OVERLAY" zone_s0 = (Return found_zone, zone_s1)
  /\ dict_get "display_name" found_zone = Some (JStr "tz")
  /\ dict_get "tz_type" found_zone = Some (JStr "OVERLAY_STANDARD")
  /\ exists reply,
       (trace zone_s1
        = trace zone_s0 ++ [Exchange (mkRequest GET transport_zones_url None) reply])%list.
Proof.
  split; [reflexivity | ].
  destruct (transport_zone_matches zone_world "tz" "OVERLAY" zone_s0 zone_s1 found_zone
              eq_refl) as (N & T & _ & _ & _ & R).
  split; [exact N | ]. split; [exact T | exact R].
Defined.

Lemma compute_collection_lookup_witness :
  fst (nsx_send cluster_world (mkRequest GET compute_collections_url None)
         (world (initial cluster_world start)))
  = Ok (mkResponse 200 (Ok cluster_body))
  /\ safejson (mkResponse 200 (Ok cluster_body)) = Ok cluster_body
  /\ fst (get_compute_collection cluster_world (initial cluster_world start))
     = Return cluster.
Proof.
  split; [reflexivity | ]. split; [reflexivity | ].
  exact (f_equal fst
           (proj2 (compute_collection_lookup cluster_world (initial cluster_world start)
                     (mkResponse 200 (Ok cluster_body)) cluster_body eq_refl eq_refl)
              cluster [] eq_refl)).
Defined.

(** The subnet is there: it is read and not written. *)
Lemma subnet_written_at_most_once_witness :
  create_block_subnet stored_world pool_path (JStr "/api/v1/pools/ip-blocks/b1") stored_s0
  = (Return stored, subnet_s1)
  /\ exists evs,
       trace subnet_s1 = (trace stored_s0 ++ evs)%list
       /\ (requests evs = [mkRequest GET (subnets_url "ip-pool-vtep") None]
           \/ requests evs = [mkRequest GET (subnets_url "ip-pool-vtep") None;
                              subnet_check "ip-pool-vtep"]
           \/ requests evs = [mkRequest GET (subnets_url "ip-pool-vtep") None;
                              subnet_check "ip-pool-vtep"; subnet_write "ip-pool-vtep"]).
Proof.
  split; [reflexivity | ].
  destruct (subnet_written_at_most_once stored_world pool_path
              (JStr "/api/v1/pools/ip-blocks/b1") stored_s0 subnet_s1 (Return stored)
              eq_refl) as (evs & T & R & _).
  exists evs. split; [exact T | exact R].
Defined.

Lemma uplink_profile_reused_witness :
  create_uplink_host_switch_profile stored_world stored_s0 = (Return stored, uplink_s1)
  /\ exists evs,
       trace uplink_s1 = (trace stored_s0 ++ evs)%list
       /\ (map req_method (requests evs) = [GET]
           \/ map req_method (requests evs) = [GET; PUT]).
Proof.
  split; [reflexivity | ].
  destruct (uplink_profile_reused stored_world stored_s0 uplink_s1 (Return stored) eq_refl)
    as (evs & T & R & _).
  exists evs. split; [exact T | exact R].
Defined.

Lemma thumbprint_failure_gates_registration_witness :
  getpeercert empty_world ("vcsa." ++ domain the_zpod) 443
    (world (initial empty_world start))
  = (Err (mkExn ClientError "connection refused"), start)
  /\ create_compute_manager empty_world the_zpod (initial empty_world start)
     = (Raise (mkExn ClientError "connection refused"),
        emit (Wd := empty_world) start
          (PeerCert ("vcsa." ++ domain the_zpod) 443
             (Err (mkExn ClientError "connection refused")))
          (initial empty_world start))
  /\ requests (trace (snd (create_compute_manager empty_world the_zpod
                             (initial empty_world start))))
     = requests (trace (initial empty_world start)).
Proof.
  split; [reflexivity | ].
  apply (thumbprint_failure_gates_registration empty_world the_zpod
           (initial empty_world start) (mkExn ClientError "connection refused") start).
  reflexivity.
Defined.

Lemma synthesized_path_round_trip_witness :
  PyStr.contains "/" "ip-pool-vtep" = false
  /\ dict_get "path" raw_pool = None
  /\ dict_get "id" raw_pool = Some (JStr "ip-pool-vtep")
  /\ rbind (dict_item (ensure_path ip_pool_prefix raw_pool) "path") Py.split_last
     = Ok "ip-pool-vtep"
  /\ realized_entity_url (JStr ("/transport-node-collections/" ++ "ip-pool-vtep"))
     = Ok (realized_url "ip-pool-vtep").
Proof.
  split; [reflexivity | ]. split; [reflexivity | ]. split; [reflexivity | ].
  apply (synthesized_path_round_trip raw_pool "ip-pool-vtep"); reflexivity.
Defined.

Lemma eula_failure_is_fatal_witness :
  get_setting_value refused_world "ff_component_wait_for_status"
    (world (initial refused_world start)) = JStr "true"
  /\ auth_by_zpod refused_world
       (session_get_zpod refused_world 7 (world (initial refused_world start)))
       (world (initial refused_world start))
     = (Ok tt, start)
  /\ nsx_send refused_world eula_request start = (Err refused, mkSim 1 0)
  /\ execute_config_script refused_world 1 7 (initial refused_world start)
     = (Raise refused,
        emit (Wd := refused_world) (mkSim 1 0) (Exchange eula_request (Err refused))
          (emit (Wd := refused_world) start
             (Auth (session_get_zpod refused_world 7 (world (initial refused_world start)))
                (Ok tt))
             (initial refused_world start))).
Proof.
  split; [reflexivity | ]. split; [reflexivity | ]. split; [reflexivity | ].
  apply (eula_failure_is_fatal refused_world 1 7 (initial refused_world start) refused
           start (mkSim 1 0)); reflexivity.
Defined.

Lemma connection_poll_bounded_witness :
  clock_advances refused_world
  /\ (inject_Z 120 <= 10 * inject_Z (Z.of_nat 12))%Q
  /\ exists s' evs,
       check_compute_manager_status refused_world 13 (JStr "cm-1") 120
         (initial refused_world start) = (Return tt, s')
       /\ trace s' = (trace (initial refused_world start) ++ evs)%list
       /\ requests evs = repeat (status_request (JStr "cm-1")) (List.length (requests evs))
       /\ sleeps evs = repeat 10 (List.length (sleeps evs))
       /\ (List.length (requests evs) <= 13)%nat
       /\ (List.length (sleeps evs) <= 12)%nat.
Proof.
  split; [apply scripted_clock_advances | ].
  split; [unfold Qle; simpl; lia | ].
  apply (connection_poll_bounded refused_world (JStr "cm-1") 120 12
           (initial refused_world start)).
  - apply scripted_clock_advances.
  - unfold Qle; simpl; lia.
Defined.

Lemma ready_world_answers : fetches_answer ready_world (fun _ => Ready) [esx1_node].
Proof.
  intros node w [<- | []]. eexists _, _. split; [reflexivity | ].
  split; [reflexivity | ]. split; reflexivity.
Defined.

Lemma degraded_world_answers :
  fetches_answer degraded_world (fun _ => Preparing) [esx1_node].
Proof.
  intros node w [<- | []]. eexists _, _. split; [reflexivity | ].
  split; [reflexivity | ]. split; reflexivity.
Defined.

Lemma first_attempt_is_conclusive_witness :
  listed_nodes (JStr "cc") (fst (nsx_send ready_world listing_request (world ready_s0)))
  = Ok [esx1_node]
  /\ fetches_answer ready_world (fun _ => Ready) [esx1_node]
  /\ exists s' evs,
       verify_nsx_configuration_status ready_world (JStr "cc") ready_s0 = (Return tt, s')
       /\ trace s' = (trace ready_s0 ++ evs)%list
       /\ requests evs = listing_request :: map node_status_request [esx1_node]
       /\ sleeps evs = [].
Proof.
  split; [reflexivity | ]. split; [exact ready_world_answers | ].
  apply (proj2 (first_attempt_is_conclusive ready_world (JStr "cc") (fun _ => Ready)
                  esx1_node [] ready_s0 eq_refl ready_world_answers)).
  reflexivity.
Defined.

Lemma poll_is_bounded_witness :
  verify_nsx_configuration_status ready_world (JStr "cc") ready_s0 = (Return tt, ready_s1)
  /\ exists evs,
       trace ready_s1 = (trace ready_s0 ++ evs)%list
       /\ sleeps evs = repeat 10 (List.length (sleeps evs))
       /\ (List.length (sleeps evs) <= 59)%nat
       /\ (List.length (listings evs) <= 60)%nat.
Proof.
  split; [vm_compute; reflexivity | ].
  apply (poll_is_bounded ready_world (JStr "cc") ready_s0 ready_s1 (Return tt)).
  vm_compute; reflexivity.
Defined.

Lemma poll_success_needs_ready_nodes_witness :
  verify_nsx_configuration_status ready_world (JStr "cc") ready_s0 = (Return tt, ready_s1)
  /\ exists (s0 : state ready_world) node nodes t,
       listed_nodes (JStr "cc") (fst (nsx_send ready_world listing_request (world s0)))
       = Ok (node :: nodes)
       /\ check_nodes ready_world (node :: nodes) fresh_tally
            (emit (snd (nsx_send ready_world listing_request (world s0)))
               (Exchange listing_request
                  (fst (nsx_send ready_world listing_request (world s0)))) s0)
          = (Return t, ready_s1)
       /\ failed_nodes t = [] /\ all_ready t = true.
Proof.
  split; [vm_compute; reflexivity | ].
  apply (poll_success_needs_ready_nodes ready_world (JStr "cc") ready_s0 ready_s1).
  vm_compute; reflexivity.
Defined.

Lemma preparing_nodes_time_out_witness :
  (forall w,
     listed_nodes (JStr "cc") (fst (nsx_send degraded_world listing_request w))
     = Ok [esx1_node])
  /\ fetches_answer degraded_world (fun _ => Preparing) [esx1_node]
  /\ filter (fun n : dict => is_failed Preparing) [esx1_node] = []
  /\ forallb (fun n : dict => is_ready Preparing) [esx1_node] = false
  /\ exists s' evs,
       verify_nsx_configuration_status degraded_world (JStr "cc")
         (initial degraded_world start) = (Raise preparation_timeout, s')
       /\ trace s' = (trace (initial degraded_world start) ++ evs)%list
       /\ requests evs = List.concat (repeat (attempt_requests [esx1_node]) 60)
       /\ sleeps evs = repeat 10 59.
Proof.
  split; [intros w; reflexivity | ]. split; [exact degraded_world_answers | ].
  split; [reflexivity | ]. split; [reflexivity | ].
  apply (preparing_nodes_time_out degraded_world (JStr "cc") (fun _ => Preparing)
           esx1_node [] (initial degraded_world start)
           (fun w => eq_refl) degraded_world_answers eq_refl eq_refl).
Defined.

Lemma unusable_listing_exhausts_budget_witness :
  (forall w, fst (nsx_send refused_world listing_request w) = Err refused)
  /\ says_failed refused = false
  /\ exists s' evs,
       verify_nsx_configuration_status refused_world (JStr "cc")
         (initial refused_world start) = (Raise refused, s')
       /\ trace s' = (trace (initial refused_world start) ++ evs)%list
       /\ requests evs = repeat listing_request 60
       /\ sleeps evs = repeat 10 59.
Proof.
  split; [intros w; reflexivity | ]. split; [reflexivity | ].
  apply (proj1 (unusable_listing_exhausts_budget refused_world (JStr "cc")
                  (initial refused_world start)) refused (fun w => eq_refl) eq_refl).
Defined.

Lemma poll_keeps_nodes_of_the_collection_witness :
  listed_nodes (JStr "cc") mixed_listing = Ok [esx1_node; esx2_node]
  /\ exists resp body items,
       mixed_listing = Ok resp /\ safejson resp = Ok body
       /\ Py.iter (dict_get_or "results" (JArr []) body) = Ok items
       /\ (forall node,
             In node [esx1_node; esx2_node] ->
             In (JObj node) items
             /\ (if negb (truthy (dict_get_or "compute_collection_id" JNull node))
                    && dict_has "node_deployment_info" node
                 then exists info v,
                        dict_get "node_deployment_info" node = Some info
                        /\ Py.get info "compute_collection_id" = Ok v
                        /\ py_eq v (JStr "cc") = true
                 else py_eq (dict_get_or "compute_collection_id" JNull node) (JStr "cc")
                      = true))
       /\ (forall node,
             In (JObj node) items ->
             truthy (dict_get_or "compute_collection_id" JNull node) = true ->
             py_eq (dict_get_or "compute_collection_id" JNull node) (JStr "cc") = true ->
             In node [esx1_node; esx2_node]).
Proof.
  split; [reflexivity | ].
  apply (poll_keeps_nodes_of_the_collection (JStr "cc") mixed_listing
           [esx1_node; esx2_node]).
  reflexivity.
Defined.

(** The collection is realised at the third request: the wait sleeps twice
    and returns after the answer that says so. *)
Lemma realization_wait_bounded_witness :
  wait_for_htnc_realization realizing_world 31 collection_path 300 realizing_s0
  = (Return tt, realizing_s1)
  /\ map req_url (requests (trace realizing_s1))
     = repeat (realized_url "c1") 3
  /\ sleeps (trace realizing_s1) = [10; 10]
  /\ (exists evs req resp body,
        trace realizing_s1 = (trace realizing_s0 ++ evs ++ [Exchange req (Ok resp)])%list
        /\ safejson resp = Ok body
        /\ dict_get "state" body = Some (JStr "REALIZED"))
  /\ clock_advances realizing_world
  /\ (inject_Z 300 <= 10 * inject_Z (Z.of_nat 30))%Q
  /\ exists r s' evs,
       wait_for_htnc_realization realizing_world 31 collection_path 300 realizing_s0
       = (r, s')
       /\ r <> OutOfFuel
       /\ trace s' = (trace realizing_s0 ++ evs)%list
       /\ sleeps evs = repeat 10 (List.length (sleeps evs))
       /\ (List.length (requests evs) <= 30)%nat
       /\ (List.length (sleeps evs) <= 30)%nat.
Proof.
  split; [vm_compute; reflexivity | ].
  split; [vm_compute; reflexivity | ].
  split; [vm_compute; reflexivity | ].
  split.
  { apply (proj1 (realization_wait_bounded realizing_world collection_path 300
                    realizing_s0) 31%nat realizing_s1).
    vm_compute; reflexivity. }
  split; [apply scripted_clock_advances | ].
  split; [unfold Qle; simpl; lia | ].
  apply (proj2 (realization_wait_bounded realizing_world collection_path 300
                  realizing_s0)).
  - apply scripted_clock_advances.
  - unfold Qle; simpl; lia.
Defined.

End MoreWitnesses.
